(** * NiceObjects / gm_txt: the synchronisation engine

    A shallow embedding of [main.go] (the watcher, the timing gate, the
    dispatch on directory and extension, the per-file translation drivers)
    and of the two file-level translation routines
    [GMObjectFileToHumanObjectFile] and [HumanObjectFileToGMObjectFile].

    Conventions.
    - Go strings are [string]; paths use the slash separator.
    - [time.Time] is an integer count of nanoseconds since the zero [Time];
      [time.Duration] is a signed 64-bit count of nanoseconds, and [Time.Sub]
      saturates at the ends of that range, as Go's does.
    - A Go function that touches the clock, the file system, standard output
      or the package-level variables is a state transformer over [World].
    - A Go [error] is [option string] ([None] is [nil]); the string is the
      text of [err.Error()]. *)

From Stdlib Require Import ZArith Ascii String List Bool Lia.
From stdpp Require Import base option gmap strings.
Import ListNotations.

Local Open Scope string_scope.
Local Open Scope Z_scope.

(** ** Strings: [strings] and [path/filepath] *)

Module Str.

Definition chars (s : string) : list ascii := list_ascii_of_string s.
Definition unchars (l : list ascii) : string := string_of_list_ascii l.

Definition slash : ascii := "/"%char.
Definition dot : ascii := "."%char.

Definition isPathSeparator (c : ascii) : bool := Ascii.eqb c slash.

(** [strings.HasPrefix(s, prefix)] *)
Fixpoint HasPrefix (s prefix : string) : bool :=
  match prefix with
  | EmptyString => true
  | String p prefix' =>
      match s with
      | EmptyString => false
      | String c s' => Ascii.eqb c p && HasPrefix s' prefix'
      end
  end.

(** [strings.HasSuffix(s, suffix)]:
    [len(s) >= len(suffix) && s[len(s)-len(suffix):] == suffix] *)
Definition HasSuffix (s suffix : string) : bool :=
  (String.length suffix <=? String.length s)%nat &&
  String.eqb
    (substring (String.length s - String.length suffix) (String.length suffix) s)
    suffix.

(** [strings.TrimSuffix(s, suffix)] *)
Definition TrimSuffix (s suffix : string) : string :=
  if HasSuffix s suffix
  then substring 0 (String.length s - String.length suffix) s
  else s.

(** [strings.Split(s, sep)] for a one-byte separator: the pieces of [s]
    between occurrences of [sep]; never the empty list. *)
Fixpoint split_from (sep : ascii) (cur : list ascii) (l : list ascii)
  : list string :=
  match l with
  | [] => [unchars (rev cur)]
  | c :: l' =>
      if Ascii.eqb c sep
      then unchars (rev cur) :: split_from sep [] l'
      else split_from sep (c :: cur) l'
  end.

Definition Split (s : string) (sep : ascii) : list string :=
  split_from sep [] (chars s).

(** Indexing [xs[0]] of a slice of strings; the default stands for the
    run-time panic, which [Split] never triggers (it returns at least one
    piece). *)
Definition first (xs : list string) : string := hd "" xs.

(** [strings.Join(elems, sep)] *)
Fixpoint JoinWith (sep : string) (elems : list string) : string :=
  match elems with
  | [] => ""
  | [e] => e
  | e :: rest => e ++ sep ++ JoinWith sep rest
  end.

(** [filepath.Base(path)]: the last element of the path, trailing
    separators removed; ["."] for the empty path, ["/"] for a path of
    separators only. *)
Fixpoint dropSeps (r : list ascii) : list ascii :=
  match r with
  | c :: r' => if isPathSeparator c then dropSeps r' else r
  | [] => []
  end.

Fixpoint takeElem (r : list ascii) : list ascii :=
  match r with
  | c :: r' => if isPathSeparator c then [] else c :: takeElem r'
  | [] => []
  end.

Definition Base (path : string) : string :=
  if String.eqb path "" then "."
  else
    let stripped := dropSeps (rev (chars path)) in
    let elem := unchars (rev (takeElem stripped)) in
    if String.eqb elem "" then "/" else elem.

(** [filepath.Ext(path)]: scanning from the end of the path, the suffix
    that starts at the first dot met before any separator; empty when a
    separator or the start of the path comes first. *)
Fixpoint ext_scan (r : list ascii) (seen : list ascii) : list ascii :=
  match r with
  | [] => []
  | c :: r' =>
      if isPathSeparator c then []
      else if Ascii.eqb c dot then dot :: seen
      else ext_scan r' (c :: seen)
  end.

Definition Ext (path : string) : string :=
  unchars (ext_scan (rev (chars path)) []).

(** [filepath.Clean(path)], lexical clean-up of a slash-separated path:
    empty and ["."] elements disappear, [".."] removes the element before
    it (at the root it disappears, at the start of a relative path it
    stays), and the empty result is ["."]. *)
Definition clean_push (rooted : bool) (stack : list string) (elem : string)
  : list string :=
  if String.eqb elem "" then stack
  else if String.eqb elem "." then stack
  else if String.eqb elem ".." then
    match stack with
    | top :: below =>
        if String.eqb top ".." then elem :: stack else below
    | [] => if rooted then [] else [elem]
    end
  else elem :: stack.

Definition Clean (path : string) : string :=
  if String.eqb path "" then "."
  else
    let rooted := HasPrefix path "/" in
    let stack := fold_left (clean_push rooted) (Split path slash) [] in
    let body := JoinWith "/" (rev stack) in
    let out := if rooted then "/" ++ body else body in
    if String.eqb out "" then "." else out.

(** [filepath.Join(elem...)]: empty elements before the first non-empty
    one are skipped, the rest is joined with the separator and cleaned;
    all empty gives the empty string. *)
Fixpoint Join (elems : list string) : string :=
  match elems with
  | [] => ""
  | e :: rest =>
      if String.eqb e "" then Join rest
      else Clean (JoinWith "/" elems)
  end.

(** [filepath.Split(path)]: directory part (with its final separator) and
    file part. *)
Definition SplitPath (path : string) : string * string :=
  let r := rev (chars path) in
  let file := rev (takeElem r) in
  (substring 0 (String.length path - List.length file) path, unchars file).

End Str.

(** ** Time *)

Definition maxDuration : Z := 2 ^ 63 - 1.
Definition minDuration : Z := - 2 ^ 63.

Definition Nanosecond : Z := 1.
Definition Millisecond : Z := 1000000 * Nanosecond.
Definition Second : Z := 1000 * Millisecond.

(** [t.Sub(u)]: the difference as a [Duration], clamped to its range. *)
Definition Sub (t u : Z) : Z :=
  let d := t - u in
  if maxDuration <? d then maxDuration
  else if d <? minDuration then minDuration
  else d.

(** "Reverb" refers to translations causing file Write events back and
    forth between the GM and human folders. *)
Definition reverbSpacing : Z := 1 * Second.
Definition dedupSpacing : Z := 100 * Millisecond.

(** ** Errors *)

Definition error : Type := option string.

Inductive result (A E : Type) : Type :=
| Ok (a : A)
| Err (e : E).
Arguments Ok {A E} a.
Arguments Err {A E} e.

Inductive Errno : Type := ENOENT | EACCES | ENOTDIR | EINVAL.

Definition Errno_text (e : Errno) : string :=
  match e with
  | ENOENT => "no such file or directory"
  | EACCES => "permission denied"
  | ENOTDIR => "not a directory"
  | EINVAL => "invalid argument"
  end.

(** [*os.PathError] *)
Record PathError : Type := mkPathError {
  pe_op : string;
  pe_path : string;
  pe_errno : Errno
}.

Definition PathError_Error (e : PathError) : string :=
  pe_op e ++ " " ++ pe_path e ++ ": " ++ Errno_text (pe_errno e).

(** The [err] of a call that returns [(value, err)]. *)
Definition err_of {A : Type} (r : result A PathError) : option PathError :=
  match r with
  | Ok _ => None
  | Err e => Some e
  end.

(** [os.IsNotExist(err)] *)
Definition IsNotExist (err : option PathError) : bool :=
  match err with
  | Some e => match pe_errno e with ENOENT => true | _ => false end
  | None => false
  end.

Definition nl : string := String (ascii_of_nat 10) "".

(** ** The world the program runs in *)

(** Regular files with their contents, the directories, the paths the
    operating system refuses to open, create or remove and, for the files
    it has little room for, the number of bytes it takes from a buffer
    that is flushed to them. *)
Record FileSys : Type := mkFileSys {
  files : gmap string string;
  folders : gset string;
  denied : gset string;
  short : gmap string nat
}.

(** The project document: named groups, each an ordered list of
    [(name, kind)] entries. *)
Definition Manifest : Type := list (string * list (string * string)).

(** One call of the [filepath.WalkFunc] by [filepath.Walk]: the path, the
    [os.FileInfo] (here: whether it is a directory; [None] is the nil
    [FileInfo] that [Walk] passes when it could not stat the root) and the
    error [Walk] met. *)
Record Visit : Type := mkVisit {
  v_path : string;
  v_info : option bool;
  v_err : error
}.

(** What the collaborators outside the program answer: the command line,
    the file picker, the directory walker, the watcher library. *)
Record Host : Type := mkHost {
  os_Args : list string;
  dialog_Load : result string string;
  walk_visits : string -> list Visit;
  fsnotify_NewWatcher : error;
  watcher_Add : string -> error
}.

(** The package-level variables of [main.go]. *)
Record Globals : Type := mkGlobals {
  humanDir : string;
  projectPath : string;
  projectDir : string;
  gmObjectsDir : string;
  gmScriptsDir : string;
  gmChanged : Z;
  humanChanged : Z;
  lastGMFileChanged : string;
  lastHumanFileChanged : string
}.

(** [clock n] is what the [n]-th call of [time.Now()] returns. *)
Record World : Type := mkWorld {
  clock : nat -> Z;
  ticks : nat;
  fs : FileSys;
  stdout : list string;
  project : Manifest;
  host : Host;
  vars : Globals
}.

(** Zero values of the package-level variables. *)
Definition zeroGlobals : Globals :=
  mkGlobals "" "" "" "" "" 0 0 "" "".

Definition with_ticks (n : nat) (w : World) : World :=
  mkWorld (clock w) n (fs w) (stdout w) (project w) (host w) (vars w).
Definition with_fs (f : FileSys) (w : World) : World :=
  mkWorld (clock w) (ticks w) f (stdout w) (project w) (host w) (vars w).
Definition with_stdout (o : list string) (w : World) : World :=
  mkWorld (clock w) (ticks w) (fs w) o (project w) (host w) (vars w).
Definition with_project (p : Manifest) (w : World) : World :=
  mkWorld (clock w) (ticks w) (fs w) (stdout w) p (host w) (vars w).
Definition with_vars (g : Globals) (w : World) : World :=
  mkWorld (clock w) (ticks w) (fs w) (stdout w) (project w) (host w) g.

Definition with_files (m : gmap string string) (f : FileSys) : FileSys :=
  mkFileSys m (folders f) (denied f) (short f).
Definition with_folders (d : gset string) (f : FileSys) : FileSys :=
  mkFileSys (files f) d (denied f) (short f).

Definition set_paths (pp pd od sd hd : string) (g : Globals) : Globals :=
  mkGlobals hd pp pd od sd (gmChanged g) (humanChanged g)
    (lastGMFileChanged g) (lastHumanFileChanged g).
Definition set_projectPath (p : string) (g : Globals) : Globals :=
  mkGlobals (humanDir g) p (projectDir g) (gmObjectsDir g) (gmScriptsDir g)
    (gmChanged g) (humanChanged g)
    (lastGMFileChanged g) (lastHumanFileChanged g).
Definition set_gmChanged (t : Z) (g : Globals) : Globals :=
  mkGlobals (humanDir g) (projectPath g) (projectDir g) (gmObjectsDir g)
    (gmScriptsDir g) t (humanChanged g)
    (lastGMFileChanged g) (lastHumanFileChanged g).
Definition set_humanChanged (t : Z) (g : Globals) : Globals :=
  mkGlobals (humanDir g) (projectPath g) (projectDir g) (gmObjectsDir g)
    (gmScriptsDir g) (gmChanged g) t
    (lastGMFileChanged g) (lastHumanFileChanged g).
Definition set_lastGMFileChanged (p : string) (g : Globals) : Globals :=
  mkGlobals (humanDir g) (projectPath g) (projectDir g) (gmObjectsDir g)
    (gmScriptsDir g) (gmChanged g) (humanChanged g)
    p (lastHumanFileChanged g).
Definition set_lastHumanFileChanged (p : string) (g : Globals) : Globals :=
  mkGlobals (humanDir g) (projectPath g) (projectDir g) (gmObjectsDir g)
    (gmScriptsDir g) (gmChanged g) (humanChanged g)
    (lastGMFileChanged g) p.

(** ** State transformers *)

Definition M (A : Type) : Type := World -> A * World.

Definition ret {A : Type} (a : A) : M A := fun w => (a, w).

Definition bind {A B : Type} (m : M A) (k : A -> M B) : M B :=
  fun w => k (fst (m w)) (snd (m w)).

Notation "'let*' x ':=' m 'in' k" := (bind m (fun x => k))
  (at level 10, x name, m at level 100, k at level 200).

Definition gets {A : Type} (f : Globals -> A) : M A :=
  fun w => (f (vars w), w).

Definition assign (f : Globals -> Globals) : M unit :=
  fun w => (tt, with_vars (f (vars w)) w).

Definition ask {A : Type} (f : Host -> A) : M A :=
  fun w => (f (host w), w).

Definition run {A : Type} (m : M A) (w : World) : World := snd (m w).
Definition value {A : Type} (m : M A) (w : World) : A := fst (m w).

(** [time.Now()] *)
Definition time_Now : M Z :=
  fun w => (clock w (ticks w), with_ticks (S (ticks w)) w).

(** [time.Since(t)] is [time.Now().Sub(t)]. *)
Definition time_Since (t : Z) : M Z :=
  let* now := time_Now in ret (Sub now t).

(** [fmt.Printf] and [fmt.Println]: one chunk of text appended to standard
    output. *)
Definition Print (text : string) : M unit :=
  fun w => (tt, with_stdout (stdout w ++ [text])%list w).

(** [os.Stat(name)]: whether the path is a directory, or the error. *)
Definition os_Stat (name : string) : M (result bool PathError) :=
  fun w =>
    if decide (name ∈ folders (fs w)) then (Ok true, w)
    else match files (fs w) !! name with
         | Some _ => (Ok false, w)
         | None => (Err (mkPathError "stat" name ENOENT), w)
         end.

(** [os.Open(name)] followed by reading the file to its end: the
    contents at the time of the call. Only regular files are read: a path
    that is not among [files] is reported as missing. *)
Definition os_Open (name : string) : M (result string PathError) :=
  fun w =>
    if decide (name ∈ denied (fs w)) then
      (Err (mkPathError "open" name EACCES), w)
    else match files (fs w) !! name with
         | Some c => (Ok c, w)
         | None => (Err (mkPathError "open" name ENOENT), w)
         end.

(** [os.Create(name)]: the file is created, or truncated if it exists. *)
Definition os_Create (name : string) : M (option PathError) :=
  fun w =>
    if decide (name ∈ denied (fs w)) then
      (Some (mkPathError "open" name EACCES), w)
    else (None, with_fs (with_files (<[name := ""]> (files (fs w))) (fs w)) w).

(** Bytes written through the open file [name]: appended to what the file
    holds. *)
Definition file_Write (name : string) (data : string) : M unit :=
  fun w =>
    let old := default "" (files (fs w) !! name) in
    (tt, with_fs (with_files (<[name := old ++ data]> (files (fs w))) (fs w)) w).

(** [w.Flush()] on the buffered writer of the open file [name] that holds
    [data]: the bytes go to the file; for a file listed in [short] with
    fewer bytes than the buffer holds, only that many go and the flush
    fails. *)
Definition bufio_Flush (name : string) (data : string) : M error :=
  fun w =>
    match short (fs w) !! name with
    | Some n =>
        if (n <? String.length data)%nat
        then (Some "short write", snd (file_Write name (substring 0 n data) w))
        else (None, snd (file_Write name data w))
    | None => (None, snd (file_Write name data w))
    end.

(** [os.MkdirAll(path, perm)] *)
Definition os_MkdirAll (path : string) : M (option PathError) :=
  fun w =>
    if decide (path ∈ denied (fs w)) then
      (Some (mkPathError "mkdir" path EACCES), w)
    else match files (fs w) !! path with
         | Some _ => (Some (mkPathError "mkdir" path ENOTDIR), w)
         | None =>
             (None, with_fs (with_folders ({[path]} ∪ folders (fs w)) (fs w)) w)
         end.

(** ** The routines that [main.go] calls and that live in other files *)

(** What [WriteHumanObject(obj, w)] does to its buffered writer: the bytes
    the buffer passed on to the file before the call returned, the bytes
    still held in the buffer, and the error returned. *)
Record Written : Type := mkWritten {
  flushed : string;
  pending : string;
  werr : error
}.

(** The object type and the codecs: [encoding/xml] on [GMObject], the
    reader and the writer of the human format, and [Time.Format] with the
    layout ["15:04:05"]. [xml_Encode] gives the bytes that reached the file
    and the error of [Encode]. *)
Class Codec : Type := {
  GMObject : Type;
  xml_Decode : string -> result GMObject string;
  xml_Encode : GMObject -> string * error;
  WriteHumanObject : GMObject -> Written;
  ReadHumanObject : string -> GMObject -> result GMObject string;
  time_Format : Z -> string
}.

(** Modelled from the spec: [AppendResourceToGMProject] is not among the
    sources. The spec's [AppendManifestEntry] inserts a new entry at the end
    of the named group's entry list, does nothing if an entry with that name
    already exists in that group, and fails with [UnknownGroupError] if the
    group is absent. *)
Fixpoint AppendManifestEntry (manifest : Manifest) (group name kind : string)
  : result Manifest string :=
  match manifest with
  | [] => Err "UnknownGroupError"
  | (g, entries) :: rest =>
      if String.eqb g group then
        if existsb (fun e => String.eqb (fst e) name) entries
        then Ok manifest
        else Ok ((g, (entries ++ [(name, kind)])%list) :: rest)
      else
        match AppendManifestEntry rest group name kind with
        | Ok rest' => Ok ((g, entries) :: rest')
        | Err e => Err e
        end
  end.

Definition AppendResourceToGMProject (name kind group : string) : M error :=
  fun w =>
    match AppendManifestEntry (project w) group name kind with
    | Ok m => (None, with_project m w)
    | Err e => (Some e, w)
    end.

(** Modelled from the spec: [cp] is not among the sources. The spec has
    scripts copied byte for byte to the counterpart path. *)
Definition cp (dst src : string) : M error :=
  let* r := os_Open src in
  match r with
  | Err e => ret (Some (PathError_Error e))
  | Ok data =>
      let* c := os_Create dst in
      match c with
      | Some e => ret (Some (PathError_Error e))
      | None => let* _ := file_Write dst data in ret None
      end
  end.

Section Engine.

Context {codec : Codec}.

(** ** The file-level translations *)

Definition GMObjectFileToHumanObjectFile (objFilename humanFilename : string)
  : M error :=
  (* Read GM object file *)
  let* f := os_Open objFilename in
  match f with
  | Err err =>
      ret (Some ("Error opening file " ++ objFilename ++ ": "
                 ++ PathError_Error err))
  | Ok content =>
      match xml_Decode content with
      | Err err =>
          ret (Some ("Error decoding XML from " ++ objFilename ++ ": " ++ err))
      | Ok obj =>
          (* Write human object file *)
          let* c := os_Create humanFilename in
          match c with
          | Some err =>
              ret (Some ("Error creating file " ++ humanFilename ++ ": "
                         ++ PathError_Error err))
          | None =>
              let out := WriteHumanObject obj in
              let* _ := file_Write humanFilename (flushed out) in
              match werr out with
              | Some err =>
                  ret (Some ("Error writing human object to " ++ humanFilename
                             ++ ": " ++ err))
              | None =>
                  (* w.Flush(): the error it returns is dropped *)
                  let* _ := bufio_Flush humanFilename (pending out) in
                  ret None
              end
          end
      end
  end.

Definition HumanObjectFileToGMObjectFile (humanFilename objFilename : string)
  : M error :=
  (* Read GM object file *)
  let* f := os_Open objFilename in
  match f with
  | Err err =>
      ret (Some ("Error opening file " ++ objFilename ++ ": "
                 ++ PathError_Error err))
  | Ok content =>
      match xml_Decode content with
      | Err err =>
          ret (Some ("Error decoding XML from " ++ objFilename ++ ": " ++ err))
      | Ok obj =>
          (* Read human object file *)
          let* f := os_Open humanFilename in
          match f with
          | Err err =>
              ret (Some ("Error opening file " ++ humanFilename ++ ": "
                         ++ PathError_Error err))
          | Ok text =>
              match ReadHumanObject text obj with
              | Err err =>
                  ret (Some ("Error reading human object file "
                             ++ humanFilename ++ ": " ++ err))
              | Ok obj =>
                  (* Write GM object file *)
                  let* c := os_Create objFilename in
                  match c with
                  | Some err =>
                      ret (Some ("Error opening file " ++ objFilename ++ ": "
                                 ++ PathError_Error err))
                  | None =>
                      let out := xml_Encode obj in
                      let* _ := file_Write objFilename (fst out) in
                      match snd out with
                      | Some err =>
                          ret (Some ("Error writing XML to " ++ objFilename
                                     ++ ": " ++ err))
                      | None => ret None
                      end
                  end
              end
          end
      end
  end.

(** ** The timing gate *)

Definition humanFileTimingOk (humanFile : string) : M bool :=
  let* gc := gets gmChanged in
  let* sinceGM := time_Since gc in
  if reverbSpacing <? sinceGM then
    let* last := gets lastHumanFileChanged in
    if negb (String.eqb last humanFile) then ret true
    else
      let* hc := gets humanChanged in
      let* sinceHuman := time_Since hc in
      ret (dedupSpacing <? sinceHuman)
  else ret false.

Definition gmFileTimingOk (gmFile : string) : M bool :=
  let* hc := gets humanChanged in
  let* sinceHuman := time_Since hc in
  if reverbSpacing <? sinceHuman then
    let* last := gets lastGMFileChanged in
    if negb (String.eqb last gmFile) then ret true
    else
      let* gc := gets gmChanged in
      let* sinceGM := time_Since gc in
      ret (dedupSpacing <? sinceGM)
  else ret false.

(** ** Translating and copying one file *)

(** [fmt.Printf("[%v] ...\n", time.Now().Format("15:04:05"), ...)] *)
Definition logLine (text : string) : M unit :=
  let* now := time_Now in
  Print ("[" ++ time_Format now ++ "] " ++ text ++ nl).

Definition copyHumanScript (humanScriptPath : string) : M unit :=
  let fn := Str.Base humanScriptPath in
  let* scriptsDir := gets gmScriptsDir in
  let gmScriptPath := Str.Join [scriptsDir; fn] in
  let scriptName := Str.first (Str.Split fn Str.dot) in
  (* GM file not existing before translation means we have to add it to
     the project file *)
  let* st := os_Stat gmScriptPath in
  let gmFileExisted := negb (IsNotExist (err_of st)) in
  (* Copy script *)
  let* err := cp gmScriptPath humanScriptPath in
  let* _ := match err with
            | Some e => logLine e
            | None => logLine ("Copied " ++ scriptName)
            end in
  (* If necessary, add to project file *)
  if negb gmFileExisted then
    let* err := AppendResourceToGMProject fn "script" "scripts" in
    match err with
    | Some e => logLine e
    | None => logLine ("Project file updated " ++ scriptName)
    end
  else ret tt.

Definition copyGMScript (gmScriptPath : string) : M unit :=
  let fn := Str.Base gmScriptPath in
  let* hd := gets humanDir in
  let humanScriptPath := Str.Join [hd; fn] in
  let* err := cp humanScriptPath gmScriptPath in
  match err with
  | Some e => logLine ("(From GM) " ++ e)
  | None =>
      let scriptName := Str.first (Str.Split fn Str.dot) in
      logLine ("(From GM) Copied " ++ scriptName)
  end.

Definition translateHumanObject (humanObjPath : string) : M unit :=
  let objName := Str.first (Str.Split (Str.Base humanObjPath) Str.dot) in
  let* objectsDir := gets gmObjectsDir in
  let gmObjPath := Str.Join [objectsDir; objName ++ ".object.gmx"] in
  (* GM file not existing before translation means we have to add it to
     the project file *)
  let* st := os_Stat gmObjPath in
  let gmObjFileExisted := negb (IsNotExist (err_of st)) in
  (* Translate object *)
  let* err := HumanObjectFileToGMObjectFile humanObjPath gmObjPath in
  let* _ := match err with
            | Some e => logLine e
            | None => logLine ("Translated " ++ objName)
            end in
  (* If necessary, add to project file *)
  if negb gmObjFileExisted then
    let* err := AppendResourceToGMProject objName "object" "objects" in
    match err with
    | Some e => logLine e
    | None => logLine ("Project file updated " ++ objName)
    end
  else ret tt.

Definition translateGMObject (gmObjPath : string) : M unit :=
  let objName := Str.first (Str.Split (Str.Base gmObjPath) Str.dot) in
  let* hd := gets humanDir in
  let humanObjPath := Str.Join [hd; objName ++ ".gmo"] in
  let* err := GMObjectFileToHumanObjectFile gmObjPath humanObjPath in
  match err with
  | Some e => logLine ("(From GM) " ++ e)
  | None => logLine ("(From GM) Translated " ++ objName)
  end.

(** ** Watcher events *)

(** [fsnotify.Op] is a bit mask. *)
Definition Create : N := 1.
Definition Write : N := 2.
Definition Remove : N := 4.
Definition Rename : N := 8.
Definition Chmod : N := 16.

(** [fsnotify.Event] *)
Record Event : Type := mkEvent {
  Name : string;
  Op : N
}.

Definition processWatcherEvent (event : Event) : M unit :=
  if (Op event =? Write)%N then
    let ext := Str.Ext (Name event) in
    let* hd := gets humanDir in
    let* objectsDir := gets gmObjectsDir in
    let* scriptsDir := gets gmScriptsDir in
    let isHuman := Str.HasPrefix (Name event) hd in
    let isHumanObj := isHuman && String.eqb ext ".gmo" in
    let isHumanScript := isHuman && String.eqb ext ".gml" in
    let isGMObj := Str.HasPrefix (Name event) objectsDir &&
                   String.eqb ext ".gmx" (* close enough to ".object.gmx" *) in
    let isGMScript := Str.HasPrefix (Name event) scriptsDir &&
                      String.eqb ext ".gml" in
    if isHumanObj then
      let* ok := humanFileTimingOk (Name event) in
      if ok then
        let* now := time_Now in
        let* _ := assign (set_humanChanged now) in
        let* _ := assign (set_lastHumanFileChanged (Name event)) in
        translateHumanObject (Name event)
      else ret tt
    else if isHumanScript then
      let* ok := humanFileTimingOk (Name event) in
      if ok then
        let* now := time_Now in
        let* _ := assign (set_humanChanged now) in
        let* _ := assign (set_lastHumanFileChanged (Name event)) in
        copyHumanScript (Name event)
      else ret tt
    else if isGMObj then
      let* ok := gmFileTimingOk (Name event) in
      if ok then
        let* now := time_Now in
        let* _ := assign (set_gmChanged now) in
        let* _ := assign (set_lastGMFileChanged (Name event)) in
        translateGMObject (Name event)
      else ret tt
    else if isGMScript then
      let* ok := gmFileTimingOk (Name event) in
      if ok then
        let* now := time_Now in
        let* _ := assign (set_gmChanged now) in
        let* _ := assign (set_lastGMFileChanged (Name event)) in
        copyGMScript (Name event)
      else ret tt
    else ret tt
  else ret tt.

(** ** Start-up *)

Definition dq : string := String (ascii_of_nat 34) "".

Definition usage : string :=
  "Usage:" ++ nl ++ "gm_txt.exe [project_file]" ++ nl ++
  "If you provide no arguments, it'll open a file picker dialog." ++ nl.

(** What a [filepath.WalkFunc] hands back: [nil], an error, or no return
    at all because calling [info.IsDir()] on a nil [FileInfo] panics. *)
Inductive WalkRet : Type :=
| WalkNil
| WalkErr (e : string)
| WalkPanic.

(** [filepath.Walk(root, fn)]: the visits the host lists for [root], in
    order, up to the first one for which [fn] does not return [nil]. *)
Fixpoint walk_each (visits : list Visit) (fn : Visit -> M WalkRet)
  : M WalkRet :=
  match visits with
  | [] => ret WalkNil
  | v :: rest =>
      let* r := fn v in
      match r with
      | WalkNil => walk_each rest fn
      | _ => ret r
      end
  end.

Definition filepath_Walk (root : string) (fn : Visit -> M WalkRet)
  : M WalkRet :=
  let* visits := ask (fun h => walk_visits h root) in
  walk_each visits fn.

(** The first [f] of [main]: translate all GM objects. *)
Definition main_translate_f (v : Visit) : M WalkRet :=
  match v_info v with
  | None => ret WalkPanic
  | Some isDir =>
      (* Skip directories and extraneous files. *)
      if isDir || negb (Str.HasSuffix (v_path v) ".object.gmx") then ret WalkNil
      else
        (* Compute translated file path. *)
        let resourceName :=
          Str.TrimSuffix (Str.Base (v_path v)) ".object.gmx" in
        let* hd := gets humanDir in
        let destPath := Str.Join [hd; resourceName ++ ".gmo"] in
        (* Translate. *)
        let* err := GMObjectFileToHumanObjectFile (v_path v) destPath in
        match err with
        | Some e =>
            let* _ := Print ("Error initially translating " ++ resourceName
                             ++ ": " ++ e ++ nl) in
            ret (WalkErr e)
        | None => ret WalkNil
        end
  end.

(** The second [f] of [main]: copy over all GM scripts. *)
Definition main_copy_f (v : Visit) : M WalkRet :=
  match v_info v with
  | None => ret WalkPanic
  | Some isDir =>
      (* Skip directories and extraneous files. *)
      if isDir || negb (String.eqb (Str.Ext (v_path v)) ".gml") then ret WalkNil
      else
        let* hd := gets humanDir in
        let destPath := Str.Join [hd; Str.Base (v_path v)] in
        let* err := cp destPath (v_path v) in
        match err with
        | Some e => ret (WalkErr e)
        | None => ret WalkNil
        end
  end.

(** How [main] leaves its start-up phase: it returned early, it panicked,
    or it reached the wait for the control signal with the watcher
    running. *)
Inductive Exit : Type :=
| Returned
| Panicked
| Listening.

(** The argument handling of [main]: the project path, or [None] when
    [main] returns. *)
Definition main_arguments : M (option string) :=
  let* args := ask os_Args in
  if (length args <? 2)%nat then
    (* No args opens windows file picker for project path *)
    let* r := ask dialog_Load in
    match r with
    | Err e =>
        let* _ := Print ("Error in project file select dialog: " ++ e ++ nl) in
        ret None
    | Ok p => ret (Some p)
    end
  else if (length args =? 2)%nat && String.eqb (nth 1 args "") "--help" then
    let* _ := Print (usage ++ nl) in ret None
  else if (length args =? 2)%nat then
    (* One arg (non-help) specifies project path *)
    ret (Some (nth 1 args ""))
  else
    let* _ := Print (usage ++ nl) in ret None.

(** [main], from its first statement to the wait on the signal channel.
    The two goroutines it starts are the watcher loop ([watch] below) and
    the reader of typed commands, which only prints help texts. *)
Definition main : M Exit :=
  (* Parse arguments *)
  let* chosen := main_arguments in
  match chosen with
  | None => ret Returned
  | Some path =>
  let* _ := assign (set_projectPath path) in
  (* Verify project path is okay. The test [os.IsNotExist(err)] that
     follows the first one in [main.go] is reached with a nil [err] only
     and never fires. *)
  let* fi := os_Stat path in
  match fi with
  | Err err =>
      let* _ := Print ("Error Stat-ing project file " ++ path ++ " : "
                       ++ PathError_Error err ++ nl) in
      ret Returned
  | Ok true =>
      let* _ := Print ("Must select project file, not directory" ++ nl) in
      ret Returned
  | Ok false =>
  (* Compute relative paths. *)
  let pd := fst (Str.SplitPath path) in
  let od := Str.Join [pd; "objects"] in
  let sd := Str.Join [pd; "scripts"] in
  let hd := Str.Join [pd; "gm_txt"] in
  let* _ := assign (set_paths path pd od sd hd) in
  (* Create human folder *)
  let* err := os_MkdirAll hd in
  match err with
  | Some e =>
      (* the format has one verb for two arguments: [fmt] prints the
         second after the text, marked EXTRA *)
      let* _ := Print ("Error creating gm_txt directory &v: " ++ hd ++ nl
                       ++ "%!(EXTRA *os.PathError=" ++ PathError_Error e
                       ++ ")") in
      ret Returned
  | None =>
  (* Translate all GM objects. *)
  let* r := filepath_Walk od main_translate_f in
  match r with
  | WalkPanic => ret Panicked
  | WalkErr e =>
      let* _ := Print ("Error during initial translation of all GM objects "
                       ++ "to human objects: " ++ e ++ nl) in
      ret Returned
  | WalkNil =>
  (* Copy over all GM scripts. *)
  let* r := filepath_Walk sd main_copy_f in
  match r with
  | WalkPanic => ret Panicked
  | WalkErr e =>
      let* _ := Print ("Error during initial copying of scripts: "
                       ++ e ++ nl) in
      ret Returned
  | WalkNil =>
  (* Start monitoring files for changes *)
  let* err := ask fsnotify_NewWatcher in
  match err with
  | Some e =>
      let* _ := Print ("Error creating fsnotify watcher: " ++ e ++ nl) in
      ret Returned
  | None =>
  let* err := ask (fun h => watcher_Add h hd) in
  let* _ := match err with
            | Some e =>
                Print ("Error assigning human dir to fsnotify watcher: "
                       ++ e ++ nl)
            | None => ret tt
            end in
  let* err := ask (fun h => watcher_Add h od) in
  let* _ := match err with
            | Some e =>
                Print ("Error assigning GM objects dir to fsnotify watcher: "
                       ++ e ++ nl)
            | None => ret tt
            end in
  let* err := ask (fun h => watcher_Add h sd) in
  let* _ := match err with
            | Some e =>
                Print ("Error assigning GM scripts dir to fsnotify watcher: "
                       ++ e ++ nl)
            | None => ret tt
            end in
  (* Surrender this goroutine to the watcher, and wait for control signal *)
  let* _ := Print ("Listening (Ctrl-C to quit) (type " ++ dq ++ "help" ++ dq
                   ++ " for help)" ++ nl) in
  ret Listening
  end end end end end end.

(** What the watcher goroutine receives: an event on [watcher.Events] or
    an error on [watcher.Errors]. *)
Inductive Incoming : Type :=
| OnEvents (event : Event)
| OnErrors (err : string).

(** The watcher goroutine, [for { select { ... } }], run on the messages
    that arrive before the control signal. *)
Fixpoint watch (incoming : list Incoming) : M unit :=
  match incoming with
  | [] => ret tt
  | OnEvents event :: rest =>
      let* _ := processWatcherEvent event in watch rest
  | OnErrors err :: rest =>
      let* _ := Print ("Fsnotify watcher error: " ++ err ++ nl) in watch rest
  end.

(** ** The classification that [processWatcherEvent] computes *)

Inductive PathClass : Type :=
| MirrorObject
| MirrorScript
| NativeObject
| NativeScript
| Unrelated.

(** The chain of conditionals of [processWatcherEvent] on [isHumanObj],
    [isHumanScript], [isGMObj] and [isGMScript], read as a function of the
    path and the three roots. *)
Definition classify (g : Globals) (name : string) : PathClass :=
  let ext := Str.Ext name in
  let isHuman := Str.HasPrefix name (humanDir g) in
  if isHuman && String.eqb ext ".gmo" then MirrorObject
  else if isHuman && String.eqb ext ".gml" then MirrorScript
  else if Str.HasPrefix name (gmObjectsDir g) && String.eqb ext ".gmx"
  then NativeObject
  else if Str.HasPrefix name (gmScriptsDir g) && String.eqb ext ".gml"
  then NativeScript
  else Unrelated.

(** The two tracks of the timing state. *)
Inductive Side : Type :=
| Native
| Mirror.

Definition opposite (s : Side) : Side :=
  match s with
  | Native => Mirror
  | Mirror => Native
  end.

Definition side_of (c : PathClass) : option Side :=
  match c with
  | MirrorObject | MirrorScript => Some Mirror
  | NativeObject | NativeScript => Some Native
  | Unrelated => None
  end.

(** The variables that hold a side's last own change. *)
Definition lastOwnChangeTime (s : Side) (g : Globals) : Z :=
  match s with
  | Native => gmChanged g
  | Mirror => humanChanged g
  end.

Definition lastOwnChangedPath (s : Side) (g : Globals) : string :=
  match s with
  | Native => lastGMFileChanged g
  | Mirror => lastHumanFileChanged g
  end.

(** The timing gate of a side. *)
Definition timingOk (s : Side) (name : string) : M bool :=
  match s with
  | Native => gmFileTimingOk name
  | Mirror => humanFileTimingOk name
  end.

(** The assignments [xChanged = time.Now()] and [lastXFileChanged =
    event.Name] that [processWatcherEvent] makes once the gate is passed. *)
Definition record_change (s : Side) (name : string) : M unit :=
  match s with
  | Mirror =>
      let* now := time_Now in
      let* _ := assign (set_humanChanged now) in
      assign (set_lastHumanFileChanged name)
  | Native =>
      let* now := time_Now in
      let* _ := assign (set_gmChanged now) in
      assign (set_lastGMFileChanged name)
  end.

(** The translation or copy a class is dispatched to. *)
Definition handler (c : PathClass) (name : string) : M unit :=
  match c with
  | MirrorObject => translateHumanObject name
  | MirrorScript => copyHumanScript name
  | NativeObject => translateGMObject name
  | NativeScript => copyGMScript name
  | Unrelated => ret tt
  end.

(** ** The engine read as a whole *)

(** The gate of a side as one boolean over the two clock readings it may
    take: the first for the test against the other side's last change, the
    second for the test against the side's own. *)
Definition gate_verdict (s : Side) (name : string) (w : World) : bool :=
  (reverbSpacing <?
     clock w (ticks w) - lastOwnChangeTime (opposite s) (vars w))
  && (negb (String.eqb (lastOwnChangedPath s (vars w)) name)
      || (dedupSpacing <?
            clock w (S (ticks w)) - lastOwnChangeTime s (vars w))).

(** The number of clock readings the gate takes. *)
Definition gate_reads (s : Side) (name : string) (w : World) : nat :=
  if (reverbSpacing <?
        clock w (ticks w) - lastOwnChangeTime (opposite s) (vars w))
     && String.eqb (lastOwnChangedPath s (vars w)) name
  then 2%nat else 1%nat.

(** [processWatcherEvent] in terms of class, gate, recording and handler. *)
Definition dispatch (event : Event) (w : World) : unit * World :=
  if (Op event =? Write)%N then
    let c := classify (vars w) (Name event) in
    match side_of c with
    | Some s =>
        if value (timingOk s (Name event)) w
        then handler c (Name event)
               (run (record_change s (Name event))
                    (run (timingOk s (Name event)) w))
        else (tt, run (timingOk s (Name event)) w)
    | None => (tt, w)
    end
  else (tt, w).

(** An event is acted on when it is a write, its path has a class, and the
    gate of its side lets it through. *)
Definition acted_on (event : Event) (w : World) : Prop :=
  Op event = Write /\
  exists s, side_of (classify (vars w) (Name event)) = Some s /\
            value (timingOk s (Name event)) w = true.

(** What a call leaves alone: the package-level variables, the clock and
    the host; standard output only gets longer. *)
Record frame (w w' : World) : Prop := mkFrame {
  frame_vars : vars w' = vars w;
  frame_clock : clock w' = clock w;
  frame_host : host w' = host w;
  frame_ticks : (ticks w <= ticks w')%nat;
  frame_stdout : exists more, stdout w' = (stdout w ++ more)%list
}.

Definition framed {A : Type} (m : M A) : Prop :=
  forall w, frame w (run m w).

(** What a call that works on files and the project document only leaves
    alone: everything else, the position of the clock included. *)
Record unseen (w w' : World) : Prop := mkUnseen {
  unseen_vars : vars w' = vars w;
  unseen_clock : clock w' = clock w;
  unseen_host : host w' = host w;
  unseen_ticks : ticks w' = ticks w;
  unseen_stdout : stdout w' = stdout w
}.

Definition offscreen {A : Type} (m : M A) : Prop :=
  forall w, unseen w (run m w).

(** The translation or copy proper of each handler, with the error it
    returns. *)
Definition operation (c : PathClass) (name : string) : M error :=
  match c with
  | MirrorObject =>
      let objName := Str.first (Str.Split (Str.Base name) Str.dot) in
      let* objectsDir := gets gmObjectsDir in
      HumanObjectFileToGMObjectFile name
        (Str.Join [objectsDir; objName ++ ".object.gmx"])
  | MirrorScript =>
      let* scriptsDir := gets gmScriptsDir in
      cp (Str.Join [scriptsDir; Str.Base name]) name
  | NativeObject =>
      let objName := Str.first (Str.Split (Str.Base name) Str.dot) in
      let* hd := gets humanDir in
      GMObjectFileToHumanObjectFile name (Str.Join [hd; objName ++ ".gmo"])
  | NativeScript =>
      let* hd := gets humanDir in
      cp (Str.Join [hd; Str.Base name]) name
  | Unrelated => ret None
  end.

(** A call that prints at least one chunk. *)
Definition prints {A : Type} (m : M A) : Prop :=
  forall w, (length (stdout w) < length (stdout (run m w)))%nat.

(** A call that leaves files, output and project document alone. *)
Definition quiet {A : Type} (m : M A) : Prop :=
  forall w, fs (run m w) = fs w /\ stdout (run m w) = stdout w /\
            project (run m w) = project w.

(** The start-up of [main] gets as far as the wait for the control signal:
    the arguments give a project path, the path is a file, the human folder
    is made, both walks come back with [nil], and the watcher is made. *)
Definition startup_succeeds (w : World) : Prop :=
  exists path,
    value main_arguments w = Some path /\
    let w1 := run main_arguments w in
    value (os_Stat path) w1 = Ok false /\
    let pd := fst (Str.SplitPath path) in
    let od := Str.Join [pd; "objects"] in
    let sd := Str.Join [pd; "scripts"] in
    let hd := Str.Join [pd; "gm_txt"] in
    let w2 := with_vars (set_paths path pd od sd hd (vars w1)) w1 in
    value (os_MkdirAll hd) w2 = None /\
    let w3 := run (os_MkdirAll hd) w2 in
    value (filepath_Walk od main_translate_f) w3 = WalkNil /\
    let w4 := run (filepath_Walk od main_translate_f) w3 in
    value (filepath_Walk sd main_copy_f) w4 = WalkNil /\
    fsnotify_NewWatcher (host w) = None.

End Engine.

(** ** A small project to run the engine on *)

Module Sample.

(** Stand-ins for the codecs, enough to drive every branch of the file
    routines: an object is the text of its document; the XML decoder
    rejects the empty document; the encoder fails after four bytes on a
    document that starts with ["!"]; the human reader rejects a text that
    starts with ["?"]. *)
#[export] Instance codec : Codec := {|
  GMObject := string;
  xml_Decode := fun c => if String.eqb c "" then Err "EOF" else Ok c;
  xml_Encode := fun o =>
    if Str.HasPrefix o "!"
    then (substring 0 4 o, Some "short write")
    else (o, None);
  WriteHumanObject := fun o => mkWritten "" o None;
  ReadHumanObject := fun text _ =>
    if Str.HasPrefix text "?"
    then Err "unknown event"
    else Ok text;
  time_Format := fun _ => "12:00:00"
|}.

Definition globals : Globals :=
  mkGlobals "/proj/gm_txt" "/proj/game.project.gmx" "/proj/"
    "/proj/objects" "/proj/scripts" 0 0 "" "".

Definition manifest : Manifest := [("objects", []); ("scripts", [])].

Definition hostOk : Host :=
  mkHost ["gm_txt.exe"; "/proj/game.project.gmx"] (Err "cancelled")
    (fun root =>
       if String.eqb root "/proj/objects"
       then [mkVisit "/proj/objects" (Some true) None;
             mkVisit "/proj/objects/Enemy.object.gmx" (Some false) None]
       else [mkVisit root (Some true) None])
    None (fun _ => None).

(** Some instant of the year 2026, in nanoseconds since the zero [Time]. *)
Definition t0 : Z := 63900000000 * Second.

(** A clock that gives [t] for the first [n] readings and [t'] after. *)
Definition clock2 (n : nat) (t t' : Z) : nat -> Z :=
  fun i => if (i <? n)%nat then t else t'.

Definition world (fl : list (string * string)) (clk : nat -> Z) (g : Globals)
  : World :=
  mkWorld clk 0 (mkFileSys (list_to_map fl) ∅ ∅ ∅) [] manifest hostOk g.

Definition enemy_gmo : string := "/proj/gm_txt/Enemy.gmo".
Definition enemy_gmx : string := "/proj/objects/Enemy.object.gmx".

(** The project before [main] has run: the project file and one object. *)
Definition fresh (h : Host) : World :=
  mkWorld (fun _ => t0) 0
    (mkFileSys
       (list_to_map [("/proj/game.project.gmx", "<assets/>");
                     (enemy_gmx, "<object/>")]) ∅ ∅ ∅)
    [] manifest h zeroGlobals.

(** A write to the mirror file of [Enemy]. *)
Definition enemy_written : Event := mkEvent enemy_gmo Write.

(** The project [since] nanoseconds after a native-side translation: the
    mirror file holds [text], the native object exists. *)
Definition after_native (since : Z) (text : string) : World :=
  world [(enemy_gmo, text); (enemy_gmx, "<object/>")]
    (fun _ => t0) (set_gmChanged (t0 - since) globals).

(** Two notifications for one path, the second handled 10ms after the
    first: the first takes three clock readings. *)
Definition notified_twice : World :=
  world [(enemy_gmo, "edited"); (enemy_gmx, "<object/>")]
    (clock2 3 t0 (t0 + 10 * Millisecond)) globals.

(** A mirror file that does not parse, next to its native file. *)
Definition malformed : World :=
  world [(enemy_gmo, "?bogus"); (enemy_gmx, "<object/>")]
    (fun _ => t0) globals.

(** A mirror file that parses and whose encoding fails after four bytes. *)
Definition unencodable : World :=
  world [(enemy_gmo, "!sprite: spr_enemy"); (enemy_gmx, "<object/>")]
    (fun _ => t0) globals.

(** A mirror file with no native counterpart. *)
Definition mirror_only (text : string) : World :=
  world [(enemy_gmo, text)] (fun _ => t0) globals.

(** An object whose name has a dot in it. *)
Definition dotted_gmx : string := "/proj/objects/My.Enemy.object.gmx".
Definition dotted_gmo : string := "/proj/gm_txt/My.Enemy.gmo".

Definition dotted : World :=
  world [(dotted_gmx, "<object/>")] (fun _ => t0) globals.

(** A host whose watcher cannot be made. *)
Definition hostNoWatcher : Host :=
  mkHost (os_Args hostOk) (dialog_Load hostOk) (walk_visits hostOk)
    (Some "too many open files") (watcher_Add hostOk).

(** A host whose watcher takes no directory. *)
Definition hostNoAdd : Host :=
  mkHost (os_Args hostOk) (dialog_Load hostOk) (walk_visits hostOk)
    None (fun _ => Some "no space left on device").

End Sample.

(** ** Leaving: the end of [main] *)

(** Whether [path] is [root] or lies below it. *)
Definition below (root path : string) : bool :=
  String.eqb path root
  || Str.HasPrefix path (if Str.HasSuffix root "/" then root else root ++ "/").

(** [endsWithDot(path)] of package [os]: the path is [.] or ends in [/.]. *)
Definition endsWithDot (path : string) : bool :=
  String.eqb path "." || Str.HasSuffix path "/.".

(** The files and the folders there are, in the order in which the system
    lists them. *)
Definition entries (f : FileSys) : list string :=
  (fst <$> map_to_list (files f)) ++ elements (folders f).

(** The entries at or below [root] that the system refuses to remove. *)
Definition refused_below (f : FileSys) (root : string) : list string :=
  filter (fun p => below root p = true /\ p ∈ denied f) (entries f).

(** [os.RemoveAll(path)]: it removes [path] and everything below it that
    it can, and returns the first error it meets. A path that does not
    exist is no error, the empty path is left alone without error, and a
    path that ends in a dot is refused as a whole. An entry the system
    refuses to remove stays, and with it the folders above it, which are
    then not empty. *)
Definition os_RemoveAll (path : string) : M (option PathError) :=
  fun w =>
    if String.eqb path "" then (None, w)
    else if endsWithDot path then
      (Some (mkPathError "RemoveAll" path EINVAL), w)
    else
      let stuck := refused_below (fs w) path in
      (match stuck with
       | q :: _ => Some (mkPathError "unlinkat" q EACCES)
       | [] => None
       end,
       with_fs
         (mkFileSys
            (filter (fun kv => below path (fst kv) = false \/
                               Exists (fun q => below (fst kv) q = true) stuck)
               (files (fs w)))
            (filter (fun d => below path d = false \/
                              Exists (fun q => below d q = true) stuck)
               (folders (fs w)))
            (denied (fs w)) (short (fs w)))
         w).

Section Leaving.

Context {codec : Codec}.

(** [main] from the arrival of the control signal to its end: upon control
    signal, remove created directory. *)
Definition main_cleanup : M unit :=
  let* hd := gets humanDir in
  let* err := os_RemoveAll hd in
  match err with
  | Some e =>
      Print ("Error removing gm_txt directory " ++ hd ++ ": "
             ++ PathError_Error e ++ nl)
  | None => Print ("Success" ++ nl)
  end.

End Leaving.

(** ** The earlier program: one fixed project, objects only *)

Module NiceObjects.

(** [strings.SplitN(s, sep, n)] for a one-byte separator: at most [n]
    pieces, the last one the unsplit rest; no piece at all for [n = 0];
    all pieces for a negative [n]. *)
Fixpoint splitN_from (sep : ascii) (cur : list ascii) (l : list ascii)
    (n : nat) {struct l} : list string :=
  match n with
  | O => []
  | S O => [Str.unchars (rev cur ++ l)]
  | S n' =>
      match l with
      | [] => [Str.unchars (rev cur)]
      | c :: l' =>
          if Ascii.eqb c sep
          then Str.unchars (rev cur) :: splitN_from sep [] l' n'
          else splitN_from sep (c :: cur) l' n
      end
  end.

Definition SplitN (s : string) (sep : ascii) (n : Z) : list string :=
  if n <? 0 then Str.Split s sep
  else splitN_from sep [] (Str.chars s) (Z.to_nat n).

Definition humanDir : string := "NiceObjects".
Definition projectDir : string := "example.gmx".
Definition gmObjectsDir : string := Str.Join [projectDir; "objects"].

Section Program.

Context {codec : Codec}.

Definition translateHumanObject (humanObjPath : string) : M unit :=
  let objName := Str.first (Str.Split (Str.Base humanObjPath) Str.dot) in
  let gmObjPath := Str.Join [gmObjectsDir; objName ++ ".object.gmx"] in
  let* err := HumanObjectFileToGMObjectFile humanObjPath gmObjPath in
  match err with
  | Some e => logLine e
  | None => logLine ("Translated " ++ objName)
  end.

Definition translateGMObject (gmObjPath : string) : M unit :=
  let objName := Str.first (Str.Split (Str.Base gmObjPath) Str.dot) in
  let humanObjPath := Str.Join [humanDir; objName ++ ".ogml"] in
  let* err := GMObjectFileToHumanObjectFile gmObjPath humanObjPath in
  match err with
  | Some e => logLine ("(From GM) " ++ e)
  | None => logLine ("(From GM) Translated " ++ objName)
  end.

Definition processWatcherEvent (event : Event) : M unit :=
  let ext := Str.Ext (Name event) in
  let isHumanObj := Str.HasPrefix (Name event) humanDir &&
                    String.eqb ext ".ogml" in
  let isGMObj := Str.HasPrefix (Name event) gmObjectsDir &&
                 String.eqb ext ".gmx" (* close enough to ".object.gmx" *) in
  if isHumanObj then
    if (Op event =? Write)%N then
      let* gc := gets gmChanged in
      let* sinceGM := time_Since gc in
      if reverbSpacing <? sinceGM then
        let* _ := translateHumanObject (Name event) in
        let* now := time_Now in
        assign (set_humanChanged now)
      else ret tt
    else ret tt
  else if isGMObj then
    if (Op event =? Write)%N then
      let* hc := gets humanChanged in
      let* sinceHuman := time_Since hc in
      if reverbSpacing <? sinceHuman then
        let* _ := translateGMObject (Name event) in
        let* now := time_Now in
        assign (set_gmChanged now)
      else ret tt
    else ret tt
  else ret tt.

Definition initialTranslateWalkFunc (v : Visit) : M WalkRet :=
  match v_info v with
  | None => ret WalkPanic
  | Some isDir =>
      if isDir then ret WalkNil
      else
        let dotSep := SplitN (Str.Base (v_path v)) Str.dot 2 in
        if negb ((length dotSep =? 2)%nat &&
                 String.eqb (nth 1 dotSep "") "object.gmx")
        then ret WalkNil
        else
          let objName := nth 0 dotSep "" ++ ".ogml" in
          let humanObjPath := Str.Join [humanDir; objName] in
          let* err := GMObjectFileToHumanObjectFile (v_path v) humanObjPath in
          match err with
          | Some e => ret (WalkErr e)
          | None => ret WalkNil
          end
  end.

(** [main], from its first statement to the wait on the signal channel. *)
Definition main : M Exit :=
  (* Create human folder *)
  let* _ := Print ("Initializing NiceObjects directory..." ++ nl) in
  let* err := os_MkdirAll humanDir in
  match err with
  | Some e =>
      let* _ := Print ("Error creating NiceObjects directory: "
                       ++ PathError_Error e ++ nl) in
      ret Returned
  | None =>
  (* Translate all objects into human folder *)
  let* r := filepath_Walk gmObjectsDir initialTranslateWalkFunc in
  match r with
  | WalkPanic => ret Panicked
  | WalkErr e =>
      let* _ := Print ("Error during initial translation of all GM objects "
                       ++ "to human objects: " ++ e ++ nl) in
      ret Returned
  | WalkNil =>
  (* Start monitoring files for changes *)
  let* err := ask fsnotify_NewWatcher in
  match err with
  | Some e =>
      let* _ := Print ("Error creating fsnotify watcher: " ++ e ++ nl) in
      ret Returned
  | None =>
  let* err := ask (fun h => watcher_Add h humanDir) in
  let* _ := match err with
            | Some e =>
                Print ("Error assigning human dir to fsnotify watcher: "
                       ++ e ++ nl)
            | None => ret tt
            end in
  let* err := ask (fun h => watcher_Add h gmObjectsDir) in
  let* _ := match err with
            | Some e =>
                Print ("Error assigning GM objects dir to fsnotify watcher: "
                       ++ e ++ nl)
            | None => ret tt
            end in
  (* Surrender this goroutine to the watcher, and wait for control signal *)
  let* _ := Print ("Listening" ++ nl) in
  ret Listening
  end end end.

(** [main] from the arrival of the control signal to its end. *)
Definition main_cleanup : M unit :=
  let* _ := Print ("Signal received, removing NiceObjects directory..."
                   ++ nl) in
  let* err := os_RemoveAll humanDir in
  match err with
  | Some e =>
      Print ("Error removing NiceObjects directory: "
             ++ PathError_Error e ++ nl)
  | None => Print ("Success" ++ nl)
  end.

End Program.

End NiceObjects.

(** ** What start-up leaves alone *)

(** The project document and the refused paths are the same, no folder and
    no file is gone, and the four variables of the timing gate hold what
    they held. *)
Record settled (w w' : World) : Prop := mkSettled {
  settled_project : project w' = project w;
  settled_denied : denied (fs w') = denied (fs w);
  settled_folders : folders (fs w) ⊆ folders (fs w');
  settled_files :
    forall p, is_Some (files (fs w) !! p) -> is_Some (files (fs w') !! p);
  settled_timing :
    (gmChanged (vars w'), humanChanged (vars w'),
     lastGMFileChanged (vars w'), lastHumanFileChanged (vars w'))
    = (gmChanged (vars w), humanChanged (vars w),
       lastGMFileChanged (vars w), lastHumanFileChanged (vars w))
}.

Definition settles {A : Type} (m : M A) : Prop :=
  forall w, settled w (run m w).

(** ** What the watcher loop leaves alone *)

(** The five path variables, the clock, the host, the folders and the
    refused paths are the same. *)
Record rooted (w w' : World) : Prop := mkRooted {
  rooted_paths :
    (humanDir (vars w'), projectPath (vars w'), projectDir (vars w'),
     gmObjectsDir (vars w'), gmScriptsDir (vars w'))
    = (humanDir (vars w), projectPath (vars w), projectDir (vars w),
       gmObjectsDir (vars w), gmScriptsDir (vars w));
  rooted_clock : clock w' = clock w;
  rooted_host : host w' = host w;
  rooted_folders : folders (fs w') = folders (fs w);
  rooted_denied : denied (fs w') = denied (fs w)
}.

Definition roots {A : Type} (m : M A) : Prop :=
  forall w, rooted w (run m w).

(** ** More of the sample project *)

Module More.

(** Stand-ins like those of [Sample], with a writer of the human format
    that gives up on a document starting with ["<!"], after the buffer
    has passed on its first four bytes. *)
Definition brittle : Codec := {|
  GMObject := string;
  xml_Decode := fun c => if String.eqb c "" then Err "EOF" else Ok c;
  xml_Encode := fun o => (o, None);
  WriteHumanObject := fun o =>
    if Str.HasPrefix o "<!"
    then mkWritten (substring 0 4 o) (substring 4 (String.length o) o)
           (Some "unknown action")
    else mkWritten "" o None;
  ReadHumanObject := fun text _ => Ok text;
  time_Format := fun _ => "12:00:00"
|}.

(** The project with an object the brittle writer cannot write. *)
Definition unwritable : World :=
  Sample.world [(Sample.enemy_gmx, "<!-- draft --><object/>")]
    (fun _ => Sample.t0) Sample.globals.

(** The project when the system takes only four more bytes for the mirror
    file of [Enemy]. *)
Definition short_of_room : World :=
  mkWorld (fun _ => Sample.t0) 0
    (mkFileSys (list_to_map [(Sample.enemy_gmx, "<object/>")]) ∅ ∅
       {[Sample.enemy_gmo := 4%nat]})
    [] Sample.manifest Sample.hostOk Sample.globals.

(** The project with both files of [Enemy], at rest. *)
Definition at_rest : World :=
  Sample.world [(Sample.enemy_gmo, "edited"); (Sample.enemy_gmx, "<object/>")]
    (fun _ => Sample.t0) Sample.globals.

(** A write to the native file of [Enemy]. *)
Definition enemy_saved : Event := mkEvent Sample.enemy_gmx Write.

(** A write to a file in a folder next to the human folder whose name
    begins like it. *)
Definition neighbour_written : Event :=
  mkEvent "/proj/gm_txt_old/Enemy.gmo" Write.

(** A write that comes with a change of mode in one event. *)
Definition written_and_chmod : Event :=
  mkEvent Sample.enemy_gmo (N.lor Write Chmod).

(** A host started with two arguments after the program name. *)
Definition hostTwoArgs : Host :=
  mkHost ["gm_txt.exe"; "/proj/game.project.gmx"; "extra"]
    (dialog_Load Sample.hostOk) (walk_visits Sample.hostOk) None
    (watcher_Add Sample.hostOk).

(** The project with a new script in the human folder. *)
Definition new_script : World :=
  Sample.world [("/proj/gm_txt/move.gml", "x += 1")]
    (fun _ => Sample.t0) Sample.globals.

(** The project with the human folder and two mirror files in it, one of
    which the system refuses to remove. *)
Definition boss_gmo : string := "/proj/gm_txt/Boss.gmo".

Definition before_leaving_locked : World :=
  mkWorld (fun _ => Sample.t0) 0
    (mkFileSys
       (list_to_map [(Sample.enemy_gmo, "edited"); (boss_gmo, "locked");
                     (Sample.enemy_gmx, "<object/>")])
       {["/proj/gm_txt"]} {[boss_gmo]} ∅)
    [] Sample.manifest Sample.hostOk Sample.globals.

(** The fixed project of the earlier program. *)
Definition earlier_gmx : string := "example.gmx/objects/Enemy.object.gmx".
Definition earlier_ogml : string := "NiceObjects/Enemy.ogml".

Definition earlier : World :=
  Sample.world [(earlier_ogml, "edited"); (earlier_gmx, "<object/>")]
    (fun _ => Sample.t0) zeroGlobals.

(** A project without a [scripts] folder: the walker cannot stat the
    root and says so in its only call. *)
Definition hostNoScripts : Host :=
  mkHost (os_Args Sample.hostOk) (dialog_Load Sample.hostOk)
    (fun root =>
       if String.eqb root "/proj/scripts"
       then [mkVisit root None
               (Some "lstat /proj/scripts: no such file or directory")]
       else walk_visits Sample.hostOk root)
    None (watcher_Add Sample.hostOk).

(** The earlier program started where there is no [example.gmx]. *)
Definition hostElsewhere : Host :=
  mkHost ["NiceObjects.exe"] (dialog_Load Sample.hostOk)
    (fun root =>
       [mkVisit root None
          (Some ("lstat " ++ root ++ ": no such file or directory"))])
    None (watcher_Add Sample.hostOk).

End More.

(** * Properties *)

(** ** Paths *)

Example Base_of_mirror_file :
  Str.Base "/proj/gm_txt/My.Enemy.gmo" = "My.Enemy.gmo".
Proof. reflexivity. Qed.

Example Base_drops_trailing_separators : Str.Base "a/b///" = "b".
Proof. reflexivity. Qed.

Example Ext_is_the_last_dot : Str.Ext "/proj/gm_txt/My.Enemy.gmo" = ".gmo".
Proof. reflexivity. Qed.

Example Ext_stops_at_a_separator : Str.Ext "a.b/c" = "".
Proof. reflexivity. Qed.

Example Split_on_dots :
  Str.Split "My.Enemy.gmo" Str.dot = ["My"; "Enemy"; "gmo"].
Proof. reflexivity. Qed.

Example TrimSuffix_keeps_inner_dots :
  Str.TrimSuffix "My.Enemy.object.gmx" ".object.gmx" = "My.Enemy".
Proof. reflexivity. Qed.

Example Join_cleans :
  Str.Join [""; "a/../b//c/."; "x.gmx"] = "b/c/x.gmx".
Proof. reflexivity. Qed.

Example Clean_at_the_root : Str.Clean "/../a/b/../../.." = "/".
Proof. reflexivity. Qed.

Example Clean_keeps_leading_dotdot : Str.Clean "../../a/.." = "../..".
Proof. reflexivity. Qed.

Example SplitPath_of_project_file :
  Str.SplitPath "/proj/game.project.gmx" = ("/proj/", "game.project.gmx").
Proof. reflexivity. Qed.

Lemma Split_nonempty (s : string) (sep : ascii) : Str.Split s sep <> [].
Proof.
  unfold Str.Split. generalize (@nil ascii) as cur.
  induction (Str.chars s) as [| c l IH]; intros cur; cbn; [discriminate |].
  destruct (Ascii.eqb c sep); [discriminate | apply IH].
Qed.


Lemma chars_app (s1 s2 : string) :
  Str.chars (s1 ++ s2) = (Str.chars s1 ++ Str.chars s2)%list.
Proof.
  unfold Str.chars. induction s1 as [| c s1 IH]; [reflexivity |].
  change (c :: list_ascii_of_string (s1 ++ s2)
          = c :: (list_ascii_of_string s1 ++ list_ascii_of_string s2)%list).
  now rewrite IH.
Qed.

Lemma unchars_chars (s : string) : Str.unchars (Str.chars s) = s.
Proof. apply string_of_list_ascii_of_string. Qed.

Lemma split_from_piece (sep : ascii) (a l cur : list ascii) :
  Forall (fun c => c <> sep) a ->
  Str.split_from sep cur (a ++ sep :: l)
  = Str.unchars (rev cur ++ a) :: Str.split_from sep [] l.
Proof.
  intros Ha. revert cur. induction Ha as [| c a Hc Ha IH]; intros cur.
  - cbn. rewrite Ascii.eqb_refl, app_nil_r. reflexivity.
  - cbn [app Str.split_from].
    destruct (Ascii.eqb_spec c sep) as [E | _]; [contradiction |].
    rewrite IH. cbn [rev]. now rewrite <- app_assoc.
Qed.

Lemma takeElem_app (a l : list ascii) :
  Forall (fun c => c <> Str.slash) a ->
  Str.takeElem (a ++ Str.slash :: l) = a.
Proof.
  induction 1 as [| c a Hc Ha IH]; cbn.
  - reflexivity.
  - unfold Str.isPathSeparator.
    destruct (Ascii.eqb_spec c Str.slash) as [E | _]; [contradiction |].
    now rewrite IH.
Qed.

Lemma Base_of_joined (dir name : string) :
  name <> "" ->
  Forall (fun c => c <> Str.slash) (Str.chars name) ->
  Str.Base (dir ++ "/" ++ name) = name.
Proof.
  intros Hne Hs. unfold Str.Base.
  destruct (String.eqb_spec (dir ++ "/" ++ name) "") as [E | _].
  { apply (f_equal Str.chars) in E. rewrite chars_app in E.
    destruct (Str.chars dir); discriminate. }
  rewrite !chars_app, !rev_app_distr. cbn [Str.chars list_ascii_of_string rev app].
  fold (Str.chars name).
  assert (Hr : Forall (fun c => c <> Str.slash) (rev (Str.chars name)))
    by (apply Forall_rev; exact Hs).
  destruct (rev (Str.chars name)) as [| c r] eqn:Er.
  { exfalso. apply Hne. apply (f_equal (@rev ascii)) in Er.
    rewrite rev_involutive in Er. cbn in Er.
    rewrite <- (unchars_chars name), Er. reflexivity. }
  rewrite <- app_assoc. cbn [app Str.dropSeps].
  inversion Hr as [| ? ? Hc Hr']; subst.
  assert (Hsep : Str.isPathSeparator c = false).
  { unfold Str.isPathSeparator.
    destruct (Ascii.eqb_spec c Str.slash); [contradiction | reflexivity]. }
  rewrite Hsep.
  change (c :: r ++ "/"%char :: rev (Str.chars dir))%list
    with ((c :: r) ++ Str.slash :: rev (Str.chars dir))%list.
  rewrite takeElem_app by (constructor; assumption).
  rewrite <- Er, rev_involutive, unchars_chars.
  destruct (String.eqb_spec name "") as [E | _]; [contradiction | reflexivity].
Qed.

(** The name both event handlers derive: the part of the file name before
    its first dot. *)
Lemma objName_is_cut_at_first_dot (dir stem rest : string) :
  stem <> "" ->
  Forall (fun c => c <> Str.slash /\ c <> Str.dot) (Str.chars stem) ->
  Forall (fun c => c <> Str.slash) (Str.chars rest) ->
  Str.first (Str.Split (Str.Base (dir ++ "/" ++ stem ++ "." ++ rest)) Str.dot)
  = stem.
Proof.
  intros Hne Hstem Hrest.
  rewrite Base_of_joined.
  - unfold Str.Split. rewrite !chars_app.
    cbn [Str.chars list_ascii_of_string app]. fold (Str.chars rest).
    rewrite split_from_piece.
    + cbn [Str.first hd rev app]. apply unchars_chars.
    + eapply Forall_impl; [exact Hstem |]. intros c [_ H]. exact H.
  - destruct stem; [contradiction | discriminate].
  - rewrite !chars_app. cbn [Str.chars list_ascii_of_string app].
    apply Forall_app. split.
    + eapply Forall_impl; [exact Hstem |]. intros c [H _]. exact H.
    + constructor; [discriminate | exact Hrest].
Qed.

Section Proofs.

Context {codec : Codec}.

(** ** Durations *)

Lemma Sub_above (c t u : Z) :
  minDuration <= c < maxDuration -> (c <? Sub t u) = (c <? t - u).
Proof.
  intros Hc. unfold Sub.
  destruct (Z.ltb_spec maxDuration (t - u));
    [| destruct (Z.ltb_spec (t - u) minDuration)];
    destruct (Z.ltb_spec c (t - u)); try reflexivity;
    apply Z.ltb_lt || apply Z.ltb_ge; lia.
Qed.

Lemma reverbSpacing_range : minDuration <= reverbSpacing < maxDuration.
Proof. vm_compute. split; congruence. Qed.

Lemma dedupSpacing_range : minDuration <= dedupSpacing < maxDuration.
Proof. vm_compute. split; congruence. Qed.

(** ** The gate *)

Lemma timingOk_eq (s : Side) (name : string) (w : World) :
  timingOk s name w
  = (gate_verdict s name w, with_ticks (ticks w + gate_reads s name w) w).
Proof.
  unfold gate_verdict, gate_reads. destruct w as [clk n f o p h g].
  destruct s; cbn [timingOk opposite lastOwnChangeTime lastOwnChangedPath];
    cbv beta delta [gmFileTimingOk humanFileTimingOk bind gets time_Since
      time_Now ret];
    cbn [fst snd with_ticks vars clock ticks];
    rewrite (Sub_above _ _ _ reverbSpacing_range);
    destruct (reverbSpacing <? _); cbn [andb];
    try destruct (String.eqb _ _); cbn [negb orb fst snd with_ticks vars clock ticks];
    rewrite ?(Sub_above _ _ _ dedupSpacing_range);
    unfold with_ticks; cbn; repeat f_equal; lia.
Qed.

Lemma timingOk_value (s : Side) (name : string) (w : World) :
  value (timingOk s name) w = gate_verdict s name w.
Proof. unfold value. now rewrite timingOk_eq. Qed.

Lemma timingOk_run (s : Side) (name : string) (w : World) :
  run (timingOk s name) w = with_ticks (ticks w + gate_reads s name w) w.
Proof. unfold run. now rewrite timingOk_eq. Qed.

Lemma timingOk_quiet (s : Side) (name : string) : quiet (timingOk s name).
Proof. intros w. rewrite timingOk_run. now destruct w. Qed.

(** ** Dispatch *)

Lemma processWatcherEvent_eq (event : Event) (w : World) :
  processWatcherEvent event w = dispatch event w.
Proof.
  unfold processWatcherEvent, dispatch, classify.
  destruct (Op event =? Write)%N; [| reflexivity].
  cbv beta delta [bind gets]. cbn [fst snd].
  destruct (Str.HasPrefix (Name event) (humanDir (vars w))),
    (String.eqb (Str.Ext (Name event)) ".gmo"),
    (String.eqb (Str.Ext (Name event)) ".gml"),
    (Str.HasPrefix (Name event) (gmObjectsDir (vars w))),
    (String.eqb (Str.Ext (Name event)) ".gmx"),
    (Str.HasPrefix (Name event) (gmScriptsDir (vars w)));
    cbn [andb side_of handler timingOk record_change]; try reflexivity;
    unfold value, run; cbv beta delta [bind ret];
    match goal with |- context [fst ?x] => destruct (fst x) end;
    reflexivity.
Qed.


(** ** What the calls leave alone *)

Lemma unseen_refl (w : World) : unseen w w.
Proof. now split. Qed.

Lemma unseen_trans (w1 w2 w3 : World) :
  unseen w1 w2 -> unseen w2 w3 -> unseen w1 w3.
Proof. intros [] []. split; congruence. Qed.

Lemma unseen_frame (w w' : World) : unseen w w' -> frame w w'.
Proof.
  intros [Hv Hc Hh Ht Ho]. split; try assumption; [lia |].
  exists []. now rewrite app_nil_r.
Qed.

Lemma frame_refl (w : World) : frame w w.
Proof. apply unseen_frame, unseen_refl. Qed.

Lemma frame_trans (w1 w2 w3 : World) :
  frame w1 w2 -> frame w2 w3 -> frame w1 w3.
Proof.
  intros [Hv Hc Hh Ht [m Ho]] [Hv' Hc' Hh' Ht' [m' Ho']].
  split; try congruence; try lia.
  exists (m ++ m')%list. rewrite Ho', Ho. now rewrite app_assoc.
Qed.

Lemma offscreen_framed {A : Type} (m : M A) : offscreen m -> framed m.
Proof. intros H w. apply unseen_frame, H. Qed.

Lemma offscreen_ret {A : Type} (a : A) : offscreen (ret a).
Proof. intros w. apply unseen_refl. Qed.

Lemma offscreen_bind {A B : Type} (m : M A) (k : A -> M B) :
  offscreen m -> (forall a, offscreen (k a)) -> offscreen (bind m k).
Proof.
  intros Hm Hk w. unfold run, bind.
  eapply unseen_trans; [apply Hm | apply Hk].
Qed.

Lemma offscreen_gets {A : Type} (f : Globals -> A) : offscreen (gets f).
Proof. intros w. apply unseen_refl. Qed.

Lemma offscreen_ask {A : Type} (f : Host -> A) : offscreen (ask f).
Proof. intros w. apply unseen_refl. Qed.

Lemma unseen_with_fs (f : FileSys) (w : World) : unseen w (with_fs f w).
Proof. now split. Qed.

Lemma unseen_with_project (p : Manifest) (w : World) :
  unseen w (with_project p w).
Proof. now split. Qed.

Lemma offscreen_os_Stat (name : string) : offscreen (os_Stat name).
Proof.
  intros w. unfold run, os_Stat.
  destruct (decide _); [| destruct (_ !! _)]; apply unseen_refl.
Qed.

Lemma offscreen_os_Open (name : string) : offscreen (os_Open name).
Proof.
  intros w. unfold run, os_Open.
  destruct (decide _); [| destruct (_ !! _)]; apply unseen_refl.
Qed.

Lemma offscreen_os_Create (name : string) : offscreen (os_Create name).
Proof.
  intros w. unfold run, os_Create.
  destruct (decide _); [apply unseen_refl | apply unseen_with_fs].
Qed.

Lemma offscreen_file_Write (name data : string) :
  offscreen (file_Write name data).
Proof. intros w. apply unseen_with_fs. Qed.

Lemma offscreen_bufio_Flush (name data : string) :
  offscreen (bufio_Flush name data).
Proof.
  intros w. unfold run, bufio_Flush.
  destruct (_ !! _); [destruct (_ <? _)%nat |]; apply unseen_with_fs.
Qed.

Lemma offscreen_os_MkdirAll (path : string) : offscreen (os_MkdirAll path).
Proof.
  intros w. unfold run, os_MkdirAll.
  destruct (decide _); [| destruct (_ !! _)];
    apply unseen_refl || apply unseen_with_fs.
Qed.

Lemma offscreen_AppendResourceToGMProject (name kind group : string) :
  offscreen (AppendResourceToGMProject name kind group).
Proof.
  intros w. unfold run, AppendResourceToGMProject.
  destruct (AppendManifestEntry _ _ _ _);
    apply unseen_refl || apply unseen_with_project.
Qed.

Create HintDb offscreen.

#[local] Hint Resolve offscreen_gets offscreen_ask offscreen_os_Stat
  offscreen_os_Open offscreen_os_Create offscreen_file_Write
  offscreen_bufio_Flush offscreen_os_MkdirAll offscreen_AppendResourceToGMProject : offscreen.

Ltac offscreen_step :=
  match goal with
  | |- offscreen (ret _) => apply offscreen_ret
  | |- offscreen (bind _ _) => apply offscreen_bind; [| intro]
  | |- offscreen (match ?x with _ => _ end) => destruct x
  | |- offscreen _ => solve [auto with offscreen]
  end.

Ltac offscreen_auto := cbv zeta; repeat offscreen_step.

Lemma offscreen_cp (dst src : string) : offscreen (cp dst src).
Proof. unfold cp. offscreen_auto. Qed.

Lemma offscreen_GMObjectFileToHumanObjectFile (o h : string) :
  offscreen (GMObjectFileToHumanObjectFile o h).
Proof. unfold GMObjectFileToHumanObjectFile. offscreen_auto. Qed.

Lemma offscreen_HumanObjectFileToGMObjectFile (h o : string) :
  offscreen (HumanObjectFileToGMObjectFile h o).
Proof. unfold HumanObjectFileToGMObjectFile. offscreen_auto. Qed.

#[local] Hint Resolve offscreen_cp offscreen_GMObjectFileToHumanObjectFile
  offscreen_HumanObjectFileToGMObjectFile : offscreen.

Lemma offscreen_operation (c : PathClass) (name : string) :
  offscreen (operation c name).
Proof. destruct c; cbn [operation]; offscreen_auto. Qed.

Lemma framed_ret {A : Type} (a : A) : framed (ret a).
Proof. intros w. apply frame_refl. Qed.

Lemma framed_bind {A B : Type} (m : M A) (k : A -> M B) :
  framed m -> (forall a, framed (k a)) -> framed (bind m k).
Proof.
  intros Hm Hk w. unfold run, bind.
  eapply frame_trans; [apply Hm | apply Hk].
Qed.

Lemma framed_time_Now : framed time_Now.
Proof.
  intros w. split; cbn; try reflexivity; try lia.
  exists []. now rewrite app_nil_r.
Qed.

Lemma framed_Print (text : string) : framed (Print text).
Proof.
  intros w. split; cbn; try reflexivity. now exists [text].
Qed.

Create HintDb framed.

#[local] Hint Resolve framed_time_Now framed_Print : framed.
#[local] Hint Extern 1 (framed _) =>
  apply offscreen_framed; solve [auto with offscreen] : framed.

Ltac framed_step :=
  match goal with
  | |- framed (ret _) => apply framed_ret
  | |- framed (bind _ _) => apply framed_bind; [| intro]
  | |- framed (match ?x with _ => _ end) => destruct x
  | |- framed _ => solve [auto with framed]
  end.

Ltac framed_auto := cbv zeta; repeat framed_step.

Lemma framed_logLine (text : string) : framed (logLine text).
Proof. unfold logLine. framed_auto. Qed.

#[local] Hint Resolve framed_logLine : framed.

Lemma framed_handler (c : PathClass) (name : string) :
  framed (handler c name).
Proof.
  destruct c; cbn [handler];
    unfold translateHumanObject, copyHumanScript, translateGMObject,
      copyGMScript; framed_auto.
Qed.

(** ** The handlers always print *)

Lemma prints_logLine (text : string) : prints (logLine text).
Proof.
  intros w. unfold run, logLine, bind, time_Now, Print. cbn.
  rewrite length_app. cbn. lia.
Qed.

Lemma prints_bind_r {A B : Type} (m : M A) (k : A -> M B) :
  framed m -> (forall a, prints (k a)) -> prints (bind m k).
Proof.
  intros Hm Hk w. unfold run, bind.
  destruct (Hm w) as [_ _ _ _ [more Ho]]. unfold run in Ho.
  specialize (Hk (fst (m w)) (snd (m w))). unfold run in Hk.
  rewrite Ho, length_app in Hk. lia.
Qed.

Lemma prints_bind_l {A B : Type} (m : M A) (k : A -> M B) :
  prints m -> (forall a, framed (k a)) -> prints (bind m k).
Proof.
  intros Hm Hk w. unfold run, bind.
  destruct (Hk (fst (m w)) (snd (m w))) as [_ _ _ _ [more Ho]].
  unfold run in Ho. rewrite Ho, length_app.
  specialize (Hm w). unfold run in Hm. lia.
Qed.

Lemma prints_handler (c : PathClass) (name : string) :
  c <> Unrelated -> prints (handler c name).
Proof.
  intros Hc. destruct c; try congruence; cbn [handler];
    unfold translateHumanObject, copyHumanScript, translateGMObject,
      copyGMScript; cbv zeta;
    repeat (apply prints_bind_r; [solve [auto with framed] | intro]);
    try (apply prints_bind_l;
         [ | intro; framed_auto ]);
    match goal with
    | |- prints (match ?x with _ => _ end) =>
        destruct x; apply prints_logLine
    end.
Qed.

(** ** One event *)

(** The variables after the gate was passed and the change recorded. *)
Lemma record_change_run (s : Side) (name : string) (w : World) :
  run (record_change s name) w
  = with_vars
      (match s with
       | Mirror =>
           set_lastHumanFileChanged name
             (set_humanChanged (clock w (ticks w)) (vars w))
       | Native =>
           set_lastGMFileChanged name
             (set_gmChanged (clock w (ticks w)) (vars w))
       end)
      (with_ticks (S (ticks w)) w).
Proof. destruct s; reflexivity. Qed.

Lemma record_change_own (s : Side) (name : string) (w : World) :
  lastOwnChangeTime s (vars (run (record_change s name) w))
    = clock w (ticks w) /\
  lastOwnChangedPath s (vars (run (record_change s name) w)) = name.
Proof. rewrite record_change_run. destruct s; split; reflexivity. Qed.

Lemma record_change_other (s : Side) (name : string) (w : World) :
  lastOwnChangeTime (opposite s) (vars (run (record_change s name) w))
    = lastOwnChangeTime (opposite s) (vars w) /\
  lastOwnChangedPath (opposite s) (vars (run (record_change s name) w))
    = lastOwnChangedPath (opposite s) (vars w).
Proof. rewrite record_change_run. destruct s; split; reflexivity. Qed.

Lemma record_change_classify (s : Side) (name p : string) (w : World) :
  classify (vars (run (record_change s name) w)) p = classify (vars w) p.
Proof. rewrite record_change_run. destruct s; reflexivity. Qed.

Lemma record_change_quiet (s : Side) (name : string) :
  quiet (record_change s name).
Proof.
  intros w. rewrite record_change_run. destruct w, s; repeat split.
Qed.

Lemma process_ignored (event : Event) (w : World) :
  Op event <> Write \/ classify (vars w) (Name event) = Unrelated ->
  run (processWatcherEvent event) w = w.
Proof.
  intros H. unfold run. rewrite processWatcherEvent_eq. unfold dispatch.
  destruct (N.eqb_spec (Op event) Write) as [E | E]; [| reflexivity].
  destruct H as [H | H]; [congruence |]. now rewrite H.
Qed.

Lemma process_suppressed (event : Event) (s : Side) (w : World) :
  Op event = Write ->
  side_of (classify (vars w) (Name event)) = Some s ->
  value (timingOk s (Name event)) w = false ->
  run (processWatcherEvent event) w
  = with_ticks (ticks w + gate_reads s (Name event) w) w.
Proof.
  intros Hop Hs Hv. unfold run at 1.
  rewrite processWatcherEvent_eq. unfold dispatch.
  rewrite Hop, N.eqb_refl. cbv zeta. rewrite Hs, Hv. cbn [snd].
  apply timingOk_run.
Qed.

Lemma process_passed (event : Event) (s : Side) (w : World) :
  Op event = Write ->
  side_of (classify (vars w) (Name event)) = Some s ->
  value (timingOk s (Name event)) w = true ->
  run (processWatcherEvent event) w
  = run (handler (classify (vars w) (Name event)) (Name event))
      (run (record_change s (Name event))
         (run (timingOk s (Name event)) w)).
Proof.
  intros Hop Hs Hv. unfold run at 1.
  rewrite processWatcherEvent_eq. unfold dispatch.
  rewrite Hop, N.eqb_refl. cbv zeta. now rewrite Hs, Hv.
Qed.

Lemma side_of_related (c : PathClass) (s : Side) :
  side_of c = Some s -> c <> Unrelated.
Proof. destruct c; cbn; congruence. Qed.

(** ** The timing gate: reverb *)

(** C1. For a write event on side [s] handled at clock reading [T]: if [T]
    minus the opposite side's last own change is at most [reverbSpacing]
    (one second) the gate refuses the event and handling it does nothing
    beyond that one clock reading; if it is more, the other side's change
    plays no part: the gate's answer is that of the duplicate test alone,
    and an event the gate lets through is handed to its translation or
    copy. So an event 200ms after the other side's change is suppressed,
    and one 1.2s after it is processed. *)
Theorem reverb_suppression (s : Side) (event : Event) (w : World) :
  let since := clock w (ticks w) - lastOwnChangeTime (opposite s) (vars w) in
  Op event = Write ->
  side_of (classify (vars w) (Name event)) = Some s ->
  (since <= reverbSpacing ->
     value (timingOk s (Name event)) w = false /\
     run (processWatcherEvent event) w = with_ticks (S (ticks w)) w)
  /\
  (reverbSpacing < since ->
     value (timingOk s (Name event)) w
     = (negb (String.eqb (lastOwnChangedPath s (vars w)) (Name event))
        || (dedupSpacing <?
              clock w (S (ticks w)) - lastOwnChangeTime s (vars w)))
     /\
     (value (timingOk s (Name event)) w = true ->
      run (processWatcherEvent event) w
      = run (handler (classify (vars w) (Name event)) (Name event))
          (run (record_change s (Name event))
             (run (timingOk s (Name event)) w)))).
Proof.
  intros since Hop Hs. split.
  - intros Hle.
    assert (Hv : value (timingOk s (Name event)) w = false).
    { rewrite timingOk_value. unfold gate_verdict. fold since.
      destruct (Z.ltb_spec reverbSpacing since); [lia | reflexivity]. }
    split; [exact Hv |].
    rewrite (process_suppressed event s w Hop Hs Hv).
    unfold gate_reads. fold since.
    destruct (Z.ltb_spec reverbSpacing since); [lia |].
    cbn [andb]. f_equal. lia.
  - intros Hlt. split.
    + rewrite timingOk_value. unfold gate_verdict. fold since.
      destruct (Z.ltb_spec reverbSpacing since); [reflexivity | lia].
    + intros Hv. now apply process_passed.
Qed.

(** ** The timing gate: duplicates *)

(** C3. For a write event on side [s] with path [P]: if [P] is the side's
    last own changed path and the clock reading of the duplicate test minus
    the side's last own change is at most [dedupSpacing] (100ms), the gate
    refuses the event; and when the other side's change is more than
    [reverbSpacing] back, the gate refuses the event only in that case.
    Hence of two notifications for one path, the second handled while the
    clock is within [dedupSpacing] of the change recorded for the first,
    only the first reaches its translation or copy. *)
Theorem dedup_suppression (s : Side) (event : Event) (w : World) :
  Op event = Write ->
  side_of (classify (vars w) (Name event)) = Some s ->
  (Name event = lastOwnChangedPath s (vars w) /\
   clock w (S (ticks w)) - lastOwnChangeTime s (vars w) <= dedupSpacing ->
   value (timingOk s (Name event)) w = false)
  /\
  (reverbSpacing <
     clock w (ticks w) - lastOwnChangeTime (opposite s) (vars w) ->
   value (timingOk s (Name event)) w = false ->
   Name event = lastOwnChangedPath s (vars w) /\
   clock w (S (ticks w)) - lastOwnChangeTime s (vars w) <= dedupSpacing)
  /\
  (value (timingOk s (Name event)) w = true ->
   let w1 := run (processWatcherEvent event) w in
   clock w1 (S (ticks w1)) - lastOwnChangeTime s (vars w1) <= dedupSpacing ->
   w1 = run (handler (classify (vars w) (Name event)) (Name event))
          (run (record_change s (Name event))
             (run (timingOk s (Name event)) w))
   /\
   run (processWatcherEvent event) w1
   = with_ticks (ticks w1 + gate_reads s (Name event) w1) w1).
Proof.
  intros Hop Hs. split; [| split].
  - intros [Hp Ht]. rewrite timingOk_value. unfold gate_verdict.
    rewrite <- Hp, String.eqb_refl. cbn [negb orb].
    destruct (Z.ltb_spec dedupSpacing
                (clock w (S (ticks w)) - lastOwnChangeTime s (vars w)));
      [lia |]. apply andb_false_r.
  - intros Hlt. rewrite timingOk_value. unfold gate_verdict.
    destruct (Z.ltb_spec reverbSpacing
                (clock w (ticks w)
                 - lastOwnChangeTime (opposite s) (vars w))); [| lia].
    cbn [andb].
    destruct (String.eqb_spec (lastOwnChangedPath s (vars w)) (Name event));
      cbn [negb orb]; [| discriminate].
    destruct (Z.ltb_spec dedupSpacing
                (clock w (S (ticks w)) - lastOwnChangeTime s (vars w)));
      [discriminate |].
    intros _. split; [congruence | lia].
  - intros Hv w1 Hnear.
    assert (E : w1 = run (handler (classify (vars w) (Name event))
                            (Name event))
                       (run (record_change s (Name event))
                          (run (timingOk s (Name event)) w)))
      by (apply process_passed; assumption).
    split; [exact E |].
    pose proof (framed_handler (classify (vars w) (Name event)) (Name event)
                  (run (record_change s (Name event))
                     (run (timingOk s (Name event)) w))) as F.
    rewrite <- E in F. destruct F as [Fv _ _ _ _].
    assert (Hs1 : side_of (classify (vars w1) (Name event)) = Some s).
    { rewrite Fv, record_change_classify, timingOk_run. exact Hs. }
    apply process_suppressed; [exact Hop | exact Hs1 |].
    rewrite timingOk_value. unfold gate_verdict.
    assert (Hp : lastOwnChangedPath s (vars w1) = Name event).
    { rewrite Fv. apply record_change_own. }
    rewrite Hp, String.eqb_refl. cbn [negb orb].
    destruct (Z.ltb_spec dedupSpacing
                (clock w1 (S (ticks w1)) - lastOwnChangeTime s (vars w1)));
      [lia |]. apply andb_false_r.
Qed.

(** ** When the change is recorded *)

(** C4, as the code has it. For a write event that passes the gate of its
    side [s], the side's last own change is set to the clock reading taken
    right after the gate and the side's last own changed path to the
    event's path, and only then is the translation or copy run, on the
    world that already holds these values; they are the values the
    variables hold afterwards, whatever the translation or copy reports. *)
Theorem change_recorded_before_handler (s : Side) (event : Event)
    (w : World) :
  Op event = Write ->
  side_of (classify (vars w) (Name event)) = Some s ->
  value (timingOk s (Name event)) w = true ->
  let w1 := run (timingOk s (Name event)) w in
  let w2 := run (record_change s (Name event)) w1 in
  let w' := run (processWatcherEvent event) w in
  w' = run (handler (classify (vars w) (Name event)) (Name event)) w2 /\
  lastOwnChangeTime s (vars w2) = clock w1 (ticks w1) /\
  lastOwnChangedPath s (vars w2) = Name event /\
  vars w' = vars w2.
Proof.
  intros Hop Hs Hv w1 w2 w'.
  assert (E : w' = run (handler (classify (vars w) (Name event))
                          (Name event)) w2)
    by (apply process_passed; assumption).
  destruct (record_change_own s (Name event) w1) as [Ht Hp].
  repeat split; try assumption.
  rewrite E. apply framed_handler.
Qed.

(** ** Which events are acted on *)

Lemma not_acted_on (event : Event) (w : World) :
  ~ acted_on event w ->
  Op event <> Write \/
  classify (vars w) (Name event) = Unrelated \/
  exists s, side_of (classify (vars w) (Name event)) = Some s /\
            value (timingOk s (Name event)) w = false.
Proof.
  intros H. destruct (N.eq_dec (Op event) Write) as [E | E]; [| now left].
  right. destruct (side_of (classify (vars w) (Name event))) as [s |] eqn:Hs.
  - right. exists s. split; [reflexivity |].
    destruct (value (timingOk s (Name event)) w) eqn:Hv; [| reflexivity].
    exfalso. apply H. split; [exact E |]. exists s. now split.
  - left. destruct (classify (vars w) (Name event)); cbn in Hs;
      congruence.
Qed.

(** C6, as the code has it. A change event is handed to a translation or
    copy (which always prints) exactly when it is a write event, its path
    starts with one of the three roots and has the extension that goes
    with it, and the timing gate of its side lets it through. Any other
    event leaves the files, standard output, the project document and the
    package-level variables as they were. *)
Theorem acted_on_iff (event : Event) (w : World) :
  let w' := run (processWatcherEvent event) w in
  (acted_on event w <-> (length (stdout w) < length (stdout w'))%nat)
  /\
  (acted_on event w ->
   exists s, side_of (classify (vars w) (Name event)) = Some s /\
     w' = run (handler (classify (vars w) (Name event)) (Name event))
            (run (record_change s (Name event))
               (run (timingOk s (Name event)) w)))
  /\
  (~ acted_on event w ->
   fs w' = fs w /\ stdout w' = stdout w /\ project w' = project w /\
   vars w' = vars w).
Proof.
  intros w'.
  assert (Hact : acted_on event w ->
            exists s, side_of (classify (vars w) (Name event)) = Some s /\
              w' = run (handler (classify (vars w) (Name event))
                          (Name event))
                     (run (record_change s (Name event))
                        (run (timingOk s (Name event)) w))).
  { intros [Hop [s [Hs Hv]]]. exists s. split; [exact Hs |].
    now apply process_passed. }
  assert (Hnot : ~ acted_on event w ->
                 fs w' = fs w /\ stdout w' = stdout w /\
                 project w' = project w /\ vars w' = vars w).
  { intros H. apply not_acted_on in H.
    destruct H as [H | [H | [s [Hs Hv]]]].
    - subst w'. rewrite process_ignored by (now left). repeat split.
    - subst w'. rewrite process_ignored by (now right). repeat split.
    - subst w'.
      destruct (N.eq_dec (Op event) Write) as [E | E].
      + rewrite (process_suppressed event s w E Hs Hv).
        destruct w; repeat split.
      + rewrite process_ignored by (now left). repeat split. }
  split; [split | split; assumption].
  - intros H. destruct (Hact H) as [s [Hs E]]. rewrite E.
    pose proof (prints_handler _ (Name event) (side_of_related _ _ Hs)
                  (run (record_change s (Name event))
                     (run (timingOk s (Name event)) w))) as P.
    destruct (record_change_quiet s (Name event)
                (run (timingOk s (Name event)) w)) as [_ [Ho _]].
    destruct (timingOk_quiet s (Name event) w) as [_ [Ho' _]].
    rewrite Ho, Ho' in P. exact P.
  - intros Hlen.
    destruct (N.eq_dec (Op event) Write) as [E | E].
    + destruct (side_of (classify (vars w) (Name event))) as [s |] eqn:Hs.
      * destruct (value (timingOk s (Name event)) w) eqn:Hv.
        -- split; [exact E |]. exists s. now split.
        -- exfalso. subst w'.
           rewrite (process_suppressed event s w E Hs Hv) in Hlen.
           destruct w; cbn in Hlen. lia.
      * exfalso. subst w'. rewrite process_ignored in Hlen; [lia |].
        right. destruct (classify (vars w) (Name event)); cbn in Hs;
          congruence.
    + exfalso. subst w'. rewrite process_ignored in Hlen; [lia | now left].
Qed.

(** ** The file system calls on a file that is there *)

Lemma os_Open_ok (name content : string) (w : World) :
  files (fs w) !! name = Some content -> name ∉ denied (fs w) ->
  os_Open name w = (Ok content, w).
Proof.
  intros Hf Hd. unfold os_Open.
  destruct (decide _); [contradiction |]. now rewrite Hf.
Qed.

Lemma os_Open_missing (name : string) (w : World) :
  files (fs w) !! name = None -> name ∉ denied (fs w) ->
  os_Open name w = (Err (mkPathError "open" name ENOENT), w).
Proof.
  intros Hf Hd. unfold os_Open.
  destruct (decide _); [contradiction |]. now rewrite Hf.
Qed.

Lemma os_Stat_ok (name content : string) (w : World) :
  files (fs w) !! name = Some content ->
  snd (os_Stat name w) = w /\
  IsNotExist (err_of (fst (os_Stat name w))) = false.
Proof.
  intros Hf. unfold os_Stat.
  destruct (decide _); [| rewrite Hf]; now split.
Qed.

Lemma os_Create_ok (name : string) (w : World) :
  name ∉ denied (fs w) ->
  os_Create name w
  = (None, with_fs (with_files (<[name := ""]> (files (fs w))) (fs w)) w).
Proof.
  intros Hd. unfold os_Create. destruct (decide _); [contradiction |].
  reflexivity.
Qed.

(** ** Mirror to native, file by file *)

(** The native file is created (and so truncated) only after the mirror
    text has been read and parsed: a call that changed the file system got
    past [ReadHumanObject]. *)
Lemma native_rewritten_only_after_parse (h o : string) (w : World) :
  fs (run (HumanObjectFileToGMObjectFile h o) w) <> fs w ->
  exists native obj text obj',
    files (fs w) !! o = Some native /\ xml_Decode native = Ok obj /\
    files (fs w) !! h = Some text /\ ReadHumanObject text obj = Ok obj'.
Proof.
  unfold run, HumanObjectFileToGMObjectFile.
  cbv beta delta [bind ret]. unfold os_Open at 1 2 3 4.
  destruct (decide (o ∈ denied (fs w))); cbn [fst snd]; [congruence |].
  destruct (files (fs w) !! o) as [native |] eqn:Ho; cbn [fst snd];
    [| congruence].
  destruct (xml_Decode native) as [obj | e] eqn:Hd; cbn [fst snd];
    [| congruence].
  unfold os_Open.
  destruct (decide (h ∈ denied (fs w))); cbn [fst snd]; [congruence |].
  destruct (files (fs w) !! h) as [text |] eqn:Hh; cbn [fst snd];
    [| congruence].
  destruct (ReadHumanObject text obj) as [obj' | e] eqn:Hr; cbn [fst snd];
    [| congruence].
  intros _. now exists native, obj, text, obj'.
Qed.

Lemma HumanObjectFileToGMObjectFile_parse_error
    (h o : string) (w : World) (native text reason : string)
    (obj : GMObject) :
  files (fs w) !! o = Some native -> o ∉ denied (fs w) ->
  xml_Decode native = Ok obj ->
  files (fs w) !! h = Some text -> h ∉ denied (fs w) ->
  ReadHumanObject text obj = Err reason ->
  HumanObjectFileToGMObjectFile h o w
  = (Some ("Error reading human object file " ++ h ++ ": " ++ reason), w).
Proof.
  intros Ho Hdo Hd Hh Hdh Hr. unfold HumanObjectFileToGMObjectFile.
  cbv beta delta [bind ret].
  rewrite (os_Open_ok o native w Ho Hdo). cbn [fst snd]. rewrite Hd.
  rewrite (os_Open_ok h text w Hh Hdh). cbn [fst snd]. now rewrite Hr.
Qed.

Lemma HumanObjectFileToGMObjectFile_encoded
    (h o : string) (w : World) (native text : string)
    (obj obj' : GMObject) :
  files (fs w) !! o = Some native -> o ∉ denied (fs w) ->
  xml_Decode native = Ok obj ->
  files (fs w) !! h = Some text -> h ∉ denied (fs w) ->
  ReadHumanObject text obj = Ok obj' ->
  HumanObjectFileToGMObjectFile h o w
  = (match snd (xml_Encode obj') with
     | Some e => Some ("Error writing XML to " ++ o ++ ": " ++ e)
     | None => None
     end,
     with_fs (with_files (<[o := fst (xml_Encode obj')]> (files (fs w)))
                (fs w)) w).
Proof.
  intros Ho Hdo Hd Hh Hdh Hr. unfold HumanObjectFileToGMObjectFile.
  cbv beta delta [bind ret].
  rewrite (os_Open_ok o native w Ho Hdo). cbn [fst snd]. rewrite Hd.
  rewrite (os_Open_ok h text w Hh Hdh). cbn [fst snd]. rewrite Hr.
  rewrite (os_Create_ok o w Hdo). cbn [fst snd].
  unfold file_Write. cbn [fst snd fs files with_fs with_files].
  rewrite lookup_insert_eq. cbn [default]. rewrite insert_insert_eq.
  destruct (xml_Encode obj') as [written [e |]]; cbn [fst snd];
    destruct w as [? ? [? ? ?] ? ? ? ?]; reflexivity.
Qed.

(** C8. When the mirror file of an object whose native file exists and
    decodes does not parse, [translateHumanObject] prints one line with the
    parse error and leaves the file system (the native file with it) and
    the project document as they were; and in general the native file is
    created, hence truncated, only by a call that has already parsed the
    mirror text. *)
Theorem malformed_mirror_leaves_native (humanObjPath : string) (w : World) :
  let objName := Str.first (Str.Split (Str.Base humanObjPath) Str.dot) in
  let gmObjPath :=
    Str.Join [gmObjectsDir (vars w); objName ++ ".object.gmx"] in
  (forall (native text reason : string) (obj : GMObject),
     files (fs w) !! gmObjPath = Some native ->
     gmObjPath ∉ denied (fs w) ->
     xml_Decode native = Ok obj ->
     files (fs w) !! humanObjPath = Some text ->
     humanObjPath ∉ denied (fs w) ->
     ReadHumanObject text obj = Err reason ->
     let w' := run (translateHumanObject humanObjPath) w in
     fs w' = fs w /\ project w' = project w /\
     stdout w'
     = (stdout w
        ++ [("[" ++ time_Format (clock w (ticks w)) ++ "] "
             ++ ("Error reading human object file " ++ humanObjPath ++ ": "
                 ++ reason)
             ++ nl)%string])%list)
  /\
  (fs (run (HumanObjectFileToGMObjectFile humanObjPath gmObjPath) w) <> fs w ->
   exists native obj text obj',
     files (fs w) !! gmObjPath = Some native /\
     xml_Decode native = Ok obj /\
     files (fs w) !! humanObjPath = Some text /\
     ReadHumanObject text obj = Ok obj').
Proof.
  intros objName gmObjPath. split;
    [| apply native_rewritten_only_after_parse].
  intros native text reason obj Ho Hdo Hd Hh Hdh Hr w'.
  subst w'. unfold run, translateHumanObject.
  cbv beta zeta delta [bind gets ret]. cbn [fst snd].
  fold objName. fold gmObjPath.
  destruct (os_Stat_ok gmObjPath native w Ho) as [Hs1 Hs2].
  rewrite Hs1, Hs2. cbn [negb].
  rewrite (HumanObjectFileToGMObjectFile_parse_error
             humanObjPath gmObjPath w native text reason obj
             Ho Hdo Hd Hh Hdh Hr).
  cbn [fst snd]. destruct w; cbn. repeat split.
Qed.

(** C10. When the native file decodes, the mirror file parses and the XML
    encoding of the merged object then fails, the call returns the error
    and the native file holds what the encoder got out before failing
    (nothing, or part of the document) instead of its previous contents:
    it was truncated by [os.Create] before the encoding started. *)
Theorem failed_encoding_truncates_native
    (h o : string) (w : World) (native text written reason : string)
    (obj obj' : GMObject) :
  files (fs w) !! o = Some native -> o ∉ denied (fs w) ->
  xml_Decode native = Ok obj ->
  files (fs w) !! h = Some text -> h ∉ denied (fs w) ->
  ReadHumanObject text obj = Ok obj' ->
  xml_Encode obj' = (written, Some reason) ->
  value (HumanObjectFileToGMObjectFile h o) w
    = Some ("Error writing XML to " ++ o ++ ": " ++ reason) /\
  files (fs (run (HumanObjectFileToGMObjectFile h o) w)) !! o
    = Some written.
Proof.
  intros Ho Hdo Hd Hh Hdh Hr He. unfold value, run.
  rewrite (HumanObjectFileToGMObjectFile_encoded h o w native text obj obj'
             Ho Hdo Hd Hh Hdh Hr).
  rewrite He. cbn [fst snd fs files with_fs with_files]. split;
    [reflexivity | apply lookup_insert_eq].
Qed.



(** ** Running a sequence *)

Lemma run_bind {A B : Type} (m : M A) (k : A -> M B) (w : World) :
  run (bind m k) w = run (k (value m w)) (run m w).
Proof. reflexivity. Qed.

Lemma value_bind {A B : Type} (m : M A) (k : A -> M B) (w : World) :
  value (bind m k) w = value (k (value m w)) (run m w).
Proof. reflexivity. Qed.

Lemma run_gets {A : Type} (f : Globals -> A) (w : World) :
  run (gets f) w = w.
Proof. reflexivity. Qed.

Lemma value_gets {A : Type} (f : Globals -> A) (w : World) :
  value (gets f) w = f (vars w).
Proof. reflexivity. Qed.

Lemma os_Stat_run (name : string) (w : World) : run (os_Stat name) w = w.
Proof.
  unfold run, os_Stat.
  destruct (decide _); [| destruct (_ !! _)]; reflexivity.
Qed.

(** ** Errors are printed *)

Lemma logLine_unseen (text : string) (w0 w1 : World) :
  unseen w0 w1 ->
  stdout (run (logLine text) w1)
  = (stdout w0
     ++ [("[" ++ time_Format (clock w0 (ticks w0)) ++ "] " ++ text
          ++ nl)%string])%list.
Proof.
  intros [Hv Hc Hh Ht Ho]. unfold run, logLine, bind, time_Now, Print.
  cbn. now rewrite Ho, Hc, Ht.
Qed.

Lemma logLine_then (text : string) (rest : M unit) (w0 w1 : World) :
  unseen w0 w1 -> framed rest ->
  exists more,
    stdout (run rest (run (logLine text) w1))
    = (stdout w0
       ++ [("[" ++ time_Format (clock w0 (ticks w0)) ++ "] " ++ text
            ++ nl)%string]
       ++ more)%list.
Proof.
  intros U F. destruct (F (run (logLine text) w1)) as [_ _ _ _ [more Ho]].
  exists more. rewrite Ho, (logLine_unseen text w0 w1 U).
  now rewrite <- app_assoc.
Qed.

(** An error of the translation or copy of an event is printed, with the
    time of day in front. *)
Lemma handler_reports (c : PathClass) (name e : string) (w : World) :
  value (operation c name) w = Some e ->
  exists text more,
    (text = e \/ text = "(From GM) " ++ e) /\
    stdout (run (handler c name) w)
    = (stdout w
       ++ [("[" ++ time_Format (clock w (ticks w)) ++ "] " ++ text
            ++ nl)%string]
       ++ more)%list.
Proof.
  destruct c; cbn [operation handler];
    unfold translateHumanObject, copyHumanScript, translateGMObject,
      copyGMScript;
    cbv zeta; intros He; try discriminate;
    rewrite value_bind, run_gets, value_gets in He;
    rewrite run_bind, run_gets, value_gets; cbv beta;
    rewrite ?(run_bind (os_Stat _)), ?os_Stat_run; cbv beta;
    rewrite run_bind; cbv beta; rewrite He.
  - rewrite run_bind. cbv beta.
    match goal with |- context [run ?k (run (logLine e) ?w1)] =>
      destruct (logLine_then e k w w1) as [more Hm] end;
      [ apply offscreen_HumanObjectFileToGMObjectFile
      | destruct (negb _); framed_auto |].
    exists e, more. split; [now left | exact Hm].
  - rewrite run_bind. cbv beta.
    match goal with |- context [run ?k (run (logLine e) ?w1)] =>
      destruct (logLine_then e k w w1) as [more Hm] end;
      [ apply offscreen_cp | destruct (negb _); framed_auto |].
    exists e, more. split; [now left | exact Hm].
  - exists ("(From GM) " ++ e), []. split; [now right |].
    rewrite app_nil_r.
    apply logLine_unseen, offscreen_GMObjectFileToHumanObjectFile.
  - exists ("(From GM) " ++ e), []. split; [now right |].
    rewrite app_nil_r. apply logLine_unseen, offscreen_cp.
Qed.



(** ** Start-up and the watcher loop *)

Lemma framed_main_arguments : framed main_arguments.
Proof. unfold main_arguments. framed_auto. Qed.

Lemma framed_main_translate_f (v : Visit) : framed (main_translate_f v).
Proof. unfold main_translate_f. framed_auto. Qed.

Lemma framed_main_copy_f (v : Visit) : framed (main_copy_f v).
Proof. unfold main_copy_f. framed_auto. Qed.

Lemma framed_walk_each (visits : list Visit) (fn : Visit -> M WalkRet) :
  (forall v, framed (fn v)) -> framed (walk_each visits fn).
Proof.
  intros Hfn. induction visits as [| v rest IH]; cbn [walk_each];
    framed_auto; auto.
Qed.

Lemma framed_filepath_Walk (root : string) (fn : Visit -> M WalkRet) :
  (forall v, framed (fn v)) -> framed (filepath_Walk root fn).
Proof.
  intros Hfn. unfold filepath_Walk. framed_auto.
  now apply framed_walk_each.
Qed.

Lemma watch_app (before after : list Incoming) (w : World) :
  run (watch (before ++ after)) w = run (watch after) (run (watch before) w).
Proof.
  revert w. induction before as [| m rest IH]; intros w; [reflexivity |].
  destruct m; cbn [watch app]; rewrite !run_bind; apply IH.
Qed.

Lemma os_Stat_value_fs (name : string) (w w' : World) :
  fs w = fs w' -> value (os_Stat name) w = value (os_Stat name) w'.
Proof.
  intros E. unfold value, os_Stat. rewrite E.
  destruct (decide _); [| destruct (_ !! _)]; reflexivity.
Qed.

Ltac no_start Hargs :=
  split;
  [ first [discriminate | intros H; now inversion H]
  | let p := fresh "p" in
    let H1 := fresh "H" in
    let H2 := fresh "H" in
    intros [p [H1 H2]]; cbv zeta in H2;
    injection H1 as <-; intuition congruence ].

Lemma main_listening (w : World) :
  value main w = Listening <-> startup_succeeds w.
Proof.
  unfold startup_succeeds, main.
  rewrite value_bind.
  destruct (value main_arguments w) as [path |] eqn:Hargs.
  2:{ split; [discriminate | intros [p [H _]]; discriminate]. }
  rewrite value_bind. cbv beta.
  change (run (assign (set_projectPath path)) (run main_arguments w))
    with (with_vars (set_projectPath path (vars (run main_arguments w)))
            (run main_arguments w)).
  rewrite value_bind. cbv beta.
  rewrite os_Stat_run.
  rewrite (os_Stat_value_fs path (with_vars _ _) (run main_arguments w))
    by reflexivity.
  destruct (value (os_Stat path) (run main_arguments w))
    as [[|] | e] eqn:Hst.
  1,3: no_start Hargs.
  cbv zeta. rewrite value_bind. cbv beta.
  match goal with
  | |- context [run (assign (set_paths ?a ?b ?c ?d ?e)) ?x] =>
      change (run (assign (set_paths a b c d e)) x)
        with (with_vars (set_paths a b c d e (vars (run main_arguments w)))
                (run main_arguments w))
  end.
  rewrite value_bind. cbv beta.
  match goal with
  | |- context [value (os_MkdirAll ?hd) ?w2] =>
      destruct (value (os_MkdirAll hd) w2) as [e |] eqn:Hmk
  end.
  1: no_start Hargs.
  rewrite value_bind. cbv beta.
  match goal with
  | |- context [value (filepath_Walk ?od main_translate_f) ?w3] =>
      destruct (value (filepath_Walk od main_translate_f) w3)
        as [| e |] eqn:Hw1
  end.
  2,3: no_start Hargs.
  rewrite value_bind. cbv beta.
  match goal with
  | |- context [value (filepath_Walk ?sd main_copy_f) ?w4] =>
      destruct (value (filepath_Walk sd main_copy_f) w4)
        as [| e |] eqn:Hw2
  end.
  2,3: no_start Hargs.
  rewrite value_bind. cbv beta.
  match goal with
  | |- context [value (ask fsnotify_NewWatcher) ?w5] =>
      change (value (ask fsnotify_NewWatcher) w5)
        with (fsnotify_NewWatcher (host w5));
      assert (Hhost : host w5 = host w)
  end.
  { rewrite (frame_host _ _ (framed_filepath_Walk _ _ framed_main_copy_f _)).
    rewrite (frame_host _ _
               (framed_filepath_Walk _ _ framed_main_translate_f _)).
    rewrite (unseen_host _ _ (offscreen_os_MkdirAll _ _)).
    cbn [host with_vars]. apply (frame_host _ _ (framed_main_arguments w)). }
  rewrite Hhost.
  destruct (fsnotify_NewWatcher (host w)) as [e |] eqn:Hnw.
  1: no_start Hargs.
  split; [intros _ | reflexivity].
  exists path. cbv zeta. repeat split; assumption || reflexivity.
Qed.

(** ** A mirror object without a native file *)

Lemma os_Stat_missing (name : string) (w : World) :
  files (fs w) !! name = None -> name ∉ folders (fs w) ->
  IsNotExist (err_of (value (os_Stat name) w)) = true.
Proof.
  intros Hf Hd. unfold value, os_Stat.
  destruct (decide _); [contradiction |]. now rewrite Hf.
Qed.

(** Whatever the project holds: when the native file of a mirror object is
    missing, [translateHumanObject] makes no file and goes on to the
    project document. *)
Lemma translateHumanObject_without_native (humanObjPath : string)
    (w : World) :
  let objName := Str.first (Str.Split (Str.Base humanObjPath) Str.dot) in
  let gmObjPath :=
    Str.Join [gmObjectsDir (vars w); objName ++ ".object.gmx"] in
  files (fs w) !! gmObjPath = None ->
  gmObjPath ∉ folders (fs w) ->
  gmObjPath ∉ denied (fs w) ->
  let w' := run (translateHumanObject humanObjPath) w in
  fs w' = fs w /\
  project w'
  = match AppendManifestEntry (project w) "objects" objName "object" with
    | Ok m => m
    | Err _ => project w
    end.
Proof.
  intros objName gmObjPath Hf Hfo Hd w'. subst w'.
  unfold translateHumanObject. cbv zeta. fold objName.
  rewrite run_bind, run_gets, value_gets. cbv beta. fold gmObjPath.
  clearbody gmObjPath. clearbody objName.
  rewrite run_bind, os_Stat_run. cbv beta.
  rewrite (os_Stat_missing gmObjPath w Hf Hfo). cbn [negb].
  rewrite run_bind. cbv beta.
  assert (E : HumanObjectFileToGMObjectFile humanObjPath gmObjPath w
              = (Some ("Error opening file " ++ gmObjPath ++ ": "
                       ++ PathError_Error
                            (mkPathError "open" gmObjPath ENOENT)), w)).
  { unfold HumanObjectFileToGMObjectFile. cbv beta delta [bind ret].
    now rewrite (os_Open_missing gmObjPath w Hf Hd). }
  assert (Ev : value (HumanObjectFileToGMObjectFile humanObjPath gmObjPath) w
               = Some ("Error opening file " ++ gmObjPath ++ ": "
                       ++ PathError_Error
                            (mkPathError "open" gmObjPath ENOENT)))
    by (unfold value; now rewrite E).
  assert (Er : run (HumanObjectFileToGMObjectFile humanObjPath gmObjPath) w
               = w)
    by (unfold run; now rewrite E).
  rewrite Ev, Er. rewrite run_bind. cbv beta.
  unfold run, value, logLine, AppendResourceToGMProject, bind, time_Now,
    Print. cbn [fst snd fs project with_ticks with_stdout].
  destruct (AppendManifestEntry (project w) "objects" objName "object");
    cbn; split; reflexivity.
Qed.

End Proofs.

(** * Runs on the sample project *)

Section Runs.

Import Sample.

Lemma reverb_suppression_witness :
  run (processWatcherEvent enemy_written)
      (after_native (200 * Millisecond) "edited")
  = with_ticks 1 (after_native (200 * Millisecond) "edited")
  /\
  run (processWatcherEvent enemy_written)
      (after_native (1200 * Millisecond) "edited")
  = run (translateHumanObject enemy_gmo)
      (run (record_change Mirror enemy_gmo)
         (run (timingOk Mirror enemy_gmo)
            (after_native (1200 * Millisecond) "edited"))).
Proof.
  split.
  - apply (reverb_suppression Mirror enemy_written
             (after_native (200 * Millisecond) "edited")
             eq_refl eq_refl).
    vm_compute. discriminate.
  - apply (reverb_suppression Mirror enemy_written
             (after_native (1200 * Millisecond) "edited")
             eq_refl eq_refl).
    + vm_compute. reflexivity.
    + vm_compute. reflexivity.
Defined.

Lemma dedup_suppression_witness :
  let w1 := run (processWatcherEvent enemy_written) notified_twice in
  stdout w1 = ["[12:00:00] Translated Enemy" ++ nl] /\
  run (processWatcherEvent enemy_written) w1
  = with_ticks (ticks w1 + gate_reads Mirror enemy_gmo w1) w1.
Proof.
  split; [vm_compute; reflexivity |].
  apply (dedup_suppression Mirror enemy_written notified_twice
           eq_refl eq_refl).
  - vm_compute. reflexivity.
  - vm_compute. discriminate.
Defined.

Lemma change_recorded_before_handler_witness :
  let w' := run (processWatcherEvent enemy_written) malformed in
  lastOwnChangeTime Mirror (vars w') = t0 /\
  lastOwnChangedPath Mirror (vars w') = enemy_gmo.
Proof.
  destruct (change_recorded_before_handler Mirror enemy_written malformed
              eq_refl eq_refl eq_refl) as [_ [Ht [Hp Hv]]].
  cbv zeta. rewrite Hv. split; [exact Ht | exact Hp].
Defined.

(** C4 as stated fails: the event passes both checks, its translation
    fails on the parse error, and the mirror side's last own change and
    last own changed path have been set all the same. *)
Lemma failed_translation_still_recorded :
  let w := malformed in
  let w2 := run (record_change Mirror enemy_gmo)
              (run (timingOk Mirror enemy_gmo) w) in
  let w' := run (processWatcherEvent enemy_written) w in
  value (timingOk Mirror enemy_gmo) w = true /\
  value (operation MirrorObject enemy_gmo) w2
  = Some ("Error reading human object file " ++ enemy_gmo
          ++ ": unknown event") /\
  files (fs w') !! enemy_gmx = Some "<object/>" /\
  (humanChanged (vars w), lastHumanFileChanged (vars w)) = (0, "") /\
  (humanChanged (vars w'), lastHumanFileChanged (vars w')) = (t0, enemy_gmo) /\
  vars w' <> vars w.
Proof.
  cbv zeta. repeat split; try (vm_compute; reflexivity).
  intros E. apply (f_equal humanChanged) in E. vm_compute in E.
  discriminate.
Qed.

Lemma acted_on_iff_witness :
  (length (stdout (after_native (1200 * Millisecond) "edited"))
   < length (stdout (run (processWatcherEvent enemy_written)
                       (after_native (1200 * Millisecond) "edited"))))%nat.
Proof.
  apply (acted_on_iff enemy_written
           (after_native (1200 * Millisecond) "edited")).
  split; [reflexivity |]. exists Mirror. split; vm_compute; reflexivity.
Defined.

(** C6 as stated fails: a write event for a [.gmo] file under the human
    folder, 200ms after a native-side change, sets off no translation: the
    files and standard output are as before. *)
Lemma write_under_root_not_translated :
  let w := after_native (200 * Millisecond) "edited" in
  let w' := run (processWatcherEvent enemy_written) w in
  Op enemy_written = Write /\
  classify (vars w) (Name enemy_written) = MirrorObject /\
  stdout w' = stdout w /\
  fs w' = fs w /\
  files (fs w') !! enemy_gmx = Some "<object/>".
Proof. cbv zeta. repeat split; vm_compute; reflexivity. Qed.

Lemma malformed_mirror_leaves_native_witness :
  let w' := run (translateHumanObject enemy_gmo) malformed in
  fs w' = fs malformed /\
  project w' = project malformed /\
  stdout w'
  = ["[12:00:00] Error reading human object file /proj/gm_txt/Enemy.gmo: unknown event"
     ++ nl].
Proof.
  apply (proj1 (malformed_mirror_leaves_native (codec := Sample.codec)
                  enemy_gmo malformed)
           "<object/>" "?bogus" "unknown event" "<object/>");
    first [vm_compute; reflexivity | vm_compute; discriminate].
Defined.

Lemma failed_encoding_truncates_native_witness :
  value (HumanObjectFileToGMObjectFile enemy_gmo enemy_gmx) unencodable
  = Some ("Error writing XML to " ++ enemy_gmx ++ ": short write") /\
  files (fs (run (HumanObjectFileToGMObjectFile enemy_gmo enemy_gmx)
               unencodable)) !! enemy_gmx
  = Some "!spr".
Proof.
  apply (failed_encoding_truncates_native (codec := Sample.codec)
           enemy_gmo enemy_gmx unencodable
           "<object/>" "!sprite: spr_enemy" "!spr" "short write"
           "<object/>" "!sprite: spr_enemy");
    first [vm_compute; reflexivity | vm_compute; discriminate].
Defined.


(** C5. On the write of a mirror object file with no native counterpart
    the code does this: [HumanObjectFileToGMObjectFile] fails on opening
    the missing native file, so no native file is produced and nothing is
    merged onto a default; the error is printed, and the entry is still
    appended to the [objects] group of the project document. *)
Theorem new_mirror_object_gets_no_native_file (c : Codec) (text : string) :
  let w := mirror_only text in
  let w' := run (processWatcherEvent enemy_written) w in
  files (fs w) !! enemy_gmx = None /\
  files (fs w') !! enemy_gmx = None /\
  fs w' = fs w /\
  project w' = [("objects", [("Enemy", "object")]); ("scripts", [])] /\
  stdout w'
  = [("[" ++ time_Format t0 ++ "] "
      ++ ("Error opening file " ++ enemy_gmx ++ ": "
          ++ "open " ++ enemy_gmx ++ ": no such file or directory")
      ++ nl)%string;
     ("[" ++ time_Format t0 ++ "] "
      ++ "Project file updated Enemy" ++ nl)%string].
Proof. cbv zeta. repeat split; vm_compute; reflexivity. Qed.

(** C7. For a file name with a dot in its base name the code does this:
    the initial pass strips the suffix [.object.gmx] and writes the mirror
    file [My.Enemy.gmo]; a later write to that mirror file is translated
    under the name [My], cut at the first dot, so the engine looks for
    [My.object.gmx], fails, leaves [My.Enemy.object.gmx] as it was and
    adds [My] to the project document; a write to the native file is
    translated to [My.gmo]. *)
Theorem dotted_name_is_cut_at_first_dot :
  let w1 := run (main_translate_f (mkVisit dotted_gmx (Some false) None))
              dotted in
  let w2 := run (processWatcherEvent (mkEvent dotted_gmo Write)) w1 in
  let w3 := run (processWatcherEvent (mkEvent dotted_gmx Write)) w1 in
  files (fs w1) !! dotted_gmo = Some "<object/>" /\
  stdout w2
  = [("[12:00:00] Error opening file /proj/objects/My.object.gmx: "
      ++ "open /proj/objects/My.object.gmx: no such file or directory"
      ++ nl)%string;
     ("[12:00:00] Project file updated My" ++ nl)%string] /\
  fs w2 = fs w1 /\
  project w2 = [("objects", [("My", "object")]); ("scripts", [])] /\
  files (fs w3) !! "/proj/gm_txt/My.gmo" = Some "<object/>" /\
  stdout w3 = [("[12:00:00] (From GM) Translated My" ++ nl)%string].
Proof. cbv zeta. repeat split; vm_compute; reflexivity. Qed.

(** A refusal of [watcher.Add] is printed and [main] goes on to wait. *)
Example watcher_Add_refusal_is_not_fatal :
  value main (fresh hostNoAdd) = Listening /\
  length (stdout (run main (fresh hostNoAdd))) = 4%nat.
Proof. split; vm_compute; reflexivity. Qed.

End Runs.

(** * More on the file routines *)

Section Files.

Context {codec : Codec}.

(** ** Native to mirror, file by file *)

Lemma GMObjectFileToHumanObjectFile_written
    (o h : string) (w : World) (native : string) (obj : GMObject) :
  files (fs w) !! o = Some native -> o ∉ denied (fs w) ->
  xml_Decode native = Ok obj ->
  h ∉ denied (fs w) ->
  GMObjectFileToHumanObjectFile o h w
  = (match werr (WriteHumanObject obj) with
     | Some e => Some ("Error writing human object to " ++ h ++ ": " ++ e)
     | None => None
     end,
     with_fs
       (with_files
          (<[h := match werr (WriteHumanObject obj) with
                  | Some _ => flushed (WriteHumanObject obj)
                  | None =>
                      flushed (WriteHumanObject obj)
                      ++ match short (fs w) !! h with
                         | Some n =>
                             if (n <? String.length
                                        (pending (WriteHumanObject obj)))%nat
                             then substring 0 n
                                    (pending (WriteHumanObject obj))
                             else pending (WriteHumanObject obj)
                         | None => pending (WriteHumanObject obj)
                         end
                  end]> (files (fs w)))
          (fs w)) w).
Proof.
  intros Ho Hdo Hd Hdh. unfold GMObjectFileToHumanObjectFile.
  cbv beta zeta delta [bind ret].
  rewrite (os_Open_ok o native w Ho Hdo). cbn [fst snd]. rewrite Hd.
  rewrite (os_Create_ok h w Hdh). cbn [fst snd].
  unfold file_Write. cbn [fst snd fs files with_fs with_files].
  rewrite lookup_insert_eq. cbn [default]. rewrite insert_insert_eq.
  destruct (werr (WriteHumanObject obj)) as [e |]; cbn [fst snd].
  - destruct w as [? ? [? ? ? ?] ? ? ? ?]; reflexivity.
  - unfold bufio_Flush, file_Write.
    cbn [fst snd fs files short with_fs with_files].
    destruct (short (fs w) !! h) as [n |];
      [destruct (n <? _)%nat |];
      cbn [fst snd fs files with_fs with_files];
      rewrite lookup_insert_eq; cbn [default]; rewrite insert_insert_eq;
      destruct w as [? ? [? ? ? ?] ? ? ? ?]; reflexivity.
Qed.

Lemma bufio_Flush_short (h text data : string) (n : nat) (w : World) :
  short (fs w) !! h = Some n ->
  (n <? String.length data)%nat = true ->
  value (bufio_Flush h data)
    (run (file_Write h text) (run (os_Create h) w))
  = Some "short write".
Proof.
  intros Hs Hn. unfold value, bufio_Flush.
  assert (Hs' : short (fs (run (file_Write h text) (run (os_Create h) w)))
                !! h = Some n).
  { rewrite <- Hs. unfold run, os_Create. destruct (decide _); reflexivity. }
  now rewrite Hs', Hn.
Qed.

(** X1. When the native file can be read and decoded, the mirror file can
    be created and the writer reports no error, the routine returns [nil],
    whatever the final flush does, because the error of [w.Flush()] is
    dropped. If the system takes the whole buffer the mirror file holds
    everything the writer produced; if it takes only the first [n] bytes,
    the mirror file ends there, and the caller is told nothing. *)
Theorem mirror_written_whole
    (o h : string) (w : World) (native : string) (obj : GMObject) :
  files (fs w) !! o = Some native -> o ∉ denied (fs w) ->
  xml_Decode native = Ok obj ->
  h ∉ denied (fs w) ->
  werr (WriteHumanObject obj) = None ->
  value (GMObjectFileToHumanObjectFile o h) w = None /\
  (short (fs w) !! h = None ->
   files (fs (run (GMObjectFileToHumanObjectFile o h) w)) !! h
   = Some (flushed (WriteHumanObject obj)
           ++ pending (WriteHumanObject obj))) /\
  (forall n : nat,
     short (fs w) !! h = Some n ->
     (n < String.length (pending (WriteHumanObject obj)))%nat ->
     value (bufio_Flush h (pending (WriteHumanObject obj)))
       (run (file_Write h (flushed (WriteHumanObject obj)))
          (run (os_Create h) w))
     = Some "short write" /\
     files (fs (run (GMObjectFileToHumanObjectFile o h) w)) !! h
     = Some (flushed (WriteHumanObject obj)
             ++ substring 0 n (pending (WriteHumanObject obj)))).
Proof.
  intros Ho Hdo Hd Hdh He.
  pose proof (GMObjectFileToHumanObjectFile_written o h w native obj
                Ho Hdo Hd Hdh) as E.
  rewrite He in E.
  split; [unfold value; now rewrite E |]. split.
  - intros Hs. rewrite Hs in E. unfold run. rewrite E.
    cbn [fst snd fs files with_fs with_files]. apply lookup_insert_eq.
  - intros n Hs Hn. apply Nat.ltb_lt in Hn.
    split; [now apply (bufio_Flush_short h _ _ n) |].
    rewrite Hs, Hn in E. unfold run. rewrite E.
    cbn [fst snd fs files with_fs with_files]. apply lookup_insert_eq.
Qed.

(** X2. When the writer of the human format fails, the routine returns the
    error and the mirror file, created anew, holds only the bytes the
    buffer had passed on: the rest is never flushed. *)
Theorem failed_writer_leaves_flushed_part
    (o h : string) (w : World) (native reason : string) (obj : GMObject) :
  files (fs w) !! o = Some native -> o ∉ denied (fs w) ->
  xml_Decode native = Ok obj ->
  h ∉ denied (fs w) ->
  werr (WriteHumanObject obj) = Some reason ->
  value (GMObjectFileToHumanObjectFile o h) w
  = Some ("Error writing human object to " ++ h ++ ": " ++ reason) /\
  files (fs (run (GMObjectFileToHumanObjectFile o h) w)) !! h
  = Some (flushed (WriteHumanObject obj)).
Proof.
  intros Ho Hdo Hd Hdh He. unfold value, run.
  rewrite (GMObjectFileToHumanObjectFile_written o h w native obj
             Ho Hdo Hd Hdh), He.
  cbn [fst snd fs files with_fs with_files]. split;
    [reflexivity | apply lookup_insert_eq].
Qed.

(** X3. The mirror file is created, hence truncated, only after the native
    file has been read and decoded: a call that cannot open or decode the
    native file, or is refused the mirror file, leaves the world as it
    was. *)
Theorem mirror_created_only_after_decode (o h : string) (w : World) :
  (run (GMObjectFileToHumanObjectFile o h) w <> w) ->
  exists native obj,
    files (fs w) !! o = Some native /\ (o ∉ denied (fs w)) /\
    xml_Decode native = Ok obj /\ (h ∉ denied (fs w)).
Proof.
  unfold run, GMObjectFileToHumanObjectFile.
  cbv beta zeta delta [bind ret]. unfold os_Open.
  destruct (decide (o ∈ denied (fs w))) as [| Hdo]; cbn [fst snd];
    [congruence |].
  destruct (files (fs w) !! o) as [native |] eqn:Ho; cbn [fst snd];
    [| congruence].
  destruct (xml_Decode native) as [obj | e] eqn:Hd; cbn [fst snd];
    [| congruence].
  unfold os_Create.
  destruct (decide (h ∈ denied (fs w))) as [| Hdh]; cbn [fst snd];
    [congruence |].
  intros _. now exists native, obj.
Qed.

(** ** What each routine may change *)

Lemma file_Write_other (name data p : string) (w : World) :
  p <> name ->
  files (fs (run (file_Write name data) w)) !! p = files (fs w) !! p.
Proof. intros Hp. cbn. now rewrite lookup_insert_ne by congruence. Qed.

Lemma os_Create_other (name p : string) (w : World) :
  p <> name ->
  files (fs (run (os_Create name) w)) !! p = files (fs w) !! p.
Proof.
  intros Hp. unfold run, os_Create.
  destruct (decide _); cbn; [reflexivity |].
  now rewrite lookup_insert_ne by congruence.
Qed.

(** X4. Each routine changes at most its output file: every other file,
    the folders and the refused paths are as before, whether the call
    succeeds or fails. In particular translating from the mirror never
    writes the mirror file, and translating from the native file never
    writes the native file. *)
Theorem routines_change_only_their_output (src dst p : string) (w : World) :
  p <> dst ->
  (files (fs (run (HumanObjectFileToGMObjectFile src dst) w)) !! p
   = files (fs w) !! p /\
   folders (fs (run (HumanObjectFileToGMObjectFile src dst) w))
   = folders (fs w) /\
   denied (fs (run (HumanObjectFileToGMObjectFile src dst) w))
   = denied (fs w))
  /\
  (files (fs (run (GMObjectFileToHumanObjectFile src dst) w)) !! p
   = files (fs w) !! p /\
   folders (fs (run (GMObjectFileToHumanObjectFile src dst) w))
   = folders (fs w) /\
   denied (fs (run (GMObjectFileToHumanObjectFile src dst) w))
   = denied (fs w)).
Proof.
  intros Hp. split.
  - unfold run, HumanObjectFileToGMObjectFile.
    cbv beta zeta delta [bind ret]. unfold os_Open.
    destruct (decide (dst ∈ denied (fs w))) as [| Hd]; cbn [fst snd];
      [now repeat split |].
    destruct (files (fs w) !! dst) as [native |]; cbn [fst snd];
      [| now repeat split].
    destruct (xml_Decode native) as [obj | e]; cbn [fst snd];
      [| now repeat split].
    destruct (decide (src ∈ denied (fs w))); cbn [fst snd];
      [now repeat split |].
    destruct (files (fs w) !! src) as [text |]; cbn [fst snd];
      [| now repeat split].
    destruct (ReadHumanObject text obj) as [obj' | e]; cbn [fst snd];
      [| now repeat split].
    rewrite (os_Create_ok dst w Hd). cbn [fst snd].
    destruct (snd (xml_Encode obj')); cbn;
      rewrite !lookup_insert_ne by congruence; now repeat split.
  - unfold run, GMObjectFileToHumanObjectFile.
    cbv beta zeta delta [bind ret]. unfold os_Open.
    destruct (decide (src ∈ denied (fs w))); cbn [fst snd];
      [now repeat split |].
    destruct (files (fs w) !! src) as [native |]; cbn [fst snd];
      [| now repeat split].
    destruct (xml_Decode native) as [obj | e]; cbn [fst snd];
      [| now repeat split].
    unfold os_Create.
    destruct (decide (dst ∈ denied (fs w))); cbn [fst snd];
      [now repeat split |].
    destruct (werr (WriteHumanObject obj)); cbn [fst snd];
      [cbn; rewrite !lookup_insert_ne by congruence; now repeat split |].
    unfold bufio_Flush.
    match goal with
    | |- context [short (fs ?x) !! dst] =>
        destruct (short (fs x) !! dst) as [room |]
    end;
      [destruct (room <? _)%nat |]; cbn;
      rewrite !lookup_insert_ne by congruence; now repeat split.
Qed.


(** ** Success and the way back *)

(** X5. A [nil] from the mirror-to-native routine means all of it
    happened: the native file was read and decoded, the mirror text was
    read and parsed onto it, the encoder reported no error, and the native
    file now holds the encoding of the merged object. *)
Theorem nil_means_native_encoded (h o : string) (w : World) :
  value (HumanObjectFileToGMObjectFile h o) w = None ->
  exists native obj text obj' encoded,
    files (fs w) !! o = Some native /\ xml_Decode native = Ok obj /\
    files (fs w) !! h = Some text /\ ReadHumanObject text obj = Ok obj' /\
    xml_Encode obj' = (encoded, None) /\
    files (fs (run (HumanObjectFileToGMObjectFile h o) w)) !! o
    = Some encoded.
Proof.
  unfold value, run, HumanObjectFileToGMObjectFile.
  cbv beta zeta delta [bind ret]. unfold os_Open.
  destruct (decide (o ∈ denied (fs w))) as [| Hdo]; cbn [fst snd];
    [discriminate |].
  destruct (files (fs w) !! o) as [native |] eqn:Ho; cbn [fst snd];
    [| discriminate].
  destruct (xml_Decode native) as [obj | e] eqn:Hd; cbn [fst snd];
    [| discriminate].
  destruct (decide (h ∈ denied (fs w))); cbn [fst snd]; [discriminate |].
  destruct (files (fs w) !! h) as [text |] eqn:Hh; cbn [fst snd];
    [| discriminate].
  destruct (ReadHumanObject text obj) as [obj' | e] eqn:Hr; cbn [fst snd];
    [| discriminate].
  rewrite (os_Create_ok o w Hdo). cbn [fst snd].
  destruct (xml_Encode obj') as [encoded [e |]] eqn:He; cbn [fst snd];
    [discriminate |].
  intros _. exists native, obj, text, obj', encoded.
  repeat split; try assumption.
  cbn. rewrite lookup_insert_eq. cbn. now rewrite lookup_insert_eq.
Qed.

(** X6. There and back. Translating a native file to its mirror file and
    that mirror file back rewrites the native file with the encoding of
    what the reader makes of the mirror file, merged onto the decoded
    object; so when the final flush gets the whole buffer into the mirror
    file, reader and writer agree on this object and the encoder gives
    back the document it was decoded from, the native file ends as it
    began. *)
Theorem there_and_back
    (o h : string) (w : World) (native : string) (obj : GMObject) :
  o <> h ->
  files (fs w) !! o = Some native -> o ∉ denied (fs w) ->
  h ∉ denied (fs w) ->
  short (fs w) !! h = None ->
  xml_Decode native = Ok obj ->
  werr (WriteHumanObject obj) = None ->
  ReadHumanObject
    (flushed (WriteHumanObject obj) ++ pending (WriteHumanObject obj)) obj
  = Ok obj ->
  xml_Encode obj = (native, None) ->
  let w1 := run (GMObjectFileToHumanObjectFile o h) w in
  let w2 := run (HumanObjectFileToGMObjectFile h o) w1 in
  value (GMObjectFileToHumanObjectFile o h) w = None /\
  value (HumanObjectFileToGMObjectFile h o) w1 = None /\
  files (fs w2) !! o = Some native /\
  files (fs w2) !! h
  = Some (flushed (WriteHumanObject obj) ++ pending (WriteHumanObject obj)).
Proof.
  intros Hne Ho Hdo Hdh Hs Hd He Hr Hx w1 w2.
  pose proof (GMObjectFileToHumanObjectFile_written o h w native obj
                Ho Hdo Hd Hdh) as E1.
  rewrite He, Hs in E1.
  assert (Hw1 : w1 = with_fs
                  (with_files
                     (<[h := flushed (WriteHumanObject obj)
                             ++ pending (WriteHumanObject obj)]>
                        (files (fs w))) (fs w)) w)
    by (subst w1; unfold run; now rewrite E1).
  assert (Ho1 : files (fs w1) !! o = Some native).
  { rewrite Hw1. cbn. now rewrite lookup_insert_ne by congruence. }
  assert (Hh1 : files (fs w1) !! h
                = Some (flushed (WriteHumanObject obj)
                        ++ pending (WriteHumanObject obj)))
    by (rewrite Hw1; cbn; apply lookup_insert_eq).
  assert (Hdo1 : o ∉ denied (fs w1)) by (now rewrite Hw1).
  assert (Hdh1 : h ∉ denied (fs w1)) by (now rewrite Hw1).
  pose proof (HumanObjectFileToGMObjectFile_encoded h o w1 native _ obj obj
                Ho1 Hdo1 Hd Hh1 Hdh1 Hr) as E2.
  rewrite Hx in E2. cbn [fst snd] in E2.
  split; [unfold value; now rewrite E1 |].
  split; [unfold value; now rewrite E2 |].
  assert (Hw2 : w2 = with_fs
                  (with_files (<[o := native]> (files (fs w1))) (fs w1)) w1)
    by (subst w2; unfold run; now rewrite E2).
  rewrite Hw2. cbn [snd fs files with_fs with_files]. split.
  - apply lookup_insert_eq.
  - rewrite lookup_insert_ne by congruence. exact Hh1.
Qed.

End Files.

(** * More on events *)

Section Events.

Context {codec : Codec}.

Lemma HasPrefix_app (p rest : string) : Str.HasPrefix (p ++ rest) p = true.
Proof.
  induction p as [| c p IH]; [destruct rest; reflexivity |].
  change (String c p ++ rest) with (String c (p ++ rest)).
  cbn [Str.HasPrefix]. now rewrite Ascii.eqb_refl, IH.
Qed.

Lemma handled_vars (c : PathClass) (s : Side) (name : string) (w : World) :
  vars (run (handler c name)
          (run (record_change s name) (run (timingOk s name) w)))
  = vars (run (record_change s name) (run (timingOk s name) w)) /\
  clock (run (handler c name)
           (run (record_change s name) (run (timingOk s name) w)))
  = clock w.
Proof.
  destruct (framed_handler c name
              (run (record_change s name) (run (timingOk s name) w)))
    as [Hv Hc _ _ _].
  split; [exact Hv |]. rewrite Hc, record_change_run, timingOk_run.
  reflexivity.
Qed.

(** X7. The echo. Once an event of side [s] has passed the gate, the side's
    last own change is the clock reading taken right after the gate; a
    write event of the other side that is handled within [reverbSpacing]
    of that reading is dropped, and one handled later, for a path other
    than the last one recorded for its side, is acted on in its turn. *)
Theorem echo_is_dropped (s : Side) (event echo : Event) (w : World) :
  Op event = Write ->
  side_of (classify (vars w) (Name event)) = Some s ->
  value (timingOk s (Name event)) w = true ->
  Op echo = Write ->
  side_of (classify (vars w) (Name echo)) = Some (opposite s) ->
  let w1 := run (processWatcherEvent event) w in
  let stamp := clock w (ticks w + gate_reads s (Name event) w) in
  lastOwnChangeTime s (vars w1) = stamp /\
  (clock w1 (ticks w1) - stamp <= reverbSpacing ->
   run (processWatcherEvent echo) w1 = with_ticks (S (ticks w1)) w1) /\
  (reverbSpacing < clock w1 (ticks w1) - stamp ->
   Name echo <> lastOwnChangedPath (opposite s) (vars w) ->
   acted_on echo w1).
Proof.
  intros Hop Hs Hv Hop2 Hs2 w1 stamp.
  assert (E : w1 = run (handler (classify (vars w) (Name event))
                          (Name event))
                     (run (record_change s (Name event))
                        (run (timingOk s (Name event)) w)))
    by (apply process_passed; assumption).
  destruct (handled_vars (classify (vars w) (Name event)) s (Name event) w)
    as [Hvars Hclock].
  rewrite <- E in Hvars, Hclock.
  assert (Hstamp : lastOwnChangeTime s (vars w1) = stamp).
  { rewrite Hvars.
    destruct (record_change_own s (Name event)
                (run (timingOk s (Name event)) w)) as [Ht _].
    rewrite Ht, timingOk_run. reflexivity. }
  assert (Hclass : forall p, classify (vars w1) p = classify (vars w) p).
  { intros p. rewrite Hvars, record_change_classify, timingOk_run.
    reflexivity. }
  assert (Hopp : opposite (opposite s) = s) by (destruct s; reflexivity).
  assert (Hother : lastOwnChangedPath (opposite s) (vars w1)
                   = lastOwnChangedPath (opposite s) (vars w)).
  { rewrite Hvars.
    destruct (record_change_other s (Name event)
                (run (timingOk s (Name event)) w)) as [_ Hp].
    rewrite Hp, timingOk_run. reflexivity. }
  split; [exact Hstamp |]. split.
  - intros Hle.
    assert (Hv2 : value (timingOk (opposite s) (Name echo)) w1 = false).
    { rewrite timingOk_value. unfold gate_verdict.
      rewrite Hopp, Hstamp.
      destruct (Z.ltb_spec reverbSpacing (clock w1 (ticks w1) - stamp));
        [lia | reflexivity]. }
    rewrite (process_suppressed echo (opposite s) w1 Hop2).
    + unfold gate_reads. rewrite Hopp, Hstamp.
      destruct (Z.ltb_spec reverbSpacing (clock w1 (ticks w1) - stamp));
        [lia |]. cbn [andb]. f_equal. lia.
    + rewrite Hclass. exact Hs2.
    + exact Hv2.
  - intros Hlt Hne. split; [exact Hop2 |]. exists (opposite s). split.
    + rewrite Hclass. exact Hs2.
    + rewrite timingOk_value. unfold gate_verdict.
      rewrite Hopp, Hstamp, Hother.
      destruct (Z.ltb_spec reverbSpacing (clock w1 (ticks w1) - stamp));
        [| lia].
      destruct (String.eqb_spec (lastOwnChangedPath (opposite s) (vars w))
                  (Name echo)); [congruence | reflexivity].
Qed.

(** X8. Handling an event never changes the five path variables, the clock
    or the host, and leaves the last own change and last own changed path
    of every side other than the event's own as they were. *)
Theorem event_keeps_roots_and_other_side (event : Event) (w : World) :
  let w' := run (processWatcherEvent event) w in
  (humanDir (vars w'), projectPath (vars w'), projectDir (vars w'),
   gmObjectsDir (vars w'), gmScriptsDir (vars w'))
  = (humanDir (vars w), projectPath (vars w), projectDir (vars w),
     gmObjectsDir (vars w), gmScriptsDir (vars w)) /\
  clock w' = clock w /\
  host w' = host w /\
  (forall s, side_of (classify (vars w) (Name event)) <> Some s ->
     lastOwnChangeTime s (vars w') = lastOwnChangeTime s (vars w) /\
     lastOwnChangedPath s (vars w') = lastOwnChangedPath s (vars w)).
Proof.
  intros w'.
  destruct (N.eq_dec (Op event) Write) as [Hop | Hop].
  2:{ subst w'. rewrite process_ignored by (now left). now repeat split. }
  destruct (side_of (classify (vars w) (Name event))) as [s |] eqn:Hs.
  2:{ subst w'. rewrite process_ignored; [now repeat split |].
      right. destruct (classify (vars w) (Name event)); cbn in Hs;
        congruence. }
  destruct (value (timingOk s (Name event)) w) eqn:Hv.
  2:{ subst w'. rewrite (process_suppressed event s w Hop Hs Hv).
      destruct w; now repeat split. }
  assert (E : w' = run (handler (classify (vars w) (Name event))
                          (Name event))
                     (run (record_change s (Name event))
                        (run (timingOk s (Name event)) w)))
    by (apply process_passed; assumption).
  destruct (framed_handler (classify (vars w) (Name event)) (Name event)
              (run (record_change s (Name event))
                 (run (timingOk s (Name event)) w)))
    as [Hvars Hclock Hhost _ _].
  rewrite <- E in Hvars, Hclock, Hhost.
  rewrite Hvars, Hclock, Hhost, record_change_run, timingOk_run.
  split; [destruct s; reflexivity |].
  split; [reflexivity |]. split; [reflexivity |].
  intros s' Hs'. destruct s, s'; try congruence; now split.
Qed.

(** X9. The roots are compared as strings, not element by element: any
    path that starts with the text of the human folder and ends in [.gmo]
    is handled as a mirror object, and any path that starts with the text
    of the objects folder and ends in [.gmx] as a native object, whatever
    comes between (a neighbouring folder whose name only begins like the
    root, a [.gmx] file that is not an [.object.gmx]). *)
Theorem roots_are_string_prefixes (event : Event) (rest : string)
    (w : World) :
  Op event = Write ->
  (Name event = humanDir (vars w) ++ rest ->
   Str.Ext (Name event) = ".gmo" ->
   value (humanFileTimingOk (Name event)) w = true ->
   run (processWatcherEvent event) w
   = run (translateHumanObject (Name event))
       (run (record_change Mirror (Name event))
          (run (humanFileTimingOk (Name event)) w)))
  /\
  (Name event = gmObjectsDir (vars w) ++ rest ->
   Str.Ext (Name event) = ".gmx" ->
   value (gmFileTimingOk (Name event)) w = true ->
   run (processWatcherEvent event) w
   = run (translateGMObject (Name event))
       (run (record_change Native (Name event))
          (run (gmFileTimingOk (Name event)) w))).
Proof.
  intros Hop. split; intros Hn He Hv.
  - assert (Hc : classify (vars w) (Name event) = MirrorObject).
    { unfold classify. rewrite He, Hn, HasPrefix_app. reflexivity. }
    rewrite (process_passed event Mirror w Hop); rewrite ?Hc;
      reflexivity || exact Hv.
  - assert (Hc : classify (vars w) (Name event) = NativeObject).
    { unfold classify. rewrite He, Hn, HasPrefix_app. cbn.
      now rewrite !andb_false_r. }
    rewrite (process_passed event Native w Hop); rewrite ?Hc;
      reflexivity || exact Hv.
Qed.

(** X10. The operation is compared with [Write] as a whole: an event whose
    operation is anything else, a mask with the write bit next to another
    bit included, is not handled at all. *)
Theorem only_a_bare_write_is_handled (event : Event) (w : World) :
  Op event <> Write ->
  processWatcherEvent event w = (tt, w).
Proof.
  intros Hop. rewrite processWatcherEvent_eq. unfold dispatch.
  destruct (N.eqb_spec (Op event) Write); [contradiction | reflexivity].
Qed.

End Events.

(** * More on names *)

Section Names.

Context {codec : Codec}.

Lemma length_app_string (s t : string) :
  String.length (s ++ t) = (String.length s + String.length t)%nat.
Proof.
  induction s as [| c s IH]; [reflexivity |].
  change (String c s ++ t) with (String c (s ++ t)). cbn. now rewrite IH.
Qed.

Lemma substring_whole (t : string) : substring 0 (String.length t) t = t.
Proof. induction t as [| c t IH]; cbn; [reflexivity | now rewrite IH]. Qed.

Lemma substring_front (s t : string) :
  substring 0 (String.length s) (s ++ t) = s.
Proof.
  induction s as [| c s IH].
  - destruct t; reflexivity.
  - change (String c s ++ t) with (String c (s ++ t)). cbn. now rewrite IH.
Qed.

Lemma substring_back (s t : string) :
  substring (String.length s) (String.length t) (s ++ t) = t.
Proof.
  induction s as [| c s IH].
  - apply substring_whole.
  - change (String c s ++ t) with (String c (s ++ t)). cbn. exact IH.
Qed.

Lemma HasSuffix_app (s suffix : string) :
  Str.HasSuffix (s ++ suffix) suffix = true.
Proof.
  unfold Str.HasSuffix. rewrite length_app_string.
  replace (String.length s + String.length suffix - String.length suffix)%nat
    with (String.length s) by lia.
  rewrite substring_back, String.eqb_refl, andb_true_r.
  apply Nat.leb_le. lia.
Qed.

Lemma TrimSuffix_app (s suffix : string) :
  Str.TrimSuffix (s ++ suffix) suffix = s.
Proof.
  unfold Str.TrimSuffix. rewrite HasSuffix_app, length_app_string.
  replace (String.length s + String.length suffix - String.length suffix)%nat
    with (String.length s) by lia.
  apply substring_front.
Qed.

Lemma append_assoc_string (a b c : string) : (a ++ b) ++ c = a ++ b ++ c.
Proof.
  induction a as [| x a IH]; [reflexivity |].
  change (String x (((a ++ b) ++ c)) = String x (a ++ b ++ c)).
  now rewrite IH.
Qed.

Lemma logLine_fs (text : string) (w : World) :
  fs (run (logLine text) w) = fs w /\
  project (run (logLine text) w) = project w.
Proof. now split. Qed.


Lemma project_update_fs (missing : bool) (name kind group text : string)
    (w : World) :
  fs (run (if missing
           then
             let* err := AppendResourceToGMProject name kind group in
             match err with
             | Some e => logLine e
             | None => logLine text
             end
           else ret tt) w)
  = fs w.
Proof.
  destruct missing; [| reflexivity].
  unfold run, bind, AppendResourceToGMProject.
  destruct (AppendManifestEntry (project w) group name kind); reflexivity.
Qed.

(** X11. Both event handlers name the resource by the part of the file
    name before its first dot and address the counterpart by that name:
    for a file [dir/stem.rest] with a dot-free stem, a native-side event
    runs the native-to-mirror routine onto [humanDir/stem.gmo], and a
    mirror-side event runs the mirror-to-native routine onto
    [gmObjectsDir/stem.object.gmx]; the file system afterwards is the one
    that routine leaves. *)
Theorem handlers_address_the_stem (dir stem rest : string) (w : World) :
  stem <> "" ->
  Forall (fun c => c <> Str.slash /\ c <> Str.dot) (Str.chars stem) ->
  Forall (fun c => c <> Str.slash) (Str.chars rest) ->
  let path := dir ++ "/" ++ stem ++ "." ++ rest in
  fs (run (translateGMObject path) w)
  = fs (run (GMObjectFileToHumanObjectFile path
               (Str.Join [humanDir (vars w); stem ++ ".gmo"])) w)
  /\
  fs (run (translateHumanObject path) w)
  = fs (run (HumanObjectFileToGMObjectFile path
               (Str.Join [gmObjectsDir (vars w); stem ++ ".object.gmx"])) w).
Proof.
  intros Hne Hstem Hrest path.
  pose proof (objName_is_cut_at_first_dot dir stem rest Hne Hstem Hrest)
    as Hname. fold path in Hname.
  split.
  - unfold translateGMObject. cbv zeta. rewrite Hname.
    rewrite run_bind, run_gets, value_gets. cbv beta.
    rewrite run_bind. cbv beta.
    destruct (value (GMObjectFileToHumanObjectFile path _) w);
      apply logLine_fs.
  - unfold translateHumanObject. cbv zeta. rewrite Hname.
    rewrite run_bind, run_gets, value_gets. cbv beta.
    rewrite run_bind, os_Stat_run. cbv beta.
    rewrite run_bind. cbv beta. rewrite run_bind. cbv beta.
    rewrite project_update_fs.
    destruct (value (HumanObjectFileToGMObjectFile path _) w);
      apply logLine_fs.
Qed.

(** X12. The initial pass names the mirror file by the whole stem: for a
    file [dir/stem.object.gmx], whatever dots the stem has, it runs the
    native-to-mirror routine onto [humanDir/stem.gmo] and hands the
    routine's error, if any, back to the walk. *)
Theorem initial_pass_keeps_the_whole_stem (dir stem : string) (e : error)
    (w : World) :
  Forall (fun c => c <> Str.slash) (Str.chars stem) ->
  let path := dir ++ "/" ++ stem ++ ".object.gmx" in
  let target := Str.Join [humanDir (vars w); stem ++ ".gmo"] in
  fs (run (main_translate_f (mkVisit path (Some false) e)) w)
  = fs (run (GMObjectFileToHumanObjectFile path target) w)
  /\
  value (main_translate_f (mkVisit path (Some false) e)) w
  = match value (GMObjectFileToHumanObjectFile path target) w with
    | Some err => WalkErr err
    | None => WalkNil
    end.
Proof.
  intros Hstem path target.
  assert (Hsuf : Str.HasSuffix path ".object.gmx" = true).
  { subst path.
    rewrite <- (append_assoc_string dir "/" (stem ++ ".object.gmx")).
    rewrite <- (append_assoc_string (dir ++ "/") stem ".object.gmx").
    apply HasSuffix_app. }
  assert (Hbase : Str.Base path = stem ++ ".object.gmx").
  { subst path. apply Base_of_joined.
    - destruct stem; discriminate.
    - rewrite chars_app. apply Forall_app. split; [exact Hstem |].
      repeat constructor; discriminate. }
  unfold main_translate_f. cbn [v_info v_path orb].
  rewrite Hsuf. cbn [negb]. cbv zeta.
  rewrite Hbase, TrimSuffix_app.
  rewrite run_bind, value_bind, run_gets, value_gets. cbv beta.
  fold target. rewrite run_bind, value_bind. cbv beta.
  destruct (value (GMObjectFileToHumanObjectFile path target) w);
    split; reflexivity.
Qed.

End Names.

(** * More on start-up *)

Section Startup.

Context {codec : Codec}.

Lemma settled_refl (w : World) : settled w w.
Proof. split; auto. Qed.

Lemma settled_trans (w1 w2 w3 : World) :
  settled w1 w2 -> settled w2 w3 -> settled w1 w3.
Proof.
  intros [Hp Hd Hf Hfi Ht] [Hp' Hd' Hf' Hfi' Ht'].
  split; [congruence | congruence | | auto | congruence].
  intros x Hx. apply Hf', Hf, Hx.
Qed.

Lemma settles_ret {A : Type} (a : A) : settles (ret a).
Proof. intros w. apply settled_refl. Qed.

Lemma settles_bind {A B : Type} (m : M A) (k : A -> M B) :
  settles m -> (forall a, settles (k a)) -> settles (bind m k).
Proof.
  intros Hm Hk w. unfold run, bind.
  eapply settled_trans; [apply Hm | apply Hk].
Qed.

Lemma settles_gets {A : Type} (f : Globals -> A) : settles (gets f).
Proof. intros w. apply settled_refl. Qed.

Lemma settles_ask {A : Type} (f : Host -> A) : settles (ask f).
Proof. intros w. apply settled_refl. Qed.

Lemma settles_Print (text : string) : settles (Print text).
Proof. intros w. split; auto. Qed.

Lemma settles_set_projectPath (p : string) : settles (assign (set_projectPath p)).
Proof. intros w. split; auto. Qed.

Lemma settles_set_paths (pp pd od sd hd : string) :
  settles (assign (set_paths pp pd od sd hd)).
Proof. intros w. split; auto. Qed.

Lemma settles_os_Stat (name : string) : settles (os_Stat name).
Proof. intros w. rewrite os_Stat_run. apply settled_refl. Qed.

Lemma settles_os_Open (name : string) : settles (os_Open name).
Proof.
  intros w. unfold run, os_Open.
  destruct (decide _); [| destruct (_ !! _)]; apply settled_refl.
Qed.

Lemma settled_insert (name data : string) (w : World) :
  settled w (with_fs (with_files (<[name := data]> (files (fs w))) (fs w)) w).
Proof.
  split; cbn; auto. intros p Hp.
  destruct (decide (name = p)) as [-> | Hne].
  - rewrite lookup_insert_eq. eauto.
  - now rewrite lookup_insert_ne.
Qed.

Lemma settles_os_Create (name : string) : settles (os_Create name).
Proof.
  intros w. unfold run, os_Create.
  destruct (decide _); [apply settled_refl | apply settled_insert].
Qed.

Lemma settles_file_Write (name data : string) :
  settles (file_Write name data).
Proof. intros w. apply settled_insert. Qed.

Lemma settles_bufio_Flush (name data : string) :
  settles (bufio_Flush name data).
Proof.
  intros w. unfold run, bufio_Flush.
  destruct (_ !! _); [destruct (_ <? _)%nat |]; apply settled_insert.
Qed.

Lemma settles_os_MkdirAll (path : string) : settles (os_MkdirAll path).
Proof.
  intros w. unfold run, os_MkdirAll.
  destruct (decide _); [apply settled_refl |].
  destruct (_ !! _); [apply settled_refl |].
  split; cbn; auto. set_solver.
Qed.

Create HintDb settles.

#[local] Hint Resolve settles_gets settles_ask settles_Print
  settles_set_projectPath settles_set_paths settles_os_Stat settles_os_Open
  settles_os_Create settles_file_Write settles_bufio_Flush
  settles_os_MkdirAll : settles.

Ltac settles_step :=
  match goal with
  | |- settles (ret _) => apply settles_ret
  | |- settles (bind _ _) => apply settles_bind; [| intro]
  | |- settles (match ?x with _ => _ end) => destruct x
  | |- settles _ => solve [auto with settles]
  end.

Ltac settles_auto := cbv zeta; repeat settles_step.

Lemma settles_cp (dst src : string) : settles (cp dst src).
Proof. unfold cp. settles_auto. Qed.

Lemma settles_GMObjectFileToHumanObjectFile (o h : string) :
  settles (GMObjectFileToHumanObjectFile o h).
Proof. unfold GMObjectFileToHumanObjectFile. settles_auto. Qed.

#[local] Hint Resolve settles_cp settles_GMObjectFileToHumanObjectFile
  : settles.

Lemma settles_main_translate_f (v : Visit) : settles (main_translate_f v).
Proof. unfold main_translate_f. settles_auto. Qed.

Lemma settles_main_copy_f (v : Visit) : settles (main_copy_f v).
Proof. unfold main_copy_f. settles_auto. Qed.

Lemma settles_walk_each (visits : list Visit) (fn : Visit -> M WalkRet) :
  (forall v, settles (fn v)) -> settles (walk_each visits fn).
Proof.
  intros Hfn. induction visits as [| v rest IH]; cbn [walk_each];
    settles_auto; auto.
Qed.

Lemma settles_filepath_Walk (root : string) (fn : Visit -> M WalkRet) :
  (forall v, settles (fn v)) -> settles (filepath_Walk root fn).
Proof.
  intros Hfn. unfold filepath_Walk. settles_auto.
  now apply settles_walk_each.
Qed.

Lemma settles_main_arguments : settles main_arguments.
Proof. unfold main_arguments. settles_auto. Qed.

#[local] Hint Resolve settles_main_arguments : settles.
#[local] Hint Extern 1 (settles (filepath_Walk _ main_translate_f)) =>
  apply settles_filepath_Walk, settles_main_translate_f : settles.
#[local] Hint Extern 1 (settles (filepath_Walk _ main_copy_f)) =>
  apply settles_filepath_Walk, settles_main_copy_f : settles.

Lemma settles_main : settles main.
Proof. unfold main. settles_auto. Qed.

(** X13. Whatever way start-up ends, it leaves the project document, the
    refused paths and the four variables of the timing gate as they were,
    and removes no folder and no file (it never cleans up after a failure
    either). *)
Theorem startup_removes_nothing (w : World) :
  let w' := run main w in
  project w' = project w /\
  denied (fs w') = denied (fs w) /\
  folders (fs w) ⊆ folders (fs w') /\
  (forall p, is_Some (files (fs w) !! p) -> is_Some (files (fs w') !! p)) /\
  (gmChanged (vars w'), humanChanged (vars w'),
   lastGMFileChanged (vars w'), lastHumanFileChanged (vars w'))
  = (gmChanged (vars w), humanChanged (vars w),
     lastGMFileChanged (vars w), lastHumanFileChanged (vars w)).
Proof.
  intros w'. destruct (settles_main w) as [H1 H2 H3 H4 H5].
  repeat split; assumption.
Qed.


Lemma main_arguments_fs (w : World) : fs (run main_arguments w) = fs w.
Proof.
  unfold run, main_arguments, bind, ask, ret, Print. cbn [fst snd].
  destruct (length (os_Args (host w)) <? 2)%nat; cbn [fst snd].
  - destruct (dialog_Load (host w)); reflexivity.
  - destruct ((length (os_Args (host w)) =? 2)%nat
              && (nth 1 (os_Args (host w)) "" =? "--help")%string);
      [reflexivity |].
    destruct (length (os_Args (host w)) =? 2)%nat; reflexivity.
Qed.

Lemma os_MkdirAll_failed (path : string) (w : World) (e : PathError) :
  value (os_MkdirAll path) w = Some e -> run (os_MkdirAll path) w = w.
Proof.
  unfold value, run, os_MkdirAll.
  destruct (decide _); [reflexivity |].
  destruct (_ !! _); [reflexivity | discriminate].
Qed.

Lemma os_MkdirAll_made (path : string) (w : World) :
  value (os_MkdirAll path) w = None ->
  path ∈ folders (fs (run (os_MkdirAll path) w)).
Proof.
  unfold value, run, os_MkdirAll.
  destruct (decide _); [discriminate |].
  destruct (_ !! _); [discriminate |]. intros _. cbn. set_solver.
Qed.

(** X14. With more than one argument after the program name, or with
    [--help] as the only one, [main] prints the usage text and returns;
    nothing else in the world changes. *)
Theorem usage_and_nothing_else (w : World) :
  (2 < length (os_Args (host w)))%nat \/
  (length (os_Args (host w)) = 2%nat /\
   nth 1 (os_Args (host w)) "" = "--help") ->
  main w
  = (Returned, with_stdout (stdout w ++ [(usage ++ nl)%string])%list w).
Proof.
  intros H. unfold main, main_arguments, bind, ask, ret, Print.
  cbn [fst snd].
  destruct H as [H | [H1 H2]].
  - destruct (Nat.ltb_spec (length (os_Args (host w))) 2); [lia |].
    destruct (Nat.eqb_spec (length (os_Args (host w))) 2); [lia |].
    reflexivity.
  - rewrite H1, H2. reflexivity.
Qed.

(** X15. [main] touches the file system only for a project path that is
    an existing file, and what it has made it leaves behind: if the file
    system after [main] differs from the one before, then the arguments
    gave a path, the path was found to be a file, and the human folder
    next to it exists afterwards, whether [main] went on to listen or gave
    up. *)
Theorem files_change_only_for_a_project_file (w : World) :
  (fs (run main w) <> fs w) ->
  exists path,
    value main_arguments w = Some path /\
    value (os_Stat path) w = Ok false /\
    Str.Join [fst (Str.SplitPath path); "gm_txt"] ∈ folders (fs (run main w)).
Proof.
  unfold main. rewrite run_bind.
  destruct (value main_arguments w) as [path |] eqn:Hargs.
  2:{ change (run (ret Returned) (run main_arguments w))
        with (run main_arguments w).
      rewrite main_arguments_fs. congruence. }
  rewrite run_bind. cbv beta.
  change (run (assign (set_projectPath path)) (run main_arguments w))
    with (with_vars (set_projectPath path (vars (run main_arguments w)))
            (run main_arguments w)).
  rewrite run_bind, os_Stat_run. cbv beta.
  rewrite (os_Stat_value_fs path (with_vars _ _) w)
    by (cbn; apply main_arguments_fs).
  destruct (value (os_Stat path) w) as [[|] | e] eqn:Hst.
  1,3: rewrite run_bind; cbn; rewrite main_arguments_fs; congruence.
  cbv zeta. rewrite run_bind. cbv beta.
  match goal with
  | |- context [run (assign (set_paths ?a ?b ?c ?d ?e)) ?x] =>
      change (run (assign (set_paths a b c d e)) x)
        with (with_vars (set_paths a b c d e (vars (run main_arguments w)))
                (run main_arguments w))
  end.
  rewrite run_bind. cbv beta.
  match goal with
  | |- context [value (os_MkdirAll ?hd) ?w2] =>
      destruct (value (os_MkdirAll hd) w2) as [e |] eqn:Hmk
  end.
  - rewrite (os_MkdirAll_failed _ _ _ Hmk), run_bind. cbn.
    rewrite main_arguments_fs. congruence.
  - intros _. exists path. split; [reflexivity |]. split; [exact Hst |].
    match goal with
    | |- _ ∈ folders (fs (run ?K ?w3)) =>
        assert (HK : settles K) by settles_auto;
        apply (settled_folders _ _ (HK w3))
    end.
    apply os_MkdirAll_made, Hmk.
Qed.


Create HintDb startup.

#[local] Hint Resolve framed_time_Now framed_Print framed_logLine
  framed_main_arguments : startup.
#[local] Hint Extern 1 (framed (filepath_Walk _ main_translate_f)) =>
  apply framed_filepath_Walk, framed_main_translate_f : startup.
#[local] Hint Extern 1 (framed (filepath_Walk _ main_copy_f)) =>
  apply framed_filepath_Walk, framed_main_copy_f : startup.
#[local] Hint Extern 1 (framed (ask _)) =>
  apply offscreen_framed, offscreen_ask : startup.

Ltac framed_step :=
  match goal with
  | |- framed (ret _) => apply framed_ret
  | |- framed (bind _ _) => apply framed_bind; [| intro]
  | |- framed (match ?x with _ => _ end) => destruct x
  | |- framed _ => solve [auto with startup]
  end.

Ltac framed_auto := cbv zeta; repeat framed_step.

(** X16. When [main] gets to listen, the five path variables hold the
    project path, its directory part, and that directory joined with
    [objects], [scripts] and [gm_txt]; the other variables are untouched;
    and the [gm_txt] folder exists. *)
Theorem listening_world (w : World) :
  value main w = Listening ->
  exists path,
    value main_arguments w = Some path /\
    vars (run main w)
    = set_paths path (fst (Str.SplitPath path))
        (Str.Join [fst (Str.SplitPath path); "objects"])
        (Str.Join [fst (Str.SplitPath path); "scripts"])
        (Str.Join [fst (Str.SplitPath path); "gm_txt"])
        (vars w) /\
    Str.Join [fst (Str.SplitPath path); "gm_txt"]
      ∈ folders (fs (run main w)).
Proof.
  intros H. apply main_listening in H.
  destruct H as [path [Hargs H]]. cbv zeta in H.
  destruct H as [Hst [Hmk _]].
  exists path. split; [exact Hargs |].
  unfold main. rewrite run_bind, Hargs. rewrite run_bind. cbv beta.
  change (run (assign (set_projectPath path)) (run main_arguments w))
    with (with_vars (set_projectPath path (vars (run main_arguments w)))
            (run main_arguments w)).
  rewrite run_bind, os_Stat_run. cbv beta.
  rewrite (os_Stat_value_fs path (with_vars _ _) (run main_arguments w))
    by reflexivity.
  rewrite Hst. cbv zeta. rewrite run_bind. cbv beta.
  match goal with
  | |- context [run (assign (set_paths ?a ?b ?c ?d ?e)) ?x] =>
      change (run (assign (set_paths a b c d e)) x)
        with (with_vars (set_paths a b c d e (vars (run main_arguments w)))
                (run main_arguments w))
  end.
  rewrite run_bind. cbv beta. rewrite Hmk.
  match goal with
  | |- context [run ?K (run (os_MkdirAll ?hd) ?w2)] =>
      assert (HF : framed K) by framed_auto;
      assert (HS : settles K) by settles_auto;
      pose proof (frame_vars _ _ (HF (run (os_MkdirAll hd) w2))) as Hv;
      pose proof (settled_folders _ _ (HS (run (os_MkdirAll hd) w2))) as Hf
  end.
  split.
  - rewrite Hv, (unseen_vars _ _ (offscreen_os_MkdirAll _ _)).
    cbn [vars with_vars].
    rewrite (frame_vars _ _ (framed_main_arguments w)). reflexivity.
  - apply Hf, os_MkdirAll_made, Hmk.
Qed.

Lemma classify_empty (g : Globals) : classify g "" = Unrelated.
Proof. unfold classify. cbn. now rewrite !andb_false_r. Qed.

(** X17. Nothing is suppressed at the start: start-up leaves the variables
    of the timing gate at their zero values, so after it the first write
    event under a root with a matching extension passes the gate as soon
    as the clock reads more than [reverbSpacing] past the zero time. *)
Theorem first_event_is_acted_on (event : Event) (s : Side) (w : World) :
  vars w = zeroGlobals ->
  Op event = Write ->
  side_of (classify (vars (run main w)) (Name event)) = Some s ->
  reverbSpacing < clock (run main w) (ticks (run main w)) ->
  acted_on event (run main w).
Proof.
  intros Hz Hop Hs Hclock.
  pose proof (settled_timing _ _ (settles_main w)) as Ht.
  rewrite Hz in Ht. cbn in Ht. injection Ht as Hg Hh Hlg Hlh.
  split; [exact Hop |]. exists s. split; [exact Hs |].
  rewrite timingOk_value. unfold gate_verdict.
  assert (Hne : Name event <> "").
  { intros E. rewrite E, classify_empty in Hs. discriminate. }
  assert (Hopp : lastOwnChangeTime (opposite s) (vars (run main w)) = 0)
    by (destruct s; assumption).
  assert (Hlast : lastOwnChangedPath s (vars (run main w)) = "")
    by (destruct s; assumption).
  rewrite Hopp, Hlast, Z.sub_0_r.
  destruct (Z.ltb_spec reverbSpacing
              (clock (run main w) (ticks (run main w)))); [| lia].
  destruct (String.eqb_spec "" (Name event)); [congruence | reflexivity].
Qed.

End Startup.

(** * More on scripts, the watcher loop and leaving *)

Section Scripts.

Context {codec : Codec}.

Lemma cp_project (dst src : string) (w : World) :
  project (run (cp dst src) w) = project w.
Proof.
  unfold run, cp, bind, ret, os_Open, os_Create, file_Write.
  destruct (decide (src ∈ denied (fs w))); cbn [fst snd]; [reflexivity |].
  destruct (files (fs w) !! src); cbn [fst snd]; [| reflexivity].
  destruct (decide (dst ∈ denied (fs w))); reflexivity.
Qed.

Lemma project_update (missing : bool) (name kind group text : string)
    (w : World) :
  project (run (if missing
                then
                  let* err := AppendResourceToGMProject name kind group in
                  match err with
                  | Some e => logLine e
                  | None => logLine text
                  end
                else ret tt) w)
  = if missing
    then match AppendManifestEntry (project w) group name kind with
         | Ok m => m
         | Err _ => project w
         end
    else project w.
Proof.
  destruct missing; [| reflexivity].
  unfold run, bind, AppendResourceToGMProject.
  destruct (AppendManifestEntry (project w) group name kind); reflexivity.
Qed.

(** X18. A script written in the human folder is entered in the [scripts]
    group of the project document exactly when no native script of that
    file name existed before the copy, whether the copy itself succeeds or
    not; it is entered under its file name, extension included. *)
Theorem script_is_listed_when_native_was_missing (humanScriptPath : string)
    (w : World) :
  let fn := Str.Base humanScriptPath in
  let gmScriptPath := Str.Join [gmScriptsDir (vars w); fn] in
  let w' := run (copyHumanScript humanScriptPath) w in
  (files (fs w) !! gmScriptPath = None ->
   gmScriptPath ∉ folders (fs w) ->
   project w'
   = match AppendManifestEntry (project w) "scripts" fn "script" with
     | Ok m => m
     | Err _ => project w
     end)
  /\
  (is_Some (files (fs w) !! gmScriptPath) \/ gmScriptPath ∈ folders (fs w) ->
   project w' = project w).
Proof.
  intros fn gmScriptPath w'. subst w'.
  unfold copyHumanScript. cbv zeta. fold fn.
  rewrite run_bind, run_gets, value_gets. cbv beta. fold gmScriptPath.
  rewrite run_bind, os_Stat_run. cbv beta.
  rewrite run_bind. cbv beta. rewrite run_bind. cbv beta.
  rewrite project_update.
  assert (Hlog : forall w0,
            project (run (match value (cp gmScriptPath humanScriptPath) w with
                          | Some e => logLine e
                          | None =>
                              logLine ("Copied "
                                ++ Str.first (Str.Split fn Str.dot))
                          end) w0) = project w0)
    by (intros w0; destruct (value (cp gmScriptPath humanScriptPath) w);
        reflexivity).
  rewrite Hlog, cp_project.
  split.
  - intros Hf Hd. unfold value, os_Stat.
    destruct (decide _); [contradiction |]. rewrite Hf. reflexivity.
  - intros H. unfold value, os_Stat.
    destruct (decide _); [reflexivity |].
    destruct H as [[c Hc] | H]; [| contradiction]. rewrite Hc. reflexivity.
Qed.

End Scripts.

Section Loop.

Context {codec : Codec}.

Lemma rooted_refl (w : World) : rooted w w.
Proof. now split. Qed.

Lemma rooted_trans (w1 w2 w3 : World) :
  rooted w1 w2 -> rooted w2 w3 -> rooted w1 w3.
Proof. intros [] []. split; congruence. Qed.

Lemma roots_ret {A : Type} (a : A) : roots (ret a).
Proof. intros w. apply rooted_refl. Qed.

Lemma roots_bind {A B : Type} (m : M A) (k : A -> M B) :
  roots m -> (forall a, roots (k a)) -> roots (bind m k).
Proof.
  intros Hm Hk w. unfold run, bind.
  eapply rooted_trans; [apply Hm | apply Hk].
Qed.

Lemma roots_gets {A : Type} (f : Globals -> A) : roots (gets f).
Proof. intros w. apply rooted_refl. Qed.

Lemma roots_time_Now : roots time_Now.
Proof. intros w. now split. Qed.

Lemma roots_time_Since (t : Z) : roots (time_Since t).
Proof. intros w. now split. Qed.

Lemma roots_Print (text : string) : roots (Print text).
Proof. intros w. now split. Qed.

Lemma roots_set_gmChanged (t : Z) : roots (assign (set_gmChanged t)).
Proof. intros w. now split. Qed.

Lemma roots_set_humanChanged (t : Z) : roots (assign (set_humanChanged t)).
Proof. intros w. now split. Qed.

Lemma roots_set_lastGMFileChanged (p : string) :
  roots (assign (set_lastGMFileChanged p)).
Proof. intros w. now split. Qed.

Lemma roots_set_lastHumanFileChanged (p : string) :
  roots (assign (set_lastHumanFileChanged p)).
Proof. intros w. now split. Qed.

Lemma roots_os_Stat (name : string) : roots (os_Stat name).
Proof. intros w. rewrite os_Stat_run. apply rooted_refl. Qed.

Lemma roots_os_Open (name : string) : roots (os_Open name).
Proof.
  intros w. unfold run, os_Open.
  destruct (decide _); [| destruct (_ !! _)]; apply rooted_refl.
Qed.

Lemma roots_os_Create (name : string) : roots (os_Create name).
Proof.
  intros w. unfold run, os_Create.
  destruct (decide _); [apply rooted_refl | now split].
Qed.

Lemma roots_file_Write (name data : string) : roots (file_Write name data).
Proof. intros w. now split. Qed.

Lemma roots_bufio_Flush (name data : string) : roots (bufio_Flush name data).
Proof.
  intros w. unfold run, bufio_Flush.
  destruct (_ !! _); [destruct (_ <? _)%nat |]; now split.
Qed.

Lemma roots_AppendResourceToGMProject (name kind group : string) :
  roots (AppendResourceToGMProject name kind group).
Proof.
  intros w. unfold run, AppendResourceToGMProject.
  destruct (AppendManifestEntry _ _ _ _); now split.
Qed.

Create HintDb roots.

#[local] Hint Resolve roots_gets roots_time_Now roots_time_Since roots_Print
  roots_set_gmChanged roots_set_humanChanged roots_set_lastGMFileChanged
  roots_set_lastHumanFileChanged roots_os_Stat roots_os_Open roots_os_Create
  roots_file_Write roots_bufio_Flush roots_AppendResourceToGMProject : roots.

Ltac roots_step :=
  match goal with
  | |- roots (ret _) => apply roots_ret
  | |- roots (bind _ _) => apply roots_bind; [| intro]
  | |- roots (match ?x with _ => _ end) => destruct x
  | |- roots _ => solve [auto with roots]
  end.

Ltac roots_auto := cbv zeta; repeat roots_step.

Lemma roots_cp (dst src : string) : roots (cp dst src).
Proof. unfold cp. roots_auto. Qed.

Lemma roots_logLine (text : string) : roots (logLine text).
Proof. unfold logLine. roots_auto. Qed.

Lemma roots_GMObjectFileToHumanObjectFile (o h : string) :
  roots (GMObjectFileToHumanObjectFile o h).
Proof. unfold GMObjectFileToHumanObjectFile. roots_auto. Qed.

Lemma roots_HumanObjectFileToGMObjectFile (h o : string) :
  roots (HumanObjectFileToGMObjectFile h o).
Proof. unfold HumanObjectFileToGMObjectFile. roots_auto. Qed.

#[local] Hint Resolve roots_cp roots_logLine
  roots_GMObjectFileToHumanObjectFile roots_HumanObjectFileToGMObjectFile
  : roots.

Lemma roots_translateHumanObject (p : string) : roots (translateHumanObject p).
Proof. unfold translateHumanObject. roots_auto. Qed.

Lemma roots_translateGMObject (p : string) : roots (translateGMObject p).
Proof. unfold translateGMObject. roots_auto. Qed.

Lemma roots_copyHumanScript (p : string) : roots (copyHumanScript p).
Proof. unfold copyHumanScript. roots_auto. Qed.

Lemma roots_copyGMScript (p : string) : roots (copyGMScript p).
Proof. unfold copyGMScript. roots_auto. Qed.

Lemma roots_humanFileTimingOk (p : string) : roots (humanFileTimingOk p).
Proof. unfold humanFileTimingOk. roots_auto. Qed.

Lemma roots_gmFileTimingOk (p : string) : roots (gmFileTimingOk p).
Proof. unfold gmFileTimingOk. roots_auto. Qed.

#[local] Hint Resolve roots_translateHumanObject roots_translateGMObject
  roots_copyHumanScript roots_copyGMScript roots_humanFileTimingOk
  roots_gmFileTimingOk : roots.

Lemma roots_processWatcherEvent (event : Event) :
  roots (processWatcherEvent event).
Proof. unfold processWatcherEvent. roots_auto. Qed.

Lemma roots_watch (incoming : list Incoming) : roots (watch incoming).
Proof.
  induction incoming as [| m rest IH]; cbn [watch]; [apply roots_ret |].
  destruct m; apply roots_bind; auto using roots_processWatcherEvent,
    roots_Print.
Qed.

(** X19. However many events and watcher errors arrive, and whatever they
    lead to, the watcher loop never changes the five path variables, the
    clock or the host, and never makes or removes a folder or changes what
    the system refuses; so a path keeps its class for the whole of the
    watch. *)
Theorem watching_keeps_the_roots (incoming : list Incoming) (w : World) :
  let w' := run (watch incoming) w in
  (humanDir (vars w'), projectPath (vars w'), projectDir (vars w'),
   gmObjectsDir (vars w'), gmScriptsDir (vars w'))
  = (humanDir (vars w), projectPath (vars w), projectDir (vars w),
     gmObjectsDir (vars w), gmScriptsDir (vars w)) /\
  clock w' = clock w /\
  host w' = host w /\
  folders (fs w') = folders (fs w) /\
  denied (fs w') = denied (fs w) /\
  (forall p, classify (vars w') p = classify (vars w) p).
Proof.
  intros w'. subst w'.
  destruct (roots_watch incoming w) as [Hp Hc Hh Hf Hd].
  repeat split; try assumption.
  intros p. injection Hp as H1 H2 H3 H4 H5.
  unfold classify. now rewrite H1, H4, H5.
Qed.

End Loop.

Section LeavingProofs.

Context {codec : Codec}.

Lemma refused_below_spec (f : FileSys) (root q : string) :
  q ∈ refused_below f root <->
  below root q = true /\ q ∈ denied f /\
  (is_Some (files f !! q) \/ q ∈ folders f).
Proof.
  unfold refused_below, entries.
  rewrite list_elem_of_filter, elem_of_app, list_elem_of_fmap,
    elem_of_elements.
  split.
  - intros [[Hb Hd] [[[k c] [-> Hin]] | Hin]]; repeat split; auto.
    left. apply elem_of_map_to_list in Hin. cbn. eauto.
  - intros [Hb [Hd [[c Hc] | Hin]]]; (split; [now split |]); [left | now right].
    exists (q, c). split; [reflexivity |]. now apply elem_of_map_to_list.
Qed.

Lemma os_RemoveAll_proper (path : string) (w : World) :
  path <> "" -> endsWithDot path = false ->
  os_RemoveAll path w
  = (match refused_below (fs w) path with
     | q :: _ => Some (mkPathError "unlinkat" q EACCES)
     | [] => None
     end,
     with_fs
       (mkFileSys
          (filter (fun kv => below path (fst kv) = false \/
                             Exists (fun q => below (fst kv) q = true)
                               (refused_below (fs w) path))
             (files (fs w)))
          (filter (fun d => below path d = false \/
                            Exists (fun q => below d q = true)
                              (refused_below (fs w) path))
             (folders (fs w)))
          (denied (fs w)) (short (fs w)))
       w).
Proof.
  intros Hne Hdot. unfold os_RemoveAll. rewrite Hdot.
  destruct (String.eqb_spec path ""); [contradiction | reflexivity].
Qed.

(** X20. On the control signal [main] removes the human folder and what is
    below it, as far as the system lets it, and nothing else. Every file
    and folder that is not at or below the human folder is as it was;
    every one at or below it is gone, unless the system refuses to remove
    it or something at or below it, in which case it stays as it was.
    [Success] is printed when nothing was refused, and the error of a
    refused entry otherwise. *)
Theorem leaving_removes_the_human_folder (w : World) :
  let hd := humanDir (vars w) in
  let w' := run main_cleanup w in
  let refused q :=
    below hd q = true /\ q ∈ denied (fs w) /\
    (is_Some (files (fs w) !! q) \/ q ∈ folders (fs w)) in
  hd <> "" -> endsWithDot hd = false ->
  (forall p, below hd p = false ->
     files (fs w') !! p = files (fs w) !! p /\
     (p ∈ folders (fs w') <-> p ∈ folders (fs w))) /\
  (forall p, below hd p = true ->
     (forall q, refused q -> below p q = false) ->
     files (fs w') !! p = None /\ p ∉ folders (fs w')) /\
  (forall p q, refused q -> below p q = true ->
     files (fs w') !! p = files (fs w) !! p /\
     (p ∈ folders (fs w') <-> p ∈ folders (fs w))) /\
  ((forall q, ~ refused q) ->
   stdout w' = (stdout w ++ [("Success" ++ nl)%string])%list) /\
  (forall q0, refused q0 ->
   exists q, refused q /\
     stdout w'
     = (stdout w
        ++ [("Error removing gm_txt directory " ++ hd ++ ": "
             ++ PathError_Error (mkPathError "unlinkat" q EACCES)
             ++ nl)%string])%list).
Proof.
  intros hd w' refused Hne Hdot. subst w'.
  unfold main_cleanup. rewrite run_bind, run_gets, value_gets. cbv beta.
  fold hd. rewrite run_bind. cbv beta.
  unfold value, run. rewrite (os_RemoveAll_proper hd w Hne Hdot).
  cbn [fst snd].
  assert (Hspec : forall q, q ∈ refused_below (fs w) hd <-> refused q)
    by (intros q; apply refused_below_spec).
  assert (Hkeep : forall p,
             below hd p = false \/
             Exists (fun q => below p q = true) (refused_below (fs w) hd) ->
             forall v : World,
               fs v = mkFileSys
                        (filter (fun kv => below hd (fst kv) = false \/
                                   Exists (fun q => below (fst kv) q = true)
                                     (refused_below (fs w) hd))
                           (files (fs w)))
                        (filter (fun d => below hd d = false \/
                                   Exists (fun q => below d q = true)
                                     (refused_below (fs w) hd))
                           (folders (fs w)))
                        (denied (fs w)) (short (fs w)) ->
               files (fs v) !! p = files (fs w) !! p /\
               (p ∈ folders (fs v) <-> p ∈ folders (fs w))).
  { intros p Hp v ->. cbn [files folders]. split.
    - destruct (files (fs w) !! p) as [c |] eqn:E.
      + apply map_lookup_filter_Some. now split.
      + apply map_lookup_filter_None. now left.
    - rewrite elem_of_filter. tauto. }
  assert (Hfs : forall text,
             fs (snd (Print text
                        (with_fs
                           (mkFileSys
                              (filter (fun kv => below hd (fst kv) = false \/
                                         Exists
                                           (fun q => below (fst kv) q = true)
                                           (refused_below (fs w) hd))
                                 (files (fs w)))
                              (filter (fun d => below hd d = false \/
                                         Exists (fun q => below d q = true)
                                           (refused_below (fs w) hd))
                                 (folders (fs w)))
                              (denied (fs w)) (short (fs w))) w)))
             = mkFileSys
                 (filter (fun kv => below hd (fst kv) = false \/
                            Exists (fun q => below (fst kv) q = true)
                              (refused_below (fs w) hd))
                    (files (fs w)))
                 (filter (fun d => below hd d = false \/
                            Exists (fun q => below d q = true)
                              (refused_below (fs w) hd))
                    (folders (fs w)))
                 (denied (fs w)) (short (fs w)))
    by reflexivity.
  assert (Hfs' : forall e : option PathError,
             fs (snd (match e with
                      | Some e =>
                          Print ("Error removing gm_txt directory " ++ hd
                                 ++ ": " ++ PathError_Error e ++ nl)
                      | None => Print ("Success" ++ nl)
                      end
                        (with_fs
                           (mkFileSys
                              (filter (fun kv => below hd (fst kv) = false \/
                                         Exists
                                           (fun q => below (fst kv) q = true)
                                           (refused_below (fs w) hd))
                                 (files (fs w)))
                              (filter (fun d => below hd d = false \/
                                         Exists (fun q => below d q = true)
                                           (refused_below (fs w) hd))
                                 (folders (fs w)))
                              (denied (fs w)) (short (fs w))) w)))
             = mkFileSys
                 (filter (fun kv => below hd (fst kv) = false \/
                            Exists (fun q => below (fst kv) q = true)
                              (refused_below (fs w) hd))
                    (files (fs w)))
                 (filter (fun d => below hd d = false \/
                            Exists (fun q => below d q = true)
                              (refused_below (fs w) hd))
                    (folders (fs w)))
                 (denied (fs w)) (short (fs w)))
    by (intros [e |]; reflexivity).
  repeat split.
  - apply Hkeep; [now left | apply Hfs'].
  - apply (Hkeep p); [now left | apply Hfs'].
  - apply (Hkeep p); [now left | apply Hfs'].
  - rewrite Hfs'. cbn [files].
    apply map_lookup_filter_None. right. intros c _ [Hb | Hex]; cbn in *.
    + congruence.
    + apply Exists_exists in Hex. destruct Hex as [q [Hq Hbq]].
      apply Hspec in Hq. rewrite (H0 q Hq) in Hbq. discriminate.
  - rewrite Hfs'. cbn [folders]. rewrite elem_of_filter.
    intros [[Hb | Hex] _]; [congruence |].
    apply Exists_exists in Hex. destruct Hex as [q [Hq Hbq]].
    apply Hspec in Hq. rewrite (H0 q Hq) in Hbq. discriminate.
  - apply Hkeep; [| apply Hfs']. right. apply Exists_exists.
    exists q. split; [now apply Hspec | assumption].
  - apply (Hkeep p); [| apply Hfs']. right. apply Exists_exists.
    exists q. split; [now apply Hspec | assumption].
  - apply (Hkeep p); [| apply Hfs']. right. apply Exists_exists.
    exists q. split; [now apply Hspec | assumption].
  - intros Hno. destruct (refused_below (fs w) hd) as [| q l] eqn:E;
      [reflexivity |].
    exfalso. apply (Hno q), Hspec. left.
  - intros q0 Hq0. apply Hspec in Hq0.
    destruct (refused_below (fs w) hd) as [| q l] eqn:E.
    + inversion Hq0.
    + exists q. split; [apply Hspec; left | reflexivity].
Qed.

End LeavingProofs.

(** * The earlier program *)

Section Earlier.

Context {codec : Codec}.

Lemma splitN_from_one (sep : ascii) (l cur : list ascii) :
  NiceObjects.splitN_from sep cur l 1 = [Str.unchars (rev cur ++ l)].
Proof. destruct l; reflexivity. Qed.

Lemma splitN_from_two (sep : ascii) (a l cur : list ascii) :
  Forall (fun c => c <> sep) a ->
  NiceObjects.splitN_from sep cur (a ++ sep :: l) 2
  = [Str.unchars (rev cur ++ a); Str.unchars l].
Proof.
  intros Ha. revert cur. induction Ha as [| c a Hc Ha IH]; intros cur.
  - cbn. rewrite Ascii.eqb_refl, app_nil_r, splitN_from_one. reflexivity.
  - cbn [app NiceObjects.splitN_from].
    destruct (Ascii.eqb_spec c sep) as [E | _]; [contradiction |].
    rewrite IH. cbn [rev]. now rewrite <- app_assoc.
Qed.

Lemma SplitN_two (stem tail : string) :
  Forall (fun c => c <> Str.dot) (Str.chars stem) ->
  NiceObjects.SplitN (stem ++ "." ++ tail) Str.dot 2 = [stem; tail].
Proof.
  intros H. unfold NiceObjects.SplitN. cbn [Z.ltb Z.compare Z.to_nat].
  rewrite !chars_app. cbn [Str.chars list_ascii_of_string app].
  change (Z.to_nat 2) with 2%nat.
  change "."%char with Str.dot.
  rewrite (splitN_from_two Str.dot (Str.chars stem) (Str.chars tail) [] H).
  cbn [rev app]. now rewrite !unchars_chars.
Qed.

(** X21. In the earlier program the initial pass and the event handler
    agree on names, because the pass takes only what the handler would
    name alike: for a file [dir/stem.tail] with a dot-free stem, the walk
    function translates it, onto [NiceObjects/stem.ogml] as a later event
    for the file will, exactly when the tail is [object.gmx]; any other
    file, an object with a dot in its stem among them, it passes over
    without touching anything. *)
Theorem earlier_pass_agrees_with_events (dir stem tail : string) (e : error)
    (w : World) :
  stem <> "" ->
  Forall (fun c => c <> Str.slash /\ c <> Str.dot) (Str.chars stem) ->
  Forall (fun c => c <> Str.slash) (Str.chars tail) ->
  let path := dir ++ "/" ++ stem ++ "." ++ tail in
  let target := Str.Join [NiceObjects.humanDir; stem ++ ".ogml"] in
  (tail = "object.gmx" ->
   fs (run (NiceObjects.initialTranslateWalkFunc
              (mkVisit path (Some false) e)) w)
   = fs (run (GMObjectFileToHumanObjectFile path target) w) /\
   fs (run (NiceObjects.translateGMObject path) w)
   = fs (run (GMObjectFileToHumanObjectFile path target) w))
  /\
  (tail <> "object.gmx" ->
   NiceObjects.initialTranslateWalkFunc (mkVisit path (Some false) e) w
   = (WalkNil, w)).
Proof.
  intros Hne Hstem Htail path target.
  assert (Hdot : Forall (fun c => c <> Str.dot) (Str.chars stem))
    by (eapply Forall_impl; [exact Hstem |]; intros c [_ H]; exact H).
  assert (Hbase : Str.Base path = stem ++ "." ++ tail).
  { subst path. apply Base_of_joined.
    - destruct stem; [contradiction | discriminate].
    - rewrite !chars_app. cbn [Str.chars list_ascii_of_string app].
      apply Forall_app. split.
      + eapply Forall_impl; [exact Hstem |]. intros c [H _]. exact H.
      + constructor; [discriminate | exact Htail]. }
  split.
  - intros ->. split.
    + unfold NiceObjects.initialTranslateWalkFunc. cbn [v_info v_path].
      cbv zeta. rewrite Hbase, (SplitN_two stem "object.gmx" Hdot).
      cbn [length Nat.eqb nth String.eqb Ascii.eqb Bool.eqb andb negb].
      fold target. rewrite run_bind. cbv beta.
      destruct (value (GMObjectFileToHumanObjectFile path target) w);
        reflexivity.
    + pose proof (objName_is_cut_at_first_dot dir stem "object.gmx" Hne
                    Hstem Htail) as Hname.
      fold path in Hname.
      unfold NiceObjects.translateGMObject. cbv zeta. rewrite Hname.
      fold target. rewrite run_bind. cbv beta.
      destruct (value (GMObjectFileToHumanObjectFile path target) w);
        reflexivity.
  - intros Hother.
    unfold NiceObjects.initialTranslateWalkFunc. cbn [v_info v_path].
    cbv zeta. rewrite Hbase, (SplitN_two stem tail Hdot).
    cbn [length Nat.eqb nth andb].
    destruct (String.eqb_spec tail "object.gmx"); [contradiction |].
    reflexivity.
Qed.


Lemma time_Since_eq (t : Z) (w : World) :
  time_Since t w = (Sub (clock w (ticks w)) t, with_ticks (S (ticks w)) w).
Proof. reflexivity. Qed.

Lemma logLine_effect (text : string) (w0 w1 : World) :
  unseen w0 w1 ->
  ticks (run (logLine text) w1) = S (ticks w0) /\
  clock (run (logLine text) w1) = clock w0 /\
  vars (run (logLine text) w1) = vars w0 /\
  length (stdout (run (logLine text) w1)) = S (length (stdout w0)).
Proof.
  intros [Hv Hc Hh Ht Ho]. unfold run, logLine, bind, time_Now, Print.
  cbn. rewrite Ho, length_app. cbn. repeat split; try congruence; lia.
Qed.

Lemma earlier_translateHumanObject_effect (p : string) (w : World) :
  ticks (run (NiceObjects.translateHumanObject p) w) = S (ticks w) /\
  clock (run (NiceObjects.translateHumanObject p) w) = clock w /\
  vars (run (NiceObjects.translateHumanObject p) w) = vars w /\
  length (stdout (run (NiceObjects.translateHumanObject p) w))
  = S (length (stdout w)).
Proof.
  unfold NiceObjects.translateHumanObject. cbv zeta.
  rewrite run_bind. cbv beta.
  destruct (value (HumanObjectFileToGMObjectFile p _) w);
    apply logLine_effect, offscreen_HumanObjectFileToGMObjectFile.
Qed.

Lemma earlier_translateGMObject_effect (p : string) (w : World) :
  ticks (run (NiceObjects.translateGMObject p) w) = S (ticks w) /\
  clock (run (NiceObjects.translateGMObject p) w) = clock w /\
  vars (run (NiceObjects.translateGMObject p) w) = vars w /\
  length (stdout (run (NiceObjects.translateGMObject p) w))
  = S (length (stdout w)).
Proof.
  unfold NiceObjects.translateGMObject. cbv zeta.
  rewrite run_bind. cbv beta.
  destruct (value (GMObjectFileToHumanObjectFile p _) w);
    apply logLine_effect, offscreen_GMObjectFileToHumanObjectFile.
Qed.

Lemma gated_run (other : Globals -> Z) (body : M unit)
    (stamp : Z -> Globals -> Globals) (w : World) :
  run (let* t := gets other in
       let* since := time_Since t in
       if reverbSpacing <? since
       then
         let* _ := body in
         let* now := time_Now in
         assign (stamp now)
       else ret tt) w
  = if reverbSpacing <? clock w (ticks w) - other (vars w)
    then
      let w1 := run body (with_ticks (S (ticks w)) w) in
      with_vars (stamp (clock w1 (ticks w1)) (vars w1))
        (with_ticks (S (ticks w1)) w1)
    else with_ticks (S (ticks w)) w.
Proof.
  cbv beta delta [run bind gets time_Since time_Now assign ret].
  cbn [fst snd with_ticks vars clock ticks].
  rewrite (Sub_above _ _ _ reverbSpacing_range).
  destruct (reverbSpacing <? _); reflexivity.
Qed.

(** X22. The earlier program has the reverb test only, and stamps a side
    after its translation, not before. A write event for an [.ogml] file
    under [NiceObjects] handled within [reverbSpacing] of the last native
    change does nothing beyond one clock reading; handled later it is
    translated whatever path came last, and [humanChanged] becomes the
    clock reading taken once the translation has printed its line. The
    same holds for a [.gmx] file under the objects folder with the two
    sides exchanged. *)
Theorem earlier_event_is_stamped_afterwards (event : Event) (w : World) :
  Op event = Write ->
  (Str.HasPrefix (Name event) NiceObjects.humanDir = true ->
   Str.Ext (Name event) = ".ogml" ->
   let since := clock w (ticks w) - gmChanged (vars w) in
   let w' := run (NiceObjects.processWatcherEvent event) w in
   (since <= reverbSpacing -> w' = with_ticks (S (ticks w)) w) /\
   (reverbSpacing < since ->
    humanChanged (vars w') = clock w (S (S (ticks w))) /\
    gmChanged (vars w') = gmChanged (vars w) /\
    fs w' = fs (run (NiceObjects.translateHumanObject (Name event))
                  (with_ticks (S (ticks w)) w)) /\
    length (stdout w') = S (length (stdout w))))
  /\
  (Str.HasPrefix (Name event) NiceObjects.gmObjectsDir = true ->
   Str.Ext (Name event) = ".gmx" ->
   let since := clock w (ticks w) - humanChanged (vars w) in
   let w' := run (NiceObjects.processWatcherEvent event) w in
   (since <= reverbSpacing -> w' = with_ticks (S (ticks w)) w) /\
   (reverbSpacing < since ->
    gmChanged (vars w') = clock w (S (S (ticks w))) /\
    humanChanged (vars w') = humanChanged (vars w) /\
    fs w' = fs (run (NiceObjects.translateGMObject (Name event))
                  (with_ticks (S (ticks w)) w)) /\
    length (stdout w') = S (length (stdout w)))).
Proof.
  intros Hop. split; intros Hpre Hext since w'; subst w';
    unfold NiceObjects.processWatcherEvent; cbv zeta;
    rewrite Hext, ?Hpre, Hop; cbn [String.eqb Ascii.eqb Bool.eqb andb];
    rewrite ?andb_false_r; cbn [N.eqb Pos.eqb Write];
    rewrite gated_run; fold since;
    (split; intros Hs;
     [ destruct (Z.ltb_spec reverbSpacing since); [lia | reflexivity]
     | destruct (Z.ltb_spec reverbSpacing since); [| lia] ]);
    cbv zeta.
  - destruct (earlier_translateHumanObject_effect (Name event)
                (with_ticks (S (ticks w)) w)) as [Ht [Hc [Hv Ho]]].
    cbn [vars with_vars with_ticks fs stdout humanChanged gmChanged
         set_humanChanged].
    rewrite Hv, Hc, Ht, Ho. cbn. repeat split.
  - destruct (earlier_translateGMObject_effect (Name event)
                (with_ticks (S (ticks w)) w)) as [Ht [Hc [Hv Ho]]].
    cbn [vars with_vars with_ticks fs stdout humanChanged gmChanged
         set_gmChanged].
    rewrite Hv, Hc, Ht, Ho. cbn. repeat split.
Qed.

End Earlier.

(** * More on the handlers *)

Section Handlers.

Context {codec : Codec}.

(** X23. A mirror edit that goes through: when the native file of the
    object exists and decodes, the mirror file parses onto it and the
    encoder reports no error, [translateHumanObject] leaves the encoding
    of the merged object in the native file, leaves the project document
    alone and prints one line, [Translated] with the name. *)
Theorem mirror_edit_reaches_the_native_file (humanObjPath : string)
    (w : World) (native text encoded : string) (obj obj' : GMObject) :
  let objName := Str.first (Str.Split (Str.Base humanObjPath) Str.dot) in
  let gmObjPath :=
    Str.Join [gmObjectsDir (vars w); objName ++ ".object.gmx"] in
  files (fs w) !! gmObjPath = Some native ->
  gmObjPath ∉ denied (fs w) ->
  xml_Decode native = Ok obj ->
  files (fs w) !! humanObjPath = Some text ->
  humanObjPath ∉ denied (fs w) ->
  ReadHumanObject text obj = Ok obj' ->
  xml_Encode obj' = (encoded, None) ->
  let w' := run (translateHumanObject humanObjPath) w in
  files (fs w') !! gmObjPath = Some encoded /\
  project w' = project w /\
  stdout w'
  = (stdout w
     ++ [("[" ++ time_Format (clock w (ticks w)) ++ "] "
          ++ ("Translated " ++ objName) ++ nl)%string])%list.
Proof.
  intros objName gmObjPath Ho Hdo Hd Hh Hdh Hr He w'. subst w'.
  unfold run, translateHumanObject.
  cbv beta zeta delta [bind gets ret]. cbn [fst snd].
  fold objName. fold gmObjPath.
  destruct (os_Stat_ok gmObjPath native w Ho) as [Hs1 Hs2].
  rewrite Hs1, Hs2. cbn [negb].
  rewrite (HumanObjectFileToGMObjectFile_encoded
             humanObjPath gmObjPath w native text obj obj'
             Ho Hdo Hd Hh Hdh Hr).
  rewrite He. cbn [fst snd]. cbn. repeat split.
  apply lookup_insert_eq.
Qed.

(** X24. A native change that goes through: when the native file decodes,
    the mirror file can be created, the writer reports no error and the
    system takes the whole buffer at the final flush, [translateGMObject]
    leaves the whole human text of the object in the mirror file, leaves
    the project document alone and prints one line, [(From GM) Translated]
    with the name. *)
Theorem native_change_reaches_the_mirror_file (gmObjPath : string)
    (w : World) (native : string) (obj : GMObject) :
  let objName := Str.first (Str.Split (Str.Base gmObjPath) Str.dot) in
  let humanObjPath := Str.Join [humanDir (vars w); objName ++ ".gmo"] in
  files (fs w) !! gmObjPath = Some native ->
  gmObjPath ∉ denied (fs w) ->
  xml_Decode native = Ok obj ->
  humanObjPath ∉ denied (fs w) ->
  short (fs w) !! humanObjPath = None ->
  werr (WriteHumanObject obj) = None ->
  let w' := run (translateGMObject gmObjPath) w in
  files (fs w') !! humanObjPath
  = Some (flushed (WriteHumanObject obj) ++ pending (WriteHumanObject obj))
  /\
  project w' = project w /\
  stdout w'
  = (stdout w
     ++ [("[" ++ time_Format (clock w (ticks w)) ++ "] "
          ++ ("(From GM) Translated " ++ objName) ++ nl)%string])%list.
Proof.
  intros objName humanObjPath Ho Hdo Hd Hdh Hs He w'. subst w'.
  unfold run, translateGMObject.
  cbv beta zeta delta [bind gets ret]. cbn [fst snd].
  fold objName. fold humanObjPath.
  rewrite (GMObjectFileToHumanObjectFile_written
             gmObjPath humanObjPath w native obj Ho Hdo Hd Hdh).
  rewrite He, Hs. cbn [fst snd]. cbn. repeat split.
  apply lookup_insert_eq.
Qed.

End Handlers.

(** * The walk function and a nil [FileInfo] *)

Section Panics.

Context {codec : Codec}.

Lemma step {A B : Type} (m : M A) (k : A -> M B) (w w' : World) (a : A) :
  m w = (a, w') -> bind m k w = k a w'.
Proof. intros E. unfold bind. now rewrite E. Qed.

Lemma main_arguments_given (w : World) (path : string) :
  value main_arguments w = Some path -> main_arguments w = (Some path, w).
Proof.
  unfold value, main_arguments, bind, ask, ret, Print. cbn [fst snd].
  destruct (length (os_Args (host w)) <? 2)%nat; cbn [fst snd].
  - destruct (dialog_Load (host w)); cbn; congruence.
  - destruct ((length (os_Args (host w)) =? 2)%nat
              && (nth 1 (os_Args (host w)) "" =? "--help")%string);
      [discriminate |].
    destruct (length (os_Args (host w)) =? 2)%nat; cbn; congruence.
Qed.

Lemma os_Stat_file (name : string) (w w' : World) :
  value (os_Stat name) w = Ok false -> fs w' = fs w ->
  os_Stat name w' = (Ok false, w').
Proof.
  intros H E. unfold value in H. unfold os_Stat in *. rewrite E.
  destruct (decide _); [discriminate |].
  destruct (_ !! _); [reflexivity | discriminate].
Qed.

Lemma os_MkdirAll_new (path : string) (w : World) :
  path ∉ denied (fs w) -> files (fs w) !! path = None ->
  os_MkdirAll path w
  = (None, with_fs (with_folders ({[path]} ∪ folders (fs w)) (fs w)) w).
Proof.
  intros Hd Hf. unfold os_MkdirAll.
  destruct (decide _); [contradiction |]. now rewrite Hf.
Qed.

Lemma walk_meets_nil (root p : string) (e : error) (rest : list Visit)
    (fn : Visit -> M WalkRet) (w : World) :
  walk_visits (host w) root = mkVisit p None e :: rest ->
  fn (mkVisit p None e) w = (WalkPanic, w) ->
  filepath_Walk root fn w = (WalkPanic, w).
Proof.
  intros Hv Hfn. unfold filepath_Walk.
  rewrite (step _ _ w w (walk_visits (host w) root)) by reflexivity.
  rewrite Hv. cbn [walk_each]. now rewrite (step _ _ _ _ _ Hfn).
Qed.

(** X25. A walk function called with a nil [FileInfo], as [filepath.Walk]
    calls it for a root it cannot stat, panics at [info.IsDir()]. So a
    project without an [objects] folder stops [main] right after the human
    folder has been made, and one without a [scripts] folder stops it after
    the whole object pass: nothing is printed about it, nothing made so
    far is removed, and the watcher is never started. *)
Theorem nil_FileInfo_panics (path p : string) (e : error)
    (rest : list Visit) (w : World) :
  value main_arguments w = Some path ->
  value (os_Stat path) w = Ok false ->
  let pd := fst (Str.SplitPath path) in
  let od := Str.Join [pd; "objects"] in
  let sd := Str.Join [pd; "scripts"] in
  let hd := Str.Join [pd; "gm_txt"] in
  (hd ∉ denied (fs w)) -> files (fs w) !! hd = None ->
  let w3 := with_fs (with_folders ({[hd]} ∪ folders (fs w)) (fs w))
              (with_vars (set_paths path pd od sd hd (vars w)) w) in
  (walk_visits (host w) od = mkVisit p None e :: rest ->
   main w = (Panicked, w3))
  /\
  (value (filepath_Walk od main_translate_f) w3 = WalkNil ->
   walk_visits (host w) sd = mkVisit p None e :: rest ->
   main w = (Panicked, run (filepath_Walk od main_translate_f) w3)).
Proof.
  intros Hargs Hst pd od sd hd Hden Hfree w3.
  unfold main.
  rewrite (step _ _ _ _ _ (main_arguments_given w path Hargs)).
  rewrite (step _ _ w (with_vars (set_projectPath path (vars w)) w) tt)
    by reflexivity.
  rewrite (step _ _ _ _ _
             (os_Stat_file path w (with_vars _ w) Hst eq_refl)).
  cbv zeta. fold pd. fold od. fold sd. fold hd.
  rewrite (step (assign _) _ _
             (with_vars (set_paths path pd od sd hd (vars w)) w) tt)
    by reflexivity.
  rewrite (step _ _ _ _ _
             (os_MkdirAll_new hd (with_vars _ w) Hden Hfree)).
  fold w3.
  split.
  - intros Hv.
    rewrite (step _ _ _ _ _
               (walk_meets_nil od p e rest main_translate_f w3 Hv eq_refl)).
    reflexivity.
  - intros Hnil Hv.
    rewrite (step _ _ w3 (run (filepath_Walk od main_translate_f) w3)
               WalkNil)
      by (rewrite <- Hnil; apply surjective_pairing).
    assert (Hh : host (run (filepath_Walk od main_translate_f) w3) = host w).
    { apply (frame_host w3). apply framed_filepath_Walk.
      apply framed_main_translate_f. }
    rewrite <- Hh in Hv.
    rewrite (step _ _ _ _ _
               (walk_meets_nil sd p e rest main_copy_f _ Hv eq_refl)).
    reflexivity.
Qed.

(** X26. The earlier program has the same fault: when the walker hands
    its walk function a nil [FileInfo] first, as it does when the program
    is not started next to [example.gmx], [main] panics after printing its
    first line and making the [NiceObjects] folder, which stays. *)
Theorem earlier_nil_FileInfo_panics (p : string) (e : error)
    (rest : list Visit) (w : World) :
  (NiceObjects.humanDir ∉ denied (fs w)) ->
  files (fs w) !! NiceObjects.humanDir = None ->
  walk_visits (host w) NiceObjects.gmObjectsDir = mkVisit p None e :: rest ->
  NiceObjects.main w
  = (Panicked,
     with_fs
       (with_folders ({[NiceObjects.humanDir]} ∪ folders (fs w)) (fs w))
       (with_stdout
          (stdout w ++ [("Initializing NiceObjects directory..." ++ nl)%string])%list
          w)).
Proof.
  intros Hden Hfree Hv. unfold NiceObjects.main.
  rewrite (step (Print _) _ w (with_stdout _ w) tt) by reflexivity.
  rewrite (step _ _ _ _ _
             (os_MkdirAll_new NiceObjects.humanDir (with_stdout _ w)
                Hden Hfree)).
  cbv beta iota.
  match goal with
  | |- bind _ _ ?w2 = _ =>
      rewrite (step _ _ _ _ _
                 (walk_meets_nil NiceObjects.gmObjectsDir p e rest
                    NiceObjects.initialTranslateWalkFunc w2 Hv eq_refl))
  end.
  reflexivity.
Qed.

End Panics.

(** * Errors, the watcher loop and start-up *)

Section Liveness.

Context {codec : Codec}.

Lemma watcher_Add_step (dir label : string) (k : M Exit) (w : World) :
  exists w',
    run (let* err := ask (fun h => watcher_Add h dir) in
         let* _ := match err with
                   | Some e => Print (label ++ e ++ nl)
                   | None => ret tt
                   end in
         k) w
    = run k w' /\
    host w' = host w /\
    stdout w'
    = (stdout w
       ++ match watcher_Add (host w) dir with
          | Some e => [(label ++ e ++ nl)%string]
          | None => []
          end)%list.
Proof.
  unfold run, bind, ask. cbn [fst snd].
  destruct (watcher_Add (host w) dir) as [e |].
  - eexists. split; [reflexivity |]. split; reflexivity.
  - exists w. split; [reflexivity |]. split; [reflexivity |].
    now rewrite app_nil_r.
Qed.

Lemma main_listening_stdout (w : World) (path : string) :
  value main w = Listening ->
  value main_arguments w = Some path ->
  let pd := fst (Str.SplitPath path) in
  let od := Str.Join [pd; "objects"] in
  let sd := Str.Join [pd; "scripts"] in
  let hd := Str.Join [pd; "gm_txt"] in
  exists earlier later,
    stdout (run main w)
    = (earlier
       ++ match watcher_Add (host w) hd with
          | Some e =>
              [("Error assigning human dir to fsnotify watcher: "
                ++ e ++ nl)%string]
          | None => []
          end
       ++ match watcher_Add (host w) od with
          | Some e =>
              [("Error assigning GM objects dir to fsnotify watcher: "
                ++ e ++ nl)%string]
          | None => []
          end
       ++ match watcher_Add (host w) sd with
          | Some e =>
              [("Error assigning GM scripts dir to fsnotify watcher: "
                ++ e ++ nl)%string]
          | None => []
          end
       ++ later)%list.
Proof.
  intros H Hargs pd od sd hd. apply main_listening in H.
  destruct H as [path' [Hargs' H]]. cbv zeta in H.
  assert (path' = path) by congruence. subst path'.
  destruct H as [Hst [Hmk [Hw1 [Hw2 Hnw]]]].
  unfold main. rewrite run_bind, Hargs. rewrite run_bind. cbv beta.
  change (run (assign (set_projectPath path)) (run main_arguments w))
    with (with_vars (set_projectPath path (vars (run main_arguments w)))
            (run main_arguments w)).
  rewrite run_bind, os_Stat_run. cbv beta.
  rewrite (os_Stat_value_fs path (with_vars _ _) (run main_arguments w))
    by reflexivity.
  rewrite Hst. cbv zeta. rewrite run_bind. cbv beta.
  match goal with
  | |- context [run (assign (set_paths ?a ?b ?c ?d ?e)) ?x] =>
      change (run (assign (set_paths a b c d e)) x)
        with (with_vars (set_paths a b c d e (vars (run main_arguments w)))
                (run main_arguments w))
  end.
  rewrite run_bind. cbv beta. rewrite Hmk.
  rewrite run_bind. cbv beta. rewrite Hw1.
  rewrite run_bind. cbv beta. rewrite Hw2.
  rewrite run_bind. cbv beta.
  match goal with
  | |- context [value (ask fsnotify_NewWatcher) ?x] => set (w5 := x)
  end.
  change (value (ask fsnotify_NewWatcher) w5)
    with (fsnotify_NewWatcher (host w5)).
  change (run (ask fsnotify_NewWatcher) w5) with w5.
  assert (Hhost : host w5 = host w).
  { subst w5.
    rewrite (frame_host _ _ (framed_filepath_Walk _ _ framed_main_copy_f _)).
    rewrite (frame_host _ _
               (framed_filepath_Walk _ _ framed_main_translate_f _)).
    rewrite (unseen_host _ _ (offscreen_os_MkdirAll _ _)).
    cbn [host with_vars]. apply (frame_host _ _ (framed_main_arguments w)). }
  rewrite Hhost, Hnw. clearbody w5. exists (stdout w5).
  fold pd. fold hd. fold od. fold sd.
  destruct (watcher_Add_step hd
              "Error assigning human dir to fsnotify watcher: "
              (let* err := ask (fun h => watcher_Add h od) in
               let* _ := match err with
                         | Some e =>
                             Print
                               ("Error assigning GM objects dir to fsnotify watcher: "
                                ++ e ++ nl)
                         | None => ret tt
                         end in
               let* err := ask (fun h => watcher_Add h sd) in
               let* _ := match err with
                         | Some e =>
                             Print
                               ("Error assigning GM scripts dir to fsnotify watcher: "
                                ++ e ++ nl)
                         | None => ret tt
                         end in
               let* _ := Print ("Listening (Ctrl-C to quit) (type " ++ dq
                                ++ "help" ++ dq ++ " for help)" ++ nl) in
               ret Listening) w5) as [w6 [E6 [H6 O6]]].
  rewrite E6.
  destruct (watcher_Add_step od
              "Error assigning GM objects dir to fsnotify watcher: "
              (let* err := ask (fun h => watcher_Add h sd) in
               let* _ := match err with
                         | Some e =>
                             Print
                               ("Error assigning GM scripts dir to fsnotify watcher: "
                                ++ e ++ nl)
                         | None => ret tt
                         end in
               let* _ := Print ("Listening (Ctrl-C to quit) (type " ++ dq
                                ++ "help" ++ dq ++ " for help)" ++ nl) in
               ret Listening) w6) as [w7 [E7 [H7 O7]]].
  rewrite E7.
  destruct (watcher_Add_step sd
              "Error assigning GM scripts dir to fsnotify watcher: "
              (let* _ := Print ("Listening (Ctrl-C to quit) (type " ++ dq
                                ++ "help" ++ dq ++ " for help)" ++ nl) in
               ret Listening) w7) as [w8 [E8 [H8 O8]]].
  rewrite E8.
  exists [("Listening (Ctrl-C to quit) (type " ++ dq ++ "help" ++ dq
           ++ " for help)" ++ nl)%string].
  change (stdout (run _ w8))
    with (stdout w8
          ++ [("Listening (Ctrl-C to quit) (type " ++ dq ++ "help" ++ dq
               ++ " for help)" ++ nl)%string])%list.
  rewrite O8, H7, O7, H6, O6, Hhost, <- !app_assoc. reflexivity.
Qed.

Lemma classify_rooted (w w' : World) (p : string) :
  rooted w w' -> classify (vars w') p = classify (vars w) p.
Proof.
  intros [Hp _ _ _ _]. injection Hp as H1 H2 H3 H4 H5.
  unfold classify. now rewrite H1, H4, H5.
Qed.


End Liveness.

(** * More runs on the sample project *)

Section MoreRuns.

Import Sample More.

Ltac by_running :=
  first [vm_compute; reflexivity | vm_compute; discriminate | cbn; lia].

Ltac spelled :=
  unfold Str.chars; cbn [list_ascii_of_string];
  repeat constructor; discriminate.

Lemma mirror_written_whole_witness :
  value (GMObjectFileToHumanObjectFile enemy_gmx enemy_gmo) short_of_room
  = None /\
  files (fs (run (GMObjectFileToHumanObjectFile enemy_gmx enemy_gmo)
               short_of_room)) !! enemy_gmo
  = Some "<obj".
Proof.
  destruct (mirror_written_whole (codec := Sample.codec)
              enemy_gmx enemy_gmo short_of_room "<object/>" "<object/>")
    as [Hv [_ Hshort]]; [by_running .. |].
  split; [exact Hv |].
  apply (Hshort 4%nat); by_running.
Defined.

Lemma failed_writer_leaves_flushed_part_witness :
  value (GMObjectFileToHumanObjectFile (codec := brittle)
           enemy_gmx enemy_gmo) unwritable
  = Some ("Error writing human object to " ++ enemy_gmo
          ++ ": unknown action") /\
  files (fs (run (GMObjectFileToHumanObjectFile (codec := brittle)
                    enemy_gmx enemy_gmo) unwritable)) !! enemy_gmo
  = Some "<!--".
Proof.
  apply (failed_writer_leaves_flushed_part (codec := brittle)
           enemy_gmx enemy_gmo unwritable "<!-- draft --><object/>"
           "unknown action" "<!-- draft --><object/>");
    by_running.
Defined.

Lemma mirror_created_only_after_decode_witness :
  exists native obj,
    files (fs at_rest) !! enemy_gmx = Some native /\
    (enemy_gmx ∉ denied (fs at_rest)) /\
    xml_Decode native = Ok obj /\ (enemy_gmo ∉ denied (fs at_rest)).
Proof.
  apply (mirror_created_only_after_decode (codec := Sample.codec)
           enemy_gmx enemy_gmo at_rest).
  intros E.
  apply (f_equal (fun w => files (fs w) !! enemy_gmo)) in E.
  vm_compute in E. discriminate.
Defined.

Lemma routines_change_only_their_output_witness :
  files (fs (run (HumanObjectFileToGMObjectFile enemy_gmo enemy_gmx)
               at_rest)) !! enemy_gmo
  = files (fs at_rest) !! enemy_gmo.
Proof.
  apply (routines_change_only_their_output (codec := Sample.codec)
           enemy_gmo enemy_gmx enemy_gmo at_rest).
  discriminate.
Defined.

Lemma nil_means_native_encoded_witness :
  exists native obj text obj' encoded,
    files (fs at_rest) !! enemy_gmx = Some native /\
    xml_Decode native = Ok obj /\
    files (fs at_rest) !! enemy_gmo = Some text /\
    ReadHumanObject text obj = Ok obj' /\
    xml_Encode obj' = (encoded, None) /\
    files (fs (run (HumanObjectFileToGMObjectFile enemy_gmo enemy_gmx)
                 at_rest)) !! enemy_gmx
    = Some encoded.
Proof.
  apply (nil_means_native_encoded (codec := Sample.codec)
           enemy_gmo enemy_gmx at_rest).
  by_running.
Defined.

Lemma there_and_back_witness :
  let w1 := run (GMObjectFileToHumanObjectFile enemy_gmx enemy_gmo) at_rest in
  let w2 := run (HumanObjectFileToGMObjectFile enemy_gmo enemy_gmx) w1 in
  value (GMObjectFileToHumanObjectFile enemy_gmx enemy_gmo) at_rest = None /\
  value (HumanObjectFileToGMObjectFile enemy_gmo enemy_gmx) w1 = None /\
  files (fs w2) !! enemy_gmx = Some "<object/>" /\
  files (fs w2) !! enemy_gmo = Some "<object/>".
Proof.
  apply (there_and_back (codec := Sample.codec)
           enemy_gmx enemy_gmo at_rest "<object/>" "<object/>");
    by_running.
Defined.

Lemma echo_is_dropped_witness :
  let w1 := run (processWatcherEvent enemy_written) at_rest in
  run (processWatcherEvent enemy_saved) w1 = with_ticks (S (ticks w1)) w1.
Proof.
  apply (echo_is_dropped (codec := Sample.codec) Mirror
           enemy_written enemy_saved at_rest); by_running.
Defined.

Lemma event_keeps_roots_and_other_side_witness :
  lastOwnChangeTime Native
    (vars (run (processWatcherEvent enemy_written) at_rest))
  = lastOwnChangeTime Native (vars at_rest).
Proof.
  apply (event_keeps_roots_and_other_side (codec := Sample.codec)
           enemy_written at_rest).
  vm_compute. discriminate.
Defined.

Lemma roots_are_string_prefixes_witness :
  run (processWatcherEvent neighbour_written) at_rest
  = run (translateHumanObject (Name neighbour_written))
      (run (record_change Mirror (Name neighbour_written))
         (run (humanFileTimingOk (Name neighbour_written)) at_rest)).
Proof.
  apply (proj1 (roots_are_string_prefixes (codec := Sample.codec)
                  neighbour_written "_old/Enemy.gmo" at_rest eq_refl));
    by_running.
Defined.

Lemma only_a_bare_write_is_handled_witness :
  N.testbit (Op written_and_chmod) 1 = true /\
  processWatcherEvent written_and_chmod at_rest = (tt, at_rest).
Proof.
  split; [reflexivity |].
  apply (only_a_bare_write_is_handled (codec := Sample.codec)).
  vm_compute. discriminate.
Defined.

Lemma handlers_address_the_stem_witness :
  fs (run (translateGMObject enemy_gmx) at_rest)
  = fs (run (GMObjectFileToHumanObjectFile enemy_gmx enemy_gmo) at_rest)
  /\
  fs (run (translateHumanObject enemy_gmx) at_rest)
  = fs (run (HumanObjectFileToGMObjectFile enemy_gmx enemy_gmx) at_rest).
Proof.
  apply (handlers_address_the_stem (codec := Sample.codec)
           "/proj/objects" "Enemy" "object.gmx" at_rest);
    [discriminate | spelled | spelled].
Defined.

Lemma initial_pass_keeps_the_whole_stem_witness :
  fs (run (main_translate_f (mkVisit dotted_gmx (Some false) None)) dotted)
  = fs (run (GMObjectFileToHumanObjectFile dotted_gmx dotted_gmo) dotted).
Proof.
  apply (initial_pass_keeps_the_whole_stem (codec := Sample.codec)
           "/proj/objects" "My.Enemy" None dotted).
  spelled.
Defined.

Lemma usage_and_nothing_else_witness :
  main (fresh hostTwoArgs)
  = (Returned,
     with_stdout (stdout (fresh hostTwoArgs) ++ [(usage ++ nl)%string])%list
       (fresh hostTwoArgs)).
Proof.
  apply (usage_and_nothing_else (codec := Sample.codec)).
  left. vm_compute. lia.
Defined.

Lemma files_change_only_for_a_project_file_witness :
  exists path,
    value main_arguments (fresh hostOk) = Some path /\
    value (os_Stat path) (fresh hostOk) = Ok false /\
    Str.Join [fst (Str.SplitPath path); "gm_txt"]
      ∈ folders (fs (run main (fresh hostOk))).
Proof.
  apply (files_change_only_for_a_project_file (codec := Sample.codec)).
  intros E. apply (f_equal (fun f => files f !! enemy_gmo)) in E.
  vm_compute in E. discriminate.
Defined.

Lemma listening_world_witness :
  exists path,
    value main_arguments (fresh hostOk) = Some path /\
    vars (run main (fresh hostOk))
    = set_paths path (fst (Str.SplitPath path))
        (Str.Join [fst (Str.SplitPath path); "objects"])
        (Str.Join [fst (Str.SplitPath path); "scripts"])
        (Str.Join [fst (Str.SplitPath path); "gm_txt"])
        (vars (fresh hostOk)) /\
    Str.Join [fst (Str.SplitPath path); "gm_txt"]
      ∈ folders (fs (run main (fresh hostOk))).
Proof.
  apply (listening_world (codec := Sample.codec)). by_running.
Defined.

Lemma first_event_is_acted_on_witness :
  acted_on enemy_written (run main (fresh hostOk)).
Proof.
  apply (first_event_is_acted_on (codec := Sample.codec)
           enemy_written Mirror (fresh hostOk)); by_running.
Defined.

Lemma script_is_listed_when_native_was_missing_witness :
  project (run (copyHumanScript "/proj/gm_txt/move.gml") new_script)
  = [("objects", []); ("scripts", [("move.gml", "script")])].
Proof.
  apply (proj1 (script_is_listed_when_native_was_missing
                  (codec := Sample.codec) "/proj/gm_txt/move.gml"
                  new_script)); by_running.
Defined.

Lemma leaving_removes_the_human_folder_witness :
  let w' := run main_cleanup before_leaving_locked in
  (files (fs w') !! enemy_gmo = None /\ enemy_gmo ∉ folders (fs w')) /\
  (files (fs w') !! boss_gmo = Some "locked" /\
   ("/proj/gm_txt" ∈ folders (fs w') <->
    "/proj/gm_txt" ∈ folders (fs before_leaving_locked))).
Proof.
  destruct (leaving_removes_the_human_folder before_leaving_locked)
    as [_ [Hgone [Hkept _]]].
  - vm_compute. discriminate.
  - vm_compute. reflexivity.
  - assert (Hboss : below "/proj/gm_txt" boss_gmo = true /\
                    boss_gmo ∈ denied (fs before_leaving_locked) /\
                    (is_Some (files (fs before_leaving_locked) !! boss_gmo) \/
                     boss_gmo ∈ folders (fs before_leaving_locked))).
    { split; [vm_compute; reflexivity |].
      split; [vm_compute; set_solver | left; vm_compute; eauto]. }
    split.
    + apply (Hgone enemy_gmo); [vm_compute; reflexivity |].
      intros q [_ [Hd _]]. unfold before_leaving_locked in Hd.
      cbn [fs denied] in Hd. apply elem_of_singleton in Hd. subst q.
      vm_compute. reflexivity.
    + split.
      * apply (proj1 (Hkept boss_gmo boss_gmo Hboss eq_refl)).
      * apply (proj2 (Hkept "/proj/gm_txt" boss_gmo Hboss eq_refl)).
Defined.

Lemma earlier_pass_agrees_with_events_witness :
  fs (run (NiceObjects.initialTranslateWalkFunc
             (mkVisit earlier_gmx (Some false) None)) earlier)
  = fs (run (GMObjectFileToHumanObjectFile earlier_gmx earlier_ogml) earlier)
  /\
  fs (run (NiceObjects.translateGMObject earlier_gmx) earlier)
  = fs (run (GMObjectFileToHumanObjectFile earlier_gmx earlier_ogml) earlier).
Proof.
  apply (proj1 (earlier_pass_agrees_with_events (codec := Sample.codec)
                  "example.gmx/objects" "Enemy" "object.gmx" None earlier
                  ltac:(discriminate) ltac:(spelled) ltac:(spelled))).
  reflexivity.
Defined.

Lemma earlier_event_is_stamped_afterwards_witness :
  humanChanged
    (vars (run (NiceObjects.processWatcherEvent (mkEvent earlier_ogml Write))
             earlier))
  = clock earlier 2.
Proof.
  refine (proj1 (proj2 (proj1 (earlier_event_is_stamped_afterwards
                                 (codec := Sample.codec)
                                 (mkEvent earlier_ogml Write) earlier
                                 eq_refl) _ _) _));
    by_running.
Defined.

Lemma mirror_edit_reaches_the_native_file_witness :
  let w' := run (translateHumanObject enemy_gmo) at_rest in
  files (fs w') !! enemy_gmx = Some "edited" /\
  project w' = project at_rest /\
  stdout w' = [("[12:00:00] Translated Enemy" ++ nl)%string].
Proof.
  apply (mirror_edit_reaches_the_native_file (codec := Sample.codec)
           enemy_gmo at_rest "<object/>" "edited" "edited"
           "<object/>" "edited"); by_running.
Defined.

Lemma native_change_reaches_the_mirror_file_witness :
  let w' := run (translateGMObject enemy_gmx) at_rest in
  files (fs w') !! enemy_gmo = Some "<object/>" /\
  project w' = project at_rest /\
  stdout w' = [("[12:00:00] (From GM) Translated Enemy" ++ nl)%string].
Proof.
  apply (native_change_reaches_the_mirror_file (codec := Sample.codec)
           enemy_gmx at_rest "<object/>" "<object/>"); by_running.
Defined.

Lemma startup_removes_nothing_witness :
  is_Some (files (fs (run main (fresh hostOk))) !! enemy_gmx).
Proof.
  refine (proj1 (proj2 (proj2 (proj2 (startup_removes_nothing
                                        (codec := Sample.codec)
                                        (fresh hostOk)))))
            enemy_gmx _).
  vm_compute. eauto.
Defined.

Lemma nil_FileInfo_panics_witness :
  value main (fresh hostNoScripts) = Panicked.
Proof.
  refine (f_equal fst
            (proj2 (nil_FileInfo_panics (codec := Sample.codec)
                      "/proj/game.project.gmx" "/proj/scripts"
                      (Some "lstat /proj/scripts: no such file or directory")
                      [] (fresh hostNoScripts) _ _ _ _) _ _));
    first [vm_compute; reflexivity | vm_compute; set_solver].
Defined.

Lemma earlier_nil_FileInfo_panics_witness :
  value NiceObjects.main (fresh hostElsewhere) = Panicked.
Proof.
  refine (f_equal fst
            (earlier_nil_FileInfo_panics (codec := Sample.codec)
               "example.gmx/objects"
               (Some "lstat example.gmx/objects: no such file or directory")
               [] (fresh hostElsewhere) _ _ _));
    first [vm_compute; reflexivity | vm_compute; set_solver].
Defined.


End MoreRuns.
